(** * TaskPlanner: the interval task model and the pointer gestures

    A shallow embedding of [src/TaskPlanner.tsx].  The React component keeps
    its state in [useState] cells; here the cells are the fields of one
    record [State], and every event handler is a function on that record.

    Conventions of the embedding.
    - A JavaScript string is a [string]: a sequence of code units, compared
      code unit by code unit.  Code units above 255 are outside the model.
    - [string | null] is [option string]; the truthiness test of JavaScript
      ([x && ...], [x || y]) is [truthy] / [orElse]: [null] and the empty
      string are falsy.
    - Pixel measures are IEEE binary64 numbers, as in JavaScript.
    - A handler closes over the state of the render that installed it and
      queues updates.  A handler [h] is therefore a function [h snap pending]:
      it reads [snap], and applies its updates to [pending].
    - [Date.now()] and [new Date()] read the clock: the code that calls them
      takes the reading as a parameter [now].
    - Code that can throw returns an [option]: [None] is the exception.
      An update a handler queues runs when React renders next; when it
      throws, it is that render that fails. *)

From Stdlib Require Import ZArith List Bool String Ascii Lia PrimFloat.
From Stdlib Require Import DecimalString DecimalPos DecimalZ.
Import ListNotations.
Local Open Scope string_scope.
Local Open Scope bool_scope.

(** ** JavaScript values *)

Module JS.

(** [ToBoolean] on [string | null]. *)
Definition truthy (x : option string) : bool :=
  match x with
  | Some s => negb (String.eqb s "")
  | None => false
  end.

(** [x || y] where [x : string | null] and [y : string]. *)
Definition orElse (x : option string) (y : string) : string :=
  match x with
  | Some s => if String.eqb s "" then y else s
  | None => y
  end.

(** [a <= b] on strings. *)
Definition le (a b : string) : bool := String.leb a b.

(** [a >= b] on strings. *)
Definition ge (a b : string) : bool := String.leb b a.

(** [s.split(c)[0]]: the part of [s] before the first [c]. *)
Fixpoint split0 (c : ascii) (s : string) : string :=
  match s with
  | EmptyString => EmptyString
  | String a s' => if Ascii.eqb a c then EmptyString else String a (split0 c s')
  end.

(** White space and line terminators among the code units up to 255:
    TAB, LF, VT, FF, CR, SP and NBSP. *)
Definition isWhiteSpace (c : ascii) : bool :=
  let n := N_of_ascii c in
  ((9 <=? n) && (n <=? 13) || (n =? 32) || (n =? 160))%N.

Fixpoint trimStart (s : string) : string :=
  match s with
  | EmptyString => EmptyString
  | String c s' => if isWhiteSpace c then trimStart s' else s
  end.

Fixpoint trimEnd (s : string) : string :=
  match s with
  | EmptyString => EmptyString
  | String c s' =>
      match trimEnd s' with
      | EmptyString =>
          if isWhiteSpace c then EmptyString else String c EmptyString
      | r => String c r
      end
  end.

(** [s.trim()] *)
Definition trim (s : string) : string := trimEnd (trimStart s).

(** The lower-case mapping of a code unit up to 255: the letters A to Z
    and the capital letters of Latin-1 (C0 to DE but the sign D7). *)
Definition toLowerCaseUnit (c : ascii) : ascii :=
  let n := N_of_ascii c in
  if ((65 <=? n) && (n <=? 90)
      || (192 <=? n) && (n <=? 222) && negb (n =? 215))%N
  then ascii_of_N (n + 32) else c.

(** [s.toLowerCase()], on the strings of the model: for code units up to
    255 the mapping of the language is this one, unit by unit; its one
    rule that looks at the context, for a final sigma, is about a code
    unit above 255. *)
Fixpoint toLowerCase (s : string) : string :=
  match s with
  | EmptyString => EmptyString
  | String c s' => String (toLowerCaseUnit c) (toLowerCase s')
  end.

(** [s.includes(sub)] *)
Fixpoint includes (s sub : string) : bool :=
  if String.prefix sub s then true
  else match s with
       | EmptyString => false
       | String _ s' => includes s' sub
       end.

(** The first and the last code unit of a string. *)
Definition firstUnit (s : string) : option ascii :=
  match s with
  | EmptyString => None
  | String c _ => Some c
  end.

Fixpoint lastUnit (s : string) : option ascii :=
  match s with
  | EmptyString => None
  | String c EmptyString => Some c
  | String _ s' => lastUnit s'
  end.

(** Whether the code unit [c] occurs in [s]. *)
Fixpoint occurs (c : ascii) (s : string) : bool :=
  match s with
  | EmptyString => false
  | String a s' => Ascii.eqb a c || occurs c s'
  end.

(** [n.toString()] for an integer [n] below 1e21 in absolute value:
    its decimal digits, after a minus sign when negative. *)
Definition toString (n : Z) : string :=
  NilZero.string_of_int (Z.to_int n).

End JS.

(** ** Date objects

    The part of ECMAScript's Date the component uses, after the algorithms
    of the language specification ("Date Objects": Day, YearFromTime,
    MonthFromTime, DateFromTime, WeekDay, MakeDay, MakeDate, TimeClip, the
    Date constructor, [setDate], [toISOString] and the date-only forms of the
    date-time string format).

    A time value is a number of milliseconds since the epoch, in UTC; it is
    an integer of absolute value at most 8.64e15, which a binary64 number
    holds exactly, so time arithmetic is modelled on [Z].  [None] is NaN: the
    time value of an Invalid Date.

    Local time is UTC shifted by the offset the host gives for the
    instant: the specification's implementation-defined [LocalTZA(t, isUTC)],
    here a function taken as a parameter.  [constantTZA] is a host without
    daylight-saving changes. *)

Module JSDate.
Local Open Scope Z_scope.

(** An integral number or NaN. *)
Definition Number := option Z.

Definition NaN : Number := None.

Definition add (a b : Number) : Number :=
  match a, b with Some x, Some y => Some (x + y) | _, _ => None end.

Definition sub (a b : Number) : Number :=
  match a, b with Some x, Some y => Some (x - y) | _, _ => None end.

Definition mul (a b : Number) : Number :=
  match a, b with Some x, Some y => Some (x * y) | _, _ => None end.

(** A Date object, by its time value. *)
Definition Date := option Z.

Definition msPerDay : Z := 86400000.

Definition Day (t : Z) : Z := t / msPerDay.

Definition TimeWithinDay (t : Z) : Z := t mod msPerDay.

Definition DaysInYear (y : Z) : Z :=
  if negb (y mod 4 =? 0) then 365
  else if negb (y mod 100 =? 0) then 366
  else if negb (y mod 400 =? 0) then 365
  else 366.

Definition DayFromYear (y : Z) : Z :=
  365 * (y - 1970) + (y - 1969) / 4 - (y - 1901) / 100 + (y - 1601) / 400.

Definition TimeFromYear (y : Z) : Z := msPerDay * DayFromYear y.

(** The largest [y] with [TimeFromYear y <= t]: an estimate from the mean
    length of a year, off by at most one. *)
Definition YearFromDay (d : Z) : Z :=
  let y := 1970 + (400 * d) / 146097 in
  if d <? DayFromYear y then y - 1
  else if DayFromYear (y + 1) <=? d then y + 1
  else y.

Definition YearFromTime (t : Z) : Z := YearFromDay (Day t).

(** 1 in a leap year, else 0. *)
Definition LeapOfYear (y : Z) : Z := if DaysInYear y =? 366 then 1 else 0.

Definition InLeapYear (t : Z) : Z := LeapOfYear (YearFromTime t).

Definition DayWithinYear (t : Z) : Z := Day t - DayFromYear (YearFromTime t).

Definition MonthFromTime (t : Z) : Z :=
  let d := DayWithinYear t in
  let l := InLeapYear t in
  if d <? 31 then 0
  else if d <? 59 + l then 1
  else if d <? 90 + l then 2
  else if d <? 120 + l then 3
  else if d <? 151 + l then 4
  else if d <? 181 + l then 5
  else if d <? 212 + l then 6
  else if d <? 243 + l then 7
  else if d <? 273 + l then 8
  else if d <? 304 + l then 9
  else if d <? 334 + l then 10
  else 11.

Definition DateFromTime (t : Z) : Z :=
  let d := DayWithinYear t in
  let l := InLeapYear t in
  match MonthFromTime t with
  | 0 => d + 1
  | 1 => d - 30
  | 2 => d - 58 - l
  | 3 => d - 89 - l
  | 4 => d - 119 - l
  | 5 => d - 150 - l
  | 6 => d - 180 - l
  | 7 => d - 211 - l
  | 8 => d - 242 - l
  | 9 => d - 272 - l
  | 10 => d - 303 - l
  | _ => d - 333 - l
  end.

Definition WeekDay (t : Z) : Z := (Day t + 4) mod 7.

Definition msPerHour : Z := 3600000.
Definition msPerMinute : Z := 60000.
Definition msPerSecond : Z := 1000.

Definition HourFromTime (t : Z) : Z := (t / msPerHour) mod 24.
Definition MinFromTime (t : Z) : Z := (t / msPerMinute) mod 60.
Definition SecFromTime (t : Z) : Z := (t / msPerSecond) mod 60.
Definition msFromTime (t : Z) : Z := t mod msPerSecond.

(** Days of the year before month [mn] (0 to 11) of year [ym]. *)
Definition DayWithinYearOfMonth (ym mn : Z) : Z :=
  let l := LeapOfYear ym in
  match mn with
  | 0 => 0
  | 1 => 31
  | 2 => 59 + l
  | 3 => 90 + l
  | 4 => 120 + l
  | 5 => 151 + l
  | 6 => 181 + l
  | 7 => 212 + l
  | 8 => 243 + l
  | 9 => 273 + l
  | 10 => 304 + l
  | _ => 334 + l
  end.

(** [MakeDay]: the day number of the first of month [mn] of year [ym],
    moved by [date - 1] days. *)
Definition MakeDay (year month date : Z) : Z :=
  let ym := year + month / 12 in
  let mn := month mod 12 in
  DayFromYear ym + DayWithinYearOfMonth ym mn + date - 1.

Definition MakeDate (day time : Z) : Z := day * msPerDay + time.

Definition TimeClip (t : Z) : Number :=
  if 8640000000000000 <? Z.abs t then NaN else Some t.

(** A host whose local time is UTC shifted by [offset] milliseconds at
    every instant. *)
Definition constantTZA (offset : Z) : Z -> bool -> Z := fun _ _ => offset.

Section LocalTime.
(** [LocalTZA t isUTC]: the offset of local time from UTC, in milliseconds,
    at the time value [t], which is a UTC one when [isUTC] is true and a
    local one when it is false. *)
Variable LocalTZA : Z -> bool -> Z.

Definition LocalTime (t : Z) : Z := t + LocalTZA t true.

Definition UTC (t : Z) : Z := t - LocalTZA t false.

(** [new Date(year, month, date)]: a year from 0 to 99 stands for
    1900 + year. *)
Definition ofYMD (year month date : Number) : Date :=
  match year, month, date with
  | Some y, Some m, Some dt =>
      let yr := if (0 <=? y) && (y <=? 99) then 1900 + y else y in
      TimeClip (UTC (MakeDate (MakeDay yr m dt) 0))
  | _, _, _ => NaN
  end.

Definition getFullYear (d : Date) : Number :=
  option_map (fun t => YearFromTime (LocalTime t)) d.

Definition getMonth (d : Date) : Number :=
  option_map (fun t => MonthFromTime (LocalTime t)) d.

Definition getDate (d : Date) : Number :=
  option_map (fun t => DateFromTime (LocalTime t)) d.

Definition getDay (d : Date) : Number :=
  option_map (fun t => WeekDay (LocalTime t)) d.

(** [d.setDate(date)]: the new time value of [d]. *)
Definition setDate (d : Date) (date : Number) : Date :=
  match d, date with
  | Some tv, Some dt =>
      let t := LocalTime tv in
      let newDate :=
        MakeDate (MakeDay (YearFromTime t) (MonthFromTime t) dt)
                 (TimeWithinDay t) in
      TimeClip (UTC newDate)
  | _, _ => NaN
  end.
End LocalTime.

(** [new Date(value)] for a number. *)
Definition ofNumber (n : Number) : Date :=
  match n with Some t => TimeClip t | None => NaN end.

(** [new Date(date)] for a Date object. *)
Definition copy (d : Date) : Date := d.

Definition getTime (d : Date) : Number := d.

(** *** The date-time string format *)

Definition digit (n : Z) : ascii := ascii_of_N (48 + Z.to_N n).

(** The last [k] decimal digits of [n], most significant first, before
    [acc]. *)
Fixpoint digits (k : nat) (n : Z) (acc : string) : string :=
  match k with
  | O => acc
  | S k' => digits k' (n / 10) (String (digit (n mod 10)) acc)
  end.

Definition pad2 (n : Z) : string := digits 2 n "".

Definition pad3 (n : Z) : string := digits 3 n "".

Definition pad4 (n : Z) : string := digits 4 n "".

Definition pad6 (n : Z) : string := digits 6 n "".

(** Four digits from 0 to 9999, else a sign and six digits. *)
Definition isoYear (y : Z) : string :=
  if (0 <=? y) && (y <=? 9999) then pad4 y
  else if 0 <=? y then ("+" ++ pad6 y)%string
  else ("-" ++ pad6 (- y))%string.

(** The calendar date of day number [d], as [toISOString] prints it. *)
Definition isoDateOfDay (d : Z) : string :=
  let t := d * msPerDay in
  (isoYear (YearFromTime t) ++ "-" ++ pad2 (MonthFromTime t + 1) ++ "-"
     ++ pad2 (DateFromTime t))%string.

Definition isoDate (t : Z) : string := isoDateOfDay (Day t).

Definition isoTime (t : Z) : string :=
  (pad2 (HourFromTime t) ++ ":" ++ pad2 (MinFromTime t) ++ ":"
     ++ pad2 (SecFromTime t) ++ "." ++ pad3 (msFromTime t))%string.

(** [d.toISOString()]; [None] is the RangeError of an Invalid Date. *)
Definition toISOString (d : Date) : option string :=
  match d with
  | Some t => Some (isoDate t ++ "T" ++ isoTime t ++ "Z")%string
  | None => None
  end.

Definition digitVal (c : ascii) : option Z :=
  let n := Z.of_N (N_of_ascii c) in
  if (48 <=? n) && (n <=? 57) then Some (n - 48) else None.

(** The value of a string of decimal digits, most significant first. *)
Fixpoint digitsVal (acc : Z) (l : list ascii) : option Z :=
  match l with
  | [] => Some acc
  | c :: l' =>
      match digitVal c with
      | Some v => digitsVal (10 * acc + v) l'
      | None => None
      end
  end.

Definition isDash (c : ascii) : bool := Ascii.eqb c "-".

(** The time value of the fields of a date-only string: UTC midnight.
    Month [m] of year [y] has [MakeDay y m 1 - MakeDay y (m - 1) 1]
    days. *)
Definition ofFields (y m d : Z) : Number :=
  if (1 <=? m) && (m <=? 12) && (1 <=? d)
     && (d <=? MakeDay y m 1 - MakeDay y (m - 1) 1)
  then TimeClip (MakeDate (MakeDay y (m - 1) d) 0)
  else NaN.

(** [Date.parse] on the date-only forms [YYYY-MM-DD], [+YYYYYY-MM-DD] and
    [-YYYYYY-MM-DD] of a day of the calendar, and on the empty string (NaN).
    The other forms of the format, the strings that name no day (a 30th of
    February, on which engines differ) and the fallbacks an engine adds are
    not modelled: they are NaN here, and nothing below depends on what they
    yield. *)
Definition parse (s : string) : Number :=
  match list_ascii_of_string s with
  | [y1; y2; y3; y4; s1; m1; m2; s2; d1; d2] =>
      if isDash s1 && isDash s2 then
        match digitsVal 0 [y1; y2; y3; y4], digitsVal 0 [m1; m2],
              digitsVal 0 [d1; d2] with
        | Some y, Some m, Some d => ofFields y m d
        | _, _, _ => NaN
        end
      else NaN
  | [sg; y1; y2; y3; y4; y5; y6; s1; m1; m2; s2; d1; d2] =>
      if isDash s1 && isDash s2 then
        match digitsVal 0 [y1; y2; y3; y4; y5; y6], digitsVal 0 [m1; m2],
              digitsVal 0 [d1; d2] with
        | Some y, Some m, Some d =>
            if Ascii.eqb sg "+" then ofFields y m d
            else if Ascii.eqb sg "-" && negb (y =? 0) then ofFields (- y) m d
            else NaN
        | _, _, _ => NaN
        end
      else NaN
  | _ => NaN
  end.

(** [new Date(s)] for a string. *)
Definition ofString (s : string) : Date := parse s.

End JSDate.

(** ** Types of the component *)

Inductive TaskCategory := ToDo | InProgress | Review | Completed.

Definition TaskCategory_eqb (a b : TaskCategory) : bool :=
  match a, b with
  | ToDo, ToDo | InProgress, InProgress | Review, Review
  | Completed, Completed => true
  | _, _ => false
  end.

Inductive TimeFilter := TF_all | TF_1 | TF_2 | TF_3.

Module Task.
Record t := mk {
  id : string;
  name : string;
  startDate : string;
  endDate : string;
  category : TaskCategory
}.
End Task.

Inductive ResizeType := Start | End_.

Module DragState.
Record t := mk {
  isDragging : bool;
  isResizing : bool;
  resizeType : option ResizeType;
  taskId : option string;
  startDate : option string;
  endDate : option string
}.
End DragState.

Module CreateTaskState.
Record t := mk {
  isSelecting : bool;
  startDate : option string;
  currentDate : option string
}.
End CreateTaskState.

Module ModalTaskState.
Record t := mk {
  name : string;
  category : TaskCategory;
  startDate : string;
  endDate : string
}.
End ModalTaskState.

(** The [useState] cells of the component. *)
Record State := mkState {
  currentDate : JSDate.Date;
  tasks : list Task.t;
  searchTerm : string;
  categoryFilters : list TaskCategory;
  timeFilter : TimeFilter;
  showModal : bool;
  modalTask : ModalTaskState.t;
  dragState : DragState.t;
  createTaskState : CreateTaskState.t
}.

Definition setCurrentDate (d : JSDate.Date) (p : State) : State :=
  mkState d (tasks p) (searchTerm p) (categoryFilters p) (timeFilter p)
          (showModal p) (modalTask p) (dragState p) (createTaskState p).

Definition setTasks (f : list Task.t -> list Task.t) (p : State) : State :=
  mkState (currentDate p) (f (tasks p)) (searchTerm p) (categoryFilters p)
          (timeFilter p) (showModal p) (modalTask p) (dragState p)
          (createTaskState p).

Definition setSearchTerm (x : string) (p : State) : State :=
  mkState (currentDate p) (tasks p) x (categoryFilters p) (timeFilter p)
          (showModal p) (modalTask p) (dragState p) (createTaskState p).

Definition setCategoryFilters
    (f : list TaskCategory -> list TaskCategory) (p : State) : State :=
  mkState (currentDate p) (tasks p) (searchTerm p) (f (categoryFilters p))
          (timeFilter p) (showModal p) (modalTask p) (dragState p)
          (createTaskState p).

Definition setTimeFilter (x : TimeFilter) (p : State) : State :=
  mkState (currentDate p) (tasks p) (searchTerm p) (categoryFilters p) x
          (showModal p) (modalTask p) (dragState p) (createTaskState p).

Definition setShowModal (b : bool) (p : State) : State :=
  mkState (currentDate p) (tasks p) (searchTerm p) (categoryFilters p)
          (timeFilter p) b (modalTask p) (dragState p) (createTaskState p).

Definition setModalTask (f : ModalTaskState.t -> ModalTaskState.t)
    (p : State) : State :=
  mkState (currentDate p) (tasks p) (searchTerm p) (categoryFilters p)
          (timeFilter p) (showModal p) (f (modalTask p)) (dragState p)
          (createTaskState p).

Definition setDragState (f : DragState.t -> DragState.t) (p : State) : State :=
  mkState (currentDate p) (tasks p) (searchTerm p) (categoryFilters p)
          (timeFilter p) (showModal p) (modalTask p) (f (dragState p))
          (createTaskState p).

Definition setCreateTaskState (f : CreateTaskState.t -> CreateTaskState.t)
    (p : State) : State :=
  mkState (currentDate p) (tasks p) (searchTerm p) (categoryFilters p)
          (timeFilter p) (showModal p) (modalTask p) (dragState p)
          (f (createTaskState p)).

Definition initialDragState : DragState.t :=
  DragState.mk false false None None None None.

Definition initialCreateTaskState : CreateTaskState.t :=
  CreateTaskState.mk false None None.

Definition initialModalTask : ModalTaskState.t :=
  ModalTaskState.mk "" ToDo "" "".

(** The state of the first render, at clock reading [now]. *)
Definition initialState (now : Z) : State :=
  mkState (Some now) [] "" [ToDo; InProgress; Review; Completed] TF_all
          false initialModalTask initialDragState initialCreateTaskState.

(** ** Date utilities *)

Definition formatDate (date : JSDate.Date) : option string :=
  option_map (JS.split0 "T") (JSDate.toISOString date).

Definition isDateInRange (date start end_ : string) : bool :=
  JS.ge date start && JS.le date end_.

(** [parseInt(timeFilter)] *)
Definition parseInt (f : TimeFilter) : JSDate.Number :=
  match f with
  | TF_all => JSDate.NaN
  | TF_1 => Some 1%Z
  | TF_2 => Some 2%Z
  | TF_3 => Some 3%Z
  end.

(** [categoryFilters.includes(c)] *)
Definition includesCategory (l : list TaskCategory) (c : TaskCategory)
    : bool :=
  existsb (TaskCategory_eqb c) l.


(** The code below reads local time: it takes the host's [LocalTZA]. *)
Section LocalTime.
Variable LocalTZA : Z -> bool -> Z.

Definition addDays (date : JSDate.Date) (days : JSDate.Number)
    : JSDate.Date :=
  let result := JSDate.copy date in
  JSDate.setDate LocalTZA result
    (JSDate.add (JSDate.getDate LocalTZA result) days).

(** The [while (days.length < 42)] loop of [getDaysInMonth]: [fuel] bounds
    the number of iterations, [None] is fuel run out. *)
Fixpoint getDaysInMonth_loop (fuel : nat) (days : list JSDate.Date)
    (current : JSDate.Date) : option (list JSDate.Date) :=
  if (List.length days <? 42)%nat then
    match fuel with
    | O => None
    | S fuel' =>
        getDaysInMonth_loop fuel' (days ++ [JSDate.copy current])%list
          (JSDate.setDate LocalTZA current
             (JSDate.add (JSDate.getDate LocalTZA current) (Some 1%Z)))
    end
  else Some days.

Definition getDaysInMonth (fuel : nat) (date : JSDate.Date)
    : option (list JSDate.Date) :=
  let year := JSDate.getFullYear LocalTZA date in
  let month := JSDate.getMonth LocalTZA date in
  let firstDay := JSDate.ofYMD LocalTZA year month (Some 1%Z) in
  let lastDay :=
    JSDate.ofYMD LocalTZA year (JSDate.add month (Some 1%Z)) (Some 0%Z) in
  let startDate := JSDate.copy firstDay in
  let startDate :=
    JSDate.setDate LocalTZA startDate
      (JSDate.sub (JSDate.getDate LocalTZA startDate)
                  (JSDate.getDay LocalTZA firstDay)) in
  getDaysInMonth_loop fuel [] (JSDate.copy startDate).

(** The Previous and Next buttons: [new Date(year, month -+ 1)]. *)
Definition previousMonth (s p : State) : State :=
  setCurrentDate
    (JSDate.ofYMD LocalTZA (JSDate.getFullYear LocalTZA (currentDate s))
       (JSDate.sub (JSDate.getMonth LocalTZA (currentDate s)) (Some 1%Z))
       (Some 1%Z)) p.

Definition nextMonth (s p : State) : State :=
  setCurrentDate
    (JSDate.ofYMD LocalTZA (JSDate.getFullYear LocalTZA (currentDate s))
       (JSDate.add (JSDate.getMonth LocalTZA (currentDate s)) (Some 1%Z))
       (Some 1%Z)) p.

(** ** Filtering *)

(** [filteredTasks], computed at clock reading [now]; [None] is the
    RangeError of [formatDate] on an Invalid Date. *)
Definition filteredTasks (now : Z) (s : State) : option (list Task.t) :=
  let filtered :=
    filter (fun task =>
              includesCategory (categoryFilters s) (Task.category task)
              && JS.includes (JS.toLowerCase (Task.name task))
                             (JS.toLowerCase (searchTerm s)))
           (tasks s) in
  match timeFilter s with
  | TF_all => Some filtered
  | tf =>
      let today : JSDate.Date := Some now in
      let weeks := parseInt tf in
      let futureDate := addDays today (JSDate.mul weeks (Some 7%Z)) in
      match formatDate today with
      | None => None
      | Some todayStr =>
          match formatDate futureDate with
          | None => None
          | Some futureDateStr =>
              Some (filter (fun task =>
                              JS.le (Task.startDate task) futureDateStr
                              && JS.ge (Task.endDate task) todayStr)
                           filtered)
          end
      end
  end.

Definition getTasksForDate (now : Z) (s : State) (dateStr : string)
    : option (list Task.t) :=
  option_map
    (filter (fun task =>
               isDateInRange dateStr (Task.startDate task)
                             (Task.endDate task)))
    (filteredTasks now s).

End LocalTime.

(** ** Task creation gesture *)

(** [handleMouseDown]: [onCell] is the test [e.target === e.currentTarget]. *)
Definition handleMouseDown (onCell : bool) (dateStr : string)
    (s p : State) : State :=
  if onCell then
    setCreateTaskState
      (fun _ => CreateTaskState.mk true (Some dateStr) (Some dateStr)) p
  else p.

Definition handleMouseEnter (dateStr : string) (s p : State) : State :=
  let c := createTaskState s in
  if CreateTaskState.isSelecting c && JS.truthy (CreateTaskState.startDate c)
  then setCreateTaskState
         (fun prev => CreateTaskState.mk (CreateTaskState.isSelecting prev)
                        (CreateTaskState.startDate prev) (Some dateStr)) p
  else p.

Definition handleMouseUp (s p : State) : State :=
  let c := createTaskState s in
  let p1 :=
    match CreateTaskState.startDate c, CreateTaskState.currentDate c with
    | Some a, Some b =>
        if CreateTaskState.isSelecting c
           && JS.truthy (Some a) && JS.truthy (Some b)
        then
          let start := if JS.le a b then a else b in
          let end_ := if JS.le a b then b else a in
          setShowModal true
            (setModalTask (fun _ => ModalTaskState.mk "" ToDo start end_) p)
        else p
    | _, _ => p
    end in
  setCreateTaskState (fun _ => CreateTaskState.mk false None None) p1.

(** ** Task manipulation gestures *)

(** [handleTaskMouseDown]: [clickX] is [e.clientX - rect.left] and [width]
    is [rect.width]. *)
Definition handleTaskMouseDown (clickX width : float) (taskId : string)
    (task : Task.t) (s p : State) : State :=
  let resizeType :=
    if PrimFloat.ltb clickX 10 then Some Start
    else if PrimFloat.ltb (PrimFloat.sub width 10) clickX then Some End_
    else None in
  let isSome := match resizeType with Some _ => true | None => false end in
  setDragState
    (fun _ => DragState.mk (negb isSome) (negb (negb isSome)) resizeType
                (Some taskId) (Some (Task.startDate task))
                (Some (Task.endDate task))) p.

(** [tasks.find(t => t.id === i)] *)
Definition findTask (i : string) (l : list Task.t) : option Task.t :=
  find (fun t => String.eqb (Task.id t) i) l.

(** [handleTaskDrag]: [targetDate] is the [data-date] attribute of the day
    tile under the pointer, [None] when there is none.  In a move the
    handler queues an update that calls [formatDate]; the handler itself
    returns.  The result [None] is that update throwing the RangeError of
    [formatDate] when React runs it: the render after the event fails. *)
Definition handleTaskDrag (targetDate : option string) (s p : State)
    : option State :=
  let d := dragState s in
  if negb (DragState.isDragging d) && negb (DragState.isResizing d)
  then Some p
  else
    match targetDate, DragState.taskId d with
    | Some targetDate, Some i =>
        if JS.truthy (Some targetDate) && JS.truthy (Some i) then
          match findTask i (tasks s) with
          | None => Some p
          | Some task =>
              if DragState.isDragging d then
                let taskDuration :=
                  JSDate.sub
                    (JSDate.getTime (JSDate.ofString (Task.endDate task)))
                    (JSDate.getTime (JSDate.ofString (Task.startDate task))) in
                let newEndDate :=
                  JSDate.ofNumber
                    (JSDate.add
                       (JSDate.getTime (JSDate.ofString targetDate))
                       taskDuration) in
                match formatDate newEndDate with
                | None => None
                | Some e =>
                    Some (setDragState
                            (fun prev =>
                               DragState.mk (DragState.isDragging prev)
                                 (DragState.isResizing prev)
                                 (DragState.resizeType prev)
                                 (DragState.taskId prev)
                                 (Some targetDate) (Some e)) p)
                end
              else if DragState.isResizing d then
                match DragState.resizeType d with
                | Some Start =>
                    if JS.le targetDate (Task.endDate task) then
                      Some (setDragState
                              (fun prev =>
                                 DragState.mk (DragState.isDragging prev)
                                   (DragState.isResizing prev)
                                   (DragState.resizeType prev)
                                   (DragState.taskId prev)
                                   (Some targetDate)
                                   (DragState.endDate prev)) p)
                    else Some p
                | Some End_ =>
                    if JS.ge targetDate (Task.startDate task) then
                      Some (setDragState
                              (fun prev =>
                                 DragState.mk (DragState.isDragging prev)
                                   (DragState.isResizing prev)
                                   (DragState.resizeType prev)
                                   (DragState.taskId prev)
                                   (DragState.startDate prev)
                                   (Some targetDate)) p)
                    else Some p
                | None => Some p
                end
              else Some p
          end
        else Some p
    | _, _ => Some p
    end.

Definition handleTaskDragEnd (s p : State) : State :=
  let d := dragState s in
  let p1 :=
    if JS.truthy (DragState.taskId d)
       && (JS.truthy (DragState.startDate d) || JS.truthy (DragState.endDate d))
    then
      setTasks
        (map (fun task =>
                if match DragState.taskId d with
                   | Some i => String.eqb (Task.id task) i
                   | None => false
                   end
                then Task.mk (Task.id task) (Task.name task)
                       (JS.orElse (DragState.startDate d) (Task.startDate task))
                       (JS.orElse (DragState.endDate d) (Task.endDate task))
                       (Task.category task)
                else task)) p
    else p in
  setDragState (fun _ => DragState.mk false false None None None None) p1.

(** [createTask], at clock reading [now] (the value of [Date.now()]). *)
Definition createTask (now : Z) (s p : State) : State :=
  let m := modalTask s in
  if JS.truthy (Some (JS.trim (ModalTaskState.name m))) then
    let newTask :=
      Task.mk (JS.toString now) (JS.trim (ModalTaskState.name m))
              (ModalTaskState.startDate m) (ModalTaskState.endDate m)
              (ModalTaskState.category m) in
    setModalTask (fun _ => ModalTaskState.mk "" ToDo "" "")
      (setShowModal false
         (setTasks (fun prev => (prev ++ [newTask])%list) p))
  else p.

(** ** Events

    What the rendered tree wires to the handlers.  An event runs its
    handlers against the current state, which is also the state the
    handlers were installed with.  The result of an event whose queued
    update can throw is an [option]: [None] is the render after the event
    failing, which, the component having no error boundary, unmounts it:
    no state is left and no later event reaches it. *)

(** The grid's [onMouseUp] and [onMouseLeave]: the same two calls. *)
Definition onMouseUp (s : State) : State :=
  handleTaskDragEnd s (handleMouseUp s s).

Definition onMouseLeave (s : State) : State :=
  handleTaskDragEnd s (handleMouseUp s s).

(** The grid's [onMouseMove]. *)
Definition onMouseMove (targetDate : option string) (s : State)
    : option State :=
  handleTaskDrag targetDate s s.

(** [onMouseDown] of a task chip: [handleTaskMouseDown(e, task.id, task)]. *)
Definition onTaskMouseDown (clickX width : float) (task : Task.t) (s : State)
    : State :=
  handleTaskMouseDown clickX width (Task.id task) task s s.

(** The form's fields and buttons. *)
Definition onModalName (x : string) (s : State) : State :=
  setModalTask
    (fun prev => ModalTaskState.mk x (ModalTaskState.category prev)
                   (ModalTaskState.startDate prev)
                   (ModalTaskState.endDate prev)) s.

Definition onModalCategory (x : TaskCategory) (s : State) : State :=
  setModalTask
    (fun prev => ModalTaskState.mk (ModalTaskState.name prev) x
                   (ModalTaskState.startDate prev)
                   (ModalTaskState.endDate prev)) s.

Definition onModalStartDate (x : string) (s : State) : State :=
  setModalTask
    (fun prev => ModalTaskState.mk (ModalTaskState.name prev)
                   (ModalTaskState.category prev) x
                   (ModalTaskState.endDate prev)) s.

Definition onModalEndDate (x : string) (s : State) : State :=
  setModalTask
    (fun prev => ModalTaskState.mk (ModalTaskState.name prev)
                   (ModalTaskState.category prev)
                   (ModalTaskState.startDate prev) x) s.

Definition onModalCancel (s : State) : State := setShowModal false s.

Definition onModalCreate (now : Z) (s : State) : State := createTask now s s.

(** The pointer moving over the given tiles, one [onMouseMove] after the
    other, as between the press and the release of a drag; [None] once a
    render has failed. *)
Fixpoint dragMoves (targets : list (option string)) (s : State)
    : option State :=
  match targets with
  | [] => Some s
  | target :: targets' =>
      match onMouseMove target s with
      | Some s' => dragMoves targets' s'
      | None => None
      end
  end.

(** ** The gesture a state stands for

    The specification's view of the two gesture records: one of four
    modes. *)
Inductive GestureState :=
| Idle
| Creating (anchorDate currentDate : string)
| Moving (taskId provisionalStart provisionalEnd : string)
| Resizing (taskId : string) (edge : ResizeType)
    (provisionalStart provisionalEnd : string).

Definition dragGesture (d : DragState.t) : GestureState :=
  match DragState.taskId d, DragState.startDate d, DragState.endDate d with
  | Some i, Some a, Some b =>
      if DragState.isDragging d then Moving i a b
      else if DragState.isResizing d then
        match DragState.resizeType d with
        | Some e => Resizing i e a b
        | None => Idle
        end
      else Idle
  | _, _, _ => Idle
  end.

Definition gesture (s : State) : GestureState :=
  let c := createTaskState s in
  if CreateTaskState.isSelecting c then
    match CreateTaskState.startDate c, CreateTaskState.currentDate c with
    | Some a, Some b => Creating a b
    | _, _ => Idle
    end
  else dragGesture (dragState s).

(** ** The rest of the component *)

(** How a piece of code with a loop ends: with a value, with an exception,
    or with the fuel of the model run out. *)
Inductive Outcome (A : Type) : Type :=
| Done (a : A)
| Throws
| OutOfFuel.

Arguments Done {A} a.
Arguments Throws {A}.
Arguments OutOfFuel {A}.

(** [a <= b] on Date objects: on their time values, false when one is
    NaN. *)
Definition Date_le (a b : JSDate.Date) : bool :=
  match a, b with
  | Some x, Some y => (x <=? y)%Z
  | _, _ => false
  end.

Section Selection.
Variable LocalTZA : Z -> bool -> Z.

(** The [while (current <= endDate)] loop of [getSelectionRange]. *)
Fixpoint getSelectionRange_loop (fuel : nat) (range : list string)
    (current endDate : JSDate.Date) : Outcome (list string) :=
  if Date_le current endDate then
    match fuel with
    | O => OutOfFuel
    | S fuel' =>
        match formatDate current with
        | None => Throws
        | Some k =>
            getSelectionRange_loop fuel' (range ++ [k])%list
              (JSDate.setDate LocalTZA current
                 (JSDate.add (JSDate.getDate LocalTZA current) (Some 1%Z)))
              endDate
        end
    end
  else Done range.

Definition getSelectionRange (fuel : nat) (s : State)
    : Outcome (list string) :=
  let c := createTaskState s in
  match CreateTaskState.startDate c, CreateTaskState.currentDate c with
  | Some a, Some b =>
      if negb (CreateTaskState.isSelecting c)
         || negb (JS.truthy (Some a)) || negb (JS.truthy (Some b))
      then Done []
      else
        let start := if JS.le a b then a else b in
        let end_ := if JS.le a b then b else a in
        getSelectionRange_loop fuel [] (JSDate.ofString start)
          (JSDate.ofString end_)
  | _, _ => Done []
  end.

(** The Today button: [setCurrentDate(new Date())]. *)
Definition goToday (now : Z) (s : State) : State :=
  setCurrentDate (Some now) s.

(** The Previous and Next buttons, as events. *)
Definition onPrevious (s : State) : State := previousMonth LocalTZA s s.

Definition onNext (s : State) : State := nextMonth LocalTZA s s.

(** [isCurrentMonth] of a day tile:
    [day.getMonth() === currentDate.getMonth()]; NaN equals nothing. *)
Definition isCurrentMonth (day : JSDate.Date) (s : State) : bool :=
  match JSDate.getMonth LocalTZA day,
        JSDate.getMonth LocalTZA (currentDate s) with
  | Some a, Some b => (a =? b)%Z
  | _, _ => false
  end.

(** The number a day tile shows: [day.getDate()]. *)
Definition tileLabel (day : JSDate.Date) : JSDate.Number :=
  JSDate.getDate LocalTZA day.

End Selection.

(** The key of a day tile, its [data-date]: [formatDate(day)]. *)
Definition tileKey (day : JSDate.Date) : option string := formatDate day.

(** [isToday] of a day tile, rendered at clock reading [now]:
    [formatDate(day) === formatDate(new Date())]; [None] is the exception
    of [formatDate]. *)
Definition isToday (now : Z) (day : JSDate.Date) : option bool :=
  match formatDate day, formatDate (Some now) with
  | Some a, Some b => Some (String.eqb a b)
  | _, _ => None
  end.

(** [selectionRange.includes(dateStr)] *)
Definition includesString (l : list string) (x : string) : bool :=
  existsb (String.eqb x) l.

(** The flags of a task chip on the tile of [dateStr]. *)
Definition isFirstDay (task : Task.t) (dateStr : string) : bool :=
  String.eqb (Task.startDate task) dateStr.

Definition isLastDay (task : Task.t) (dateStr : string) : bool :=
  String.eqb (Task.endDate task) dateStr.

Definition isMiddleDay (task : Task.t) (dateStr : string) : bool :=
  negb (isFirstDay task dateStr) && negb (isLastDay task dateStr).

Definition roundedClass (task : Task.t) (dateStr : string) : string :=
  if isFirstDay task dateStr && isLastDay task dateStr then "rounded"
  else if isFirstDay task dateStr then "rounded-l"
  else if isLastDay task dateStr then "rounded-r"
  else "".

(** The text of a chip: the name on the first day, nothing elsewhere. *)
Definition chipLabel (task : Task.t) (dateStr : string) : option string :=
  if isFirstDay task dateStr then Some (Task.name task) else None.

(** [disabled] of the Create Task button. *)
Definition createDisabled (s : State) : bool :=
  negb (JS.truthy (Some (JS.trim (ModalTaskState.name (modalTask s))))).

(** The other events of the rendered tree. *)
Definition onCellMouseDown (onCell : bool) (dateStr : string) (s : State)
    : State :=
  handleMouseDown onCell dateStr s s.

Definition onCellMouseEnter (dateStr : string) (s : State) : State :=
  handleMouseEnter dateStr s s.

(** A Create gesture: press on a cell, the pointer entering the given
    cells, release. *)
Definition cellEnters (cells : list string) (s : State) : State :=
  fold_left (fun st d => onCellMouseEnter d st) cells s.

(** ** Notions the properties are stated with *)

(** *** The specification's side *)

(** The transition table's reading of a press at [offset] within a chip of
    width [width]. *)
Definition classify (offset width : float) (task : Task.t) : GestureState :=
  if PrimFloat.ltb offset 10 then
    Resizing (Task.id task) Start (Task.startDate task) (Task.endDate task)
  else if PrimFloat.ltb (PrimFloat.sub width 10) offset then
    Resizing (Task.id task) End_ (Task.startDate task) (Task.endDate task)
  else Moving (Task.id task) (Task.startDate task) (Task.endDate task).

(** The specification's [rangesIntersect]. *)
Definition rangesIntersect (aStart aEnd bStart bEnd : string) : bool :=
  JS.le aStart bEnd && JS.le bStart aEnd.

(** The specification's time window: "all" or a number of weeks. *)
Definition timeWindow (f : TimeFilter) : option Z :=
  match f with
  | TF_all => None
  | TF_1 => Some 1%Z
  | TF_2 => Some 2%Z
  | TF_3 => Some 3%Z
  end.

(** The specification's [visibleTasks]: one pass over the tasks, keeping a
    task iff its category is enabled, its lower-cased name contains the
    lower-cased search text and, under a window of [w] weeks, its range
    intersects the one from day [today] to day [today + 7 * w]. *)
Definition visibleTasks (l : list Task.t) (searchText : string)
    (categorySet : list TaskCategory) (window : option Z) (today : Z)
    : list Task.t :=
  filter
    (fun task =>
       existsb (TaskCategory_eqb (Task.category task)) categorySet
       && JS.includes (JS.toLowerCase (Task.name task))
                      (JS.toLowerCase searchText)
       && match window with
          | None => true
          | Some w =>
              rangesIntersect (Task.startDate task) (Task.endDate task)
                (JSDate.isoDateOfDay today)
                (JSDate.isoDateOfDay (today + 7 * w)%Z)
          end) l.

(** [l1] is [l2] with some elements left out, the others in their order. *)
Inductive Subsequence {A : Type} : list A -> list A -> Prop :=
| Subsequence_nil : Subsequence [] []
| Subsequence_keep x l1 l2 :
    Subsequence l1 l2 -> Subsequence (x :: l1) (x :: l2)
| Subsequence_drop x l1 l2 : Subsequence l1 l2 -> Subsequence l1 (x :: l2).

(** The range of a task is in order. *)
Definition ordered (t : Task.t) : Prop :=
  JS.le (Task.startDate t) (Task.endDate t) = true.

(** *** Date keys *)

(** The day numbers of 0000-01-01 and 9999-12-31: the days whose key
    [formatDate] prints in the fixed-width form [YYYY-MM-DD]. *)
Definition minKeyDay : Z := -719528.

Definition maxKeyDay : Z := 2932896.

(** [s] is the key [formatDate] gives day number [n], in fixed-width form. *)
Definition isDateKey (s : string) (n : Z) : Prop :=
  (minKeyDay <= n <= maxKeyDay)%Z /\ s = JSDate.isoDateOfDay n.

(** [s] is the key [formatDate] gives day number [n]: the days of the range
    of time values are those from -100000000 to 100000000. *)
Definition isDayKey (s : string) (n : Z) : Prop :=
  (- 100000000 <= n <= 100000000)%Z /\ s = JSDate.isoDateOfDay n.

(** No other task of [l] has the id of [task]. *)
Definition uniqueId (task : Task.t) (l : list Task.t) : Prop :=
  forall t, In t l -> Task.id t = Task.id task -> t = task.

(** A target a move of a task lasting [dur] days may point at: a date key,
    [dur] days or more before 9999-12-31. *)
Definition move_target (dur : Z) (target : option string) : Prop :=
  forall d, target = Some d ->
            exists nd, isDateKey d nd /\ (nd + dur <= maxKeyDay)%Z.

(** *** What a drag keeps true *)

(** The edge a press chooses. *)
Definition pressed_edge (clickX width : float) : option ResizeType :=
  if PrimFloat.ltb clickX 10 then Some Start
  else if PrimFloat.ltb (PrimFloat.sub width 10) clickX then Some End_
  else None.

(** What holds of the state throughout a drag of the chip of [task], pressed
    when the task list was [l]: [k] is the edge the press chose, [None] for
    a move. *)
Definition drag_inv (l : list Task.t) (task : Task.t) (k : option ResizeType)
    (st : State) : Prop :=
  let d := dragState st in
  tasks st = l
  /\ DragState.taskId d = Some (Task.id task)
  /\ DragState.resizeType d = k
  /\ DragState.isDragging d = match k with None => true | Some _ => false end
  /\ DragState.isResizing d = match k with None => false | Some _ => true end
  /\ match k with
     | Some Start =>
         DragState.endDate d = Some (Task.endDate task)
         /\ exists a, DragState.startDate d = Some a
                      /\ (JS.le (Task.startDate task) (Task.endDate task) = true
                          -> JS.le a (Task.endDate task) = true)
     | Some End_ =>
         DragState.startDate d = Some (Task.startDate task)
         /\ exists b, DragState.endDate d = Some b
                      /\ (JS.le (Task.startDate task) (Task.endDate task) = true
                          -> JS.le (Task.startDate task) b = true)
     | None => True
     end.

(** What holds of the state throughout a drag of the chip of [task] whose
    range is in order and not empty: the provisional range is in order and
    not empty, and a resize keeps the opposite edge. *)
Definition commit_inv (l : list Task.t) (task : Task.t)
    (k : option ResizeType) (st : State) : Prop :=
  let d := dragState st in
  tasks st = l
  /\ DragState.taskId d = Some (Task.id task)
  /\ DragState.resizeType d = k
  /\ DragState.isDragging d = match k with None => true | Some _ => false end
  /\ DragState.isResizing d = match k with None => false | Some _ => true end
  /\ exists a b,
       DragState.startDate d = Some a /\ DragState.endDate d = Some b
       /\ a <> "" /\ b <> "" /\ JS.le a b = true
       /\ match k with
          | Some Start => b = Task.endDate task
          | Some End_ => a = Task.startDate task
          | None => True
          end.

(** *** Sample states

    A planner opened at the clock reading 1710028800000 (2024-03-10,
    midnight UTC). *)

(** A Create gesture from 2024-03-10 to 2024-03-12 in progress. *)
Definition creating_state : State :=
  setCreateTaskState
    (fun _ => CreateTaskState.mk true (Some "2024-03-10") (Some "2024-03-12"))
    (initialState 1710028800000).

(** The task "Design review", created at 1710028800000. *)
Definition review_task : Task.t :=
  Task.mk "1710028800000" "Design review" "2024-03-10" "2024-03-12" ToDo.

(** The planner holding that task. *)
Definition review_state : State :=
  setTasks (fun _ => [review_task]) (initialState 1710028800000).

(** "Design review" pressed on its start edge and dragged over
    2024-03-11. *)
Definition resizing_state : State :=
  setDragState
    (fun _ => DragState.mk false true (Some Start) (Some "1710028800000")
                (Some "2024-03-11") (Some "2024-03-12"))
    review_state.

(** The search text REVIEW under a window of one week. *)
Definition sample_filter_state : State :=
  setTimeFilter TF_1 (setSearchTerm "REVIEW" review_state).

(** The form after a Create gesture over 2024-03-10..2024-03-12 on the
    planner that holds "Design review", with a name typed in. *)
Definition second_form_state : State :=
  onModalName "Second"
    (onMouseUp
       (setCreateTaskState
          (fun _ => CreateTaskState.mk true (Some "2024-03-10")
                      (Some "2024-03-12"))
          review_state)).

(** The same form with the end date set before the start date. *)
Definition reversed_form_state : State :=
  onModalEndDate "2024-03-01" second_form_state.

(** A Create gesture from the cell of [a] to the cell of [z], the name
    [name] typed into the form, and the confirmation at clock reading
    [now]. *)
Definition createByGesture (now : Z) (name a z : string) (s : State)
    : State :=
  onModalCreate now
    (onModalName name
       (onMouseUp (cellEnters [z] (onCellMouseDown true a s)))).

(** Two tasks created at the same clock reading: they share their id. *)
Definition first_twin : Task.t :=
  Task.mk "1710028800000" "First" "2024-03-10" "2024-03-25" ToDo.

Definition second_twin : Task.t :=
  Task.mk "1710028800000" "Second" "2024-03-10" "2024-03-12" ToDo.

Definition twin_state : State :=
  createByGesture 1710028800000 "Second" "2024-03-10" "2024-03-12"
    (createByGesture 1710028800000 "First" "2024-03-10" "2024-03-25"
       (initialState 1710028800000)).

(** A task created from the form with its start date cleared. *)
Definition blank_task : Task.t :=
  Task.mk "1710028800000" "Blank" "" "2024-03-12" ToDo.

Definition blank_state : State :=
  onModalCreate 1710028800000
    (onModalName "Blank"
       (onModalStartDate ""
          (onMouseUp
             (cellEnters ["2024-03-12"]
                (onCellMouseDown true "2024-03-10"
                   (initialState 1710028800000)))))).

(** A task of the last days of the year 9999. *)
Definition last_task : Task.t :=
  Task.mk "1710028800000" "Last" "9999-12-28" "9999-12-30" ToDo.

Definition last_state : State :=
  createByGesture 1710028800000 "Last" "9999-12-28" "9999-12-30"
    (initialState 1710028800000).

(** A task of August of the year 275760, the last month whose grid holds
    dates only. *)
Definition far_task : Task.t :=
  Task.mk "1710028800000" "Far" "+275760-08-01" "+275760-08-20" ToDo.

Definition far_state : State :=
  createByGesture 1710028800000 "Far" "+275760-08-01" "+275760-08-20"
    (initialState 1710028800000).

(** A host five hours west of Greenwich that keeps daylight-saving time,
    one hour ahead, from 2024-03-10 07:00 UTC to 2024-11-03 06:00 UTC, as
    America/New_York does in 2024.  A local time that the change skips or
    repeats is read with the offset from before the change. *)
Definition easternTZA (t : Z) (isUTC : bool) : Z :=
  if isUTC then
    if (1710054000000 <=? t)%Z && (t <? 1730613600000)%Z
    then (- 14400000)%Z else (- 18000000)%Z
  else
    if (1710039600000 <=? t)%Z && (t <? 1730599200000)%Z
    then (- 14400000)%Z else (- 18000000)%Z.

(** The day before the change to daylight-saving time on that host, half an
    hour after midnight UTC (2024-03-09T00:30Z, 19:30 of the 8th there),
    with the time filter on one week and two tasks, one on 2024-03-08 and
    one on 2024-03-16. *)
Definition earlier_task : Task.t :=
  Task.mk "1709944100000" "Earlier" "2024-03-08" "2024-03-08" ToDo.

Definition later_task : Task.t :=
  Task.mk "1709944200000" "Later" "2024-03-16" "2024-03-16" ToDo.

Definition later_state : State :=
  setTimeFilter TF_1
    (createByGesture 1709944200000 "Later" "2024-03-16" "2024-03-16"
       (createByGesture 1709944100000 "Earlier" "2024-03-08" "2024-03-08"
          (initialState 1709944100000))).
(** The keys of the days from [lo] to [hi], in order. *)
Definition keysFrom (lo hi : Z) : list string :=
  map (fun i => JSDate.isoDateOfDay (lo + Z.of_nat i)%Z)
      (seq 0 (Z.to_nat (hi - lo + 1)%Z)).

(** * Properties *)

(** ** Strings and truthiness *)

Lemma orElse_same (a : string) : JS.orElse (Some a) a = a.
Proof. unfold JS.orElse. now destruct (String.eqb a ""). Qed.

Lemma le_false_ge (a b : string) : JS.le a b = false -> JS.ge a b = true.
Proof.
  unfold JS.le, JS.ge. intros H.
  destruct (String.leb_total a b) as [E | E]; congruence.
Qed.

Lemma findTask_some (i : string) (l : list Task.t) (t : Task.t) :
  findTask i l = Some t -> In t l /\ Task.id t = i.
Proof.
  unfold findTask. intros H. apply find_some in H as [H1 H2].
  split; [assumption | now apply String.eqb_eq].
Qed.

Lemma unique_findTask (task : Task.t) (l : list Task.t) :
  In task l -> uniqueId task l -> findTask (Task.id task) l = Some task.
Proof.
  intros present unique. unfold findTask.
  destruct (find (fun t => String.eqb (Task.id t) (Task.id task)) l)
    as [t |] eqn:F.
  - apply find_some in F as [I E]. apply String.eqb_eq in E.
    f_equal. now apply unique.
  - apply (find_none _ _ F) in present.
    now rewrite String.eqb_refl in present.
Qed.

(** ** The setters touch one cell each *)

Lemma tasks_handleMouseUp (s p : State) : tasks (handleMouseUp s p) = tasks p.
Proof.
  unfold handleMouseUp.
  destruct (CreateTaskState.startDate (createTaskState s)) as [a |];
    [destruct (CreateTaskState.currentDate (createTaskState s)) as [b |] |];
    try reflexivity.
  now destruct (CreateTaskState.isSelecting (createTaskState s)
                && JS.truthy (Some a) && JS.truthy (Some b)).
Qed.

Lemma dragState_handleTaskDragEnd (s p : State) :
  dragState (handleTaskDragEnd s p) = initialDragState.
Proof. reflexivity. Qed.

Lemma createTaskState_handleTaskDragEnd (s p : State) :
  createTaskState (handleTaskDragEnd s p) = createTaskState p.
Proof.
  unfold handleTaskDragEnd.
  now destruct (JS.truthy (DragState.taskId (dragState s))
                && (JS.truthy (DragState.startDate (dragState s))
                    || JS.truthy (DragState.endDate (dragState s)))).
Qed.

Lemma createTaskState_handleMouseUp (s p : State) :
  createTaskState (handleMouseUp s p) = initialCreateTaskState.
Proof. reflexivity. Qed.

Lemma gesture_after_release (s : State) : gesture (onMouseUp s) = Idle.
Proof.
  unfold gesture, onMouseUp.
  rewrite createTaskState_handleTaskDragEnd, createTaskState_handleMouseUp.
  reflexivity.
Qed.

(** What a state in mode [Creating] holds. *)
Lemma gesture_Creating (s : State) (a b : string) :
  gesture s = Creating a b ->
  createTaskState s = CreateTaskState.mk true (Some a) (Some b).
Proof.
  unfold gesture, dragGesture.
  destruct (createTaskState s) as [sel st cu]; simpl.
  destruct sel.
  - destruct st, cu; try discriminate. now intros [= -> ->].
  - destruct (DragState.taskId (dragState s)),
      (DragState.startDate (dragState s)), (DragState.endDate (dragState s));
      try discriminate;
      destruct (DragState.isDragging (dragState s)); try discriminate;
      destruct (DragState.isResizing (dragState s)); try discriminate;
      destruct (DragState.resizeType (dragState s)); discriminate.
Qed.

(** What a drag record in mode [Moving] or [Resizing] holds. *)
Lemma dragGesture_Moving (d : DragState.t) (i a b : string) :
  dragGesture d = Moving i a b ->
  DragState.taskId d = Some i /\ DragState.startDate d = Some a
  /\ DragState.endDate d = Some b /\ DragState.isDragging d = true.
Proof.
  unfold dragGesture.
  destruct (DragState.taskId d), (DragState.startDate d),
    (DragState.endDate d); try discriminate.
  destruct (DragState.isDragging d).
  - now intros [= -> -> ->].
  - destruct (DragState.isResizing d); try discriminate.
    destruct (DragState.resizeType d); discriminate.
Qed.

Lemma dragGesture_Resizing (d : DragState.t) (i : string) (e : ResizeType)
    (a b : string) :
  dragGesture d = Resizing i e a b ->
  DragState.taskId d = Some i /\ DragState.startDate d = Some a
  /\ DragState.endDate d = Some b /\ DragState.isDragging d = false
  /\ DragState.isResizing d = true /\ DragState.resizeType d = Some e.
Proof.
  unfold dragGesture.
  destruct (DragState.taskId d), (DragState.startDate d),
    (DragState.endDate d); try discriminate.
  destruct (DragState.isDragging d); try discriminate.
  destruct (DragState.isResizing d); try discriminate.
  destruct (DragState.resizeType d); try discriminate.
  now intros [= -> -> -> ->].
Qed.

(** ** Pointer leaving the grid during a Create gesture *)

(** C2, as stated, fails: with a Create gesture from 2024-03-10 to
    2024-03-12 in progress and the form closed, the pointer leaving the grid
    opens the creation form and hands it the range. *)
Lemma onMouseLeave_creating_opens_form :
  gesture creating_state = Creating "2024-03-10" "2024-03-12"
  /\ showModal creating_state = false
  /\ showModal (onMouseLeave creating_state) = true
  /\ modalTask (onMouseLeave creating_state)
     = ModalTaskState.mk "" ToDo "2024-03-10" "2024-03-12".
Proof. repeat split. Qed.

(** C2, amended: the pointer leaving the grid during a Create gesture (no
    task being dragged, anchor and current date non-empty) ends the gesture
    as a release does: the state becomes Idle, no task is added, and the
    creation form is opened on the range from the smaller to the larger of
    the anchor and the current date. *)
Theorem onMouseLeave_creating (s : State) (a b : string) :
  gesture s = Creating a b ->
  a <> "" -> b <> "" ->
  DragState.taskId (dragState s) = None ->
  gesture (onMouseLeave s) = Idle
  /\ tasks (onMouseLeave s) = tasks s
  /\ showModal (onMouseLeave s) = true
  /\ modalTask (onMouseLeave s)
     = ModalTaskState.mk "" ToDo (if JS.le a b then a else b)
                         (if JS.le a b then b else a)
  /\ onMouseLeave s = onMouseUp s.
Proof.
  intros G Ha Hb Hd. apply gesture_Creating in G.
  apply String.eqb_neq in Ha, Hb.
  split; [apply gesture_after_release |].
  repeat split; try reflexivity;
    unfold onMouseLeave, handleTaskDragEnd, handleMouseUp;
    rewrite G, Hd; simpl; rewrite Ha, Hb; reflexivity.
Qed.

Lemma onMouseLeave_creating_witness :
  gesture (onMouseLeave creating_state) = Idle
  /\ tasks (onMouseLeave creating_state) = tasks creating_state
  /\ showModal (onMouseLeave creating_state) = true
  /\ modalTask (onMouseLeave creating_state)
     = ModalTaskState.mk "" ToDo
         (if JS.le "2024-03-10" "2024-03-12" then "2024-03-10"
          else "2024-03-12")
         (if JS.le "2024-03-10" "2024-03-12" then "2024-03-12"
          else "2024-03-10")
  /\ onMouseLeave creating_state = onMouseUp creating_state.
Proof.
  apply (onMouseLeave_creating creating_state "2024-03-10" "2024-03-12");
    [reflexivity | discriminate | discriminate | reflexivity].
Defined.

(** ** Classification of a press on a task chip *)

(** C9: a press on a task chip at offset [clickX] within a chip of width
    [width] starts Resizing(start) if [clickX < 10] (whatever the width, so
    also when [clickX > width - 10] holds as well), Resizing(end) if not and
    [clickX > width - 10], and Moving otherwise; the provisional range is
    the task's range, and the tasks are untouched. *)
Theorem handleTaskMouseDown_classifies (clickX width : float) (task : Task.t)
    (s : State) :
  let s' := onTaskMouseDown clickX width task s in
  let range g :=
    match g with
    | Moving _ a b | Resizing _ _ a b => Some (a, b)
    | _ => None
    end in
  dragGesture (dragState s') = classify clickX width task
  /\ (PrimFloat.ltb clickX 10 = true ->
      dragGesture (dragState s')
      = Resizing (Task.id task) Start (Task.startDate task)
                 (Task.endDate task))
  /\ (PrimFloat.ltb clickX 10 = false ->
      PrimFloat.ltb (PrimFloat.sub width 10) clickX = true ->
      dragGesture (dragState s')
      = Resizing (Task.id task) End_ (Task.startDate task)
                 (Task.endDate task))
  /\ (PrimFloat.ltb clickX 10 = false ->
      PrimFloat.ltb (PrimFloat.sub width 10) clickX = false ->
      dragGesture (dragState s')
      = Moving (Task.id task) (Task.startDate task) (Task.endDate task))
  /\ range (dragGesture (dragState s'))
     = Some (Task.startDate task, Task.endDate task)
  /\ tasks s' = tasks s.
Proof.
  unfold onTaskMouseDown, handleTaskMouseDown, classify, dragGesture.
  simpl.
  destruct (PrimFloat.ltb clickX 10);
    [| destruct (PrimFloat.ltb (PrimFloat.sub width 10) clickX)];
    simpl; repeat split; intros; congruence.
Qed.

(** A chip 15 pixels wide pressed at offset 7: both edge zones contain the
    press, and the start edge is taken. *)
Lemma handleTaskMouseDown_classifies_witness :
  PrimFloat.ltb 7 10 = true
  /\ PrimFloat.ltb (PrimFloat.sub 15 10) 7 = true
  /\ dragGesture (dragState (onTaskMouseDown 7 15 review_task review_state))
     = Resizing "1710028800000" Start "2024-03-10" "2024-03-12".
Proof.
  split; [reflexivity | split; [reflexivity |]].
  apply (handleTaskMouseDown_classifies 7 15 review_task review_state).
  reflexivity.
Defined.

(** ** Committing a gesture *)

(** The task list after a release: the map of [handleTaskDragEnd] over the
    tasks, when the drag record names a task and a date. *)
Lemma tasks_onMouseUp (s : State) :
  tasks (onMouseUp s)
  = if JS.truthy (DragState.taskId (dragState s))
       && (JS.truthy (DragState.startDate (dragState s))
           || JS.truthy (DragState.endDate (dragState s)))
    then
      map (fun task =>
             if match DragState.taskId (dragState s) with
                | Some i => String.eqb (Task.id task) i
                | None => false
                end
             then Task.mk (Task.id task) (Task.name task)
                    (JS.orElse (DragState.startDate (dragState s))
                               (Task.startDate task))
                    (JS.orElse (DragState.endDate (dragState s))
                               (Task.endDate task))
                    (Task.category task)
             else task) (tasks s)
    else tasks s.
Proof.
  unfold onMouseUp, handleTaskDragEnd.
  destruct (JS.truthy (DragState.taskId (dragState s))
            && (JS.truthy (DragState.startDate (dragState s))
                || JS.truthy (DragState.endDate (dragState s))));
    cbn [tasks setDragState setTasks]; now rewrite tasks_handleMouseUp.
Qed.

Lemma map_id_on {A : Type} (f : A -> A) (l : list A) :
  (forall x, In x l -> f x = x) -> map f l = l.
Proof.
  induction l as [| x l IH]; intros H; simpl; [reflexivity |].
  rewrite H by now left. f_equal. apply IH. intros y Hy. apply H. now right.
Qed.

(** C5, as stated, fails: with two tasks created at the same clock reading,
    which share their id, a press on the first and a release, with no move
    between them, commit the first task's range to the second as well: the
    provisional range is that of the pressed task, and the store is not what
    it was. *)
Lemma commit_overwrites_twin :
  tasks twin_state = [first_twin; second_twin]
  /\ dragGesture (dragState (onTaskMouseDown 50 100 first_twin twin_state))
     = Moving (Task.id first_twin) (Task.startDate first_twin)
              (Task.endDate first_twin)
  /\ tasks (onMouseUp (onTaskMouseDown 50 100 first_twin twin_state))
     = [first_twin;
        Task.mk "1710028800000" "Second" "2024-03-10" "2024-03-25" ToDo]
  /\ tasks (onMouseUp (onTaskMouseDown 50 100 first_twin twin_state))
     <> tasks twin_state.
Proof. repeat split. discriminate. Qed.

(** C5, amended: releasing a Move or Resize gesture whose provisional range
    is the range of every task that carries the gesture's id (of the pressed
    task alone, when no other task has its id) leaves the task list as it
    was, on pointer release as on the pointer leaving the grid. *)
Theorem commit_same_range_is_noop (s : State) (i a b : string) :
  (dragGesture (dragState s) = Moving i a b
   \/ exists e, dragGesture (dragState s) = Resizing i e a b) ->
  (forall t, In t (tasks s) -> Task.id t = i ->
             Task.startDate t = a /\ Task.endDate t = b) ->
  tasks (handleTaskDragEnd s s) = tasks s
  /\ tasks (onMouseUp s) = tasks s
  /\ tasks (onMouseLeave s) = tasks s.
Proof.
  intros G H.
  assert (D : DragState.taskId (dragState s) = Some i
              /\ DragState.startDate (dragState s) = Some a
              /\ DragState.endDate (dragState s) = Some b).
  { destruct G as [G | [e G]].
    - apply dragGesture_Moving in G. tauto.
    - apply dragGesture_Resizing in G. tauto. }
  destruct D as (Di & Da & Db).
  assert (M : map (fun task =>
                     if String.eqb (Task.id task) i
                     then Task.mk (Task.id task) (Task.name task)
                            (JS.orElse (Some a) (Task.startDate task))
                            (JS.orElse (Some b) (Task.endDate task))
                            (Task.category task)
                     else task) (tasks s) = tasks s).
  { apply map_id_on. intros t Ht.
    destruct (String.eqb_spec (Task.id t) i) as [E | E]; [| reflexivity].
    destruct (H t Ht E) as [<- <-]. rewrite !orElse_same. now destruct t. }
  assert (U : tasks (onMouseUp s) = tasks s).
  { rewrite tasks_onMouseUp, Di, Da, Db.
    now destruct (JS.truthy (Some i)
                  && (JS.truthy (Some a) || JS.truthy (Some b))). }
  repeat split; try exact U.
  unfold handleTaskDragEnd. rewrite Di, Da, Db.
  now destruct (JS.truthy (Some i)
                && (JS.truthy (Some a) || JS.truthy (Some b))).
Qed.

Lemma commit_same_range_is_noop_witness :
  tasks (handleTaskDragEnd (onTaskMouseDown 50 100 review_task review_state)
           (onTaskMouseDown 50 100 review_task review_state))
  = [review_task]
  /\ tasks (onMouseUp (onTaskMouseDown 50 100 review_task review_state))
     = [review_task]
  /\ tasks (onMouseLeave (onTaskMouseDown 50 100 review_task review_state))
     = [review_task].
Proof.
  apply (commit_same_range_is_noop
           (onTaskMouseDown 50 100 review_task review_state)
           "1710028800000" "2024-03-10" "2024-03-12").
  - left. reflexivity.
  - intros t [<- | []] _. split; reflexivity.
Defined.

(** ** Pointer moves *)

(** What a pointer move leaves alone. *)
Lemma onMouseMove_frame (target : option string) (s s' : State) :
  onMouseMove target s = Some s' ->
  tasks s' = tasks s
  /\ currentDate s' = currentDate s
  /\ searchTerm s' = searchTerm s
  /\ categoryFilters s' = categoryFilters s
  /\ timeFilter s' = timeFilter s
  /\ showModal s' = showModal s
  /\ modalTask s' = modalTask s
  /\ createTaskState s' = createTaskState s
  /\ DragState.isDragging (dragState s') = DragState.isDragging (dragState s)
  /\ DragState.isResizing (dragState s') = DragState.isResizing (dragState s)
  /\ DragState.resizeType (dragState s') = DragState.resizeType (dragState s)
  /\ DragState.taskId (dragState s') = DragState.taskId (dragState s).
Proof.
  unfold onMouseMove, handleTaskDrag.
  destruct (negb (DragState.isDragging (dragState s))
            && negb (DragState.isResizing (dragState s)));
    [intros [= <-]; repeat split |].
  destruct target as [d |]; [| intros [= <-]; repeat split].
  destruct (DragState.taskId (dragState s)) as [i |] eqn:Ei;
    [| intros [= <-]; rewrite ?Ei; repeat split].
  destruct (JS.truthy (Some d) && JS.truthy (Some i));
    [| intros [= <-]; rewrite ?Ei; repeat split].
  destruct (findTask i (tasks s)) as [task |];
    [| intros [= <-]; rewrite ?Ei; repeat split].
  destruct (DragState.isDragging (dragState s)) eqn:Ed.
  - destruct (formatDate _); [| discriminate].
    intros [= <-]; cbn; rewrite ?Ei, ?Ed; repeat split.
  - destruct (DragState.isResizing (dragState s)) eqn:Er;
      [| intros [= <-]; rewrite ?Ei, ?Ed, ?Er; repeat split].
    destruct (DragState.resizeType (dragState s)) as [[|] |] eqn:Et;
      [destruct (JS.le d (Task.endDate task))
      | destruct (JS.ge d (Task.startDate task)) |];
      intros [= <-]; cbn; rewrite ?Ei, ?Ed, ?Er, ?Et; repeat split.
Qed.

(** What a run of pointer moves leaves alone. *)
Lemma dragMoves_frame (targets : list (option string)) (s s' : State) :
  dragMoves targets s = Some s' ->
  tasks s' = tasks s
  /\ showModal s' = showModal s
  /\ modalTask s' = modalTask s
  /\ createTaskState s' = createTaskState s
  /\ searchTerm s' = searchTerm s
  /\ categoryFilters s' = categoryFilters s
  /\ timeFilter s' = timeFilter s
  /\ currentDate s' = currentDate s
  /\ DragState.taskId (dragState s') = DragState.taskId (dragState s)
  /\ DragState.isDragging (dragState s') = DragState.isDragging (dragState s)
  /\ DragState.isResizing (dragState s') = DragState.isResizing (dragState s)
  /\ DragState.resizeType (dragState s') = DragState.resizeType (dragState s).
Proof.
  revert s. induction targets as [| target targets IH]; intros s.
  - intros [= <-]. repeat split.
  - cbn [dragMoves].
    destruct (onMouseMove target s) as [s0 |] eqn:M; [| discriminate].
    intros D. specialize (IH s0 D).
    pose proof (onMouseMove_frame target s s0 M) as F.
    destruct IH as (I1 & I2 & I3 & I4 & I5 & I6 & I7 & I8 & I9 & I10 & I11
                    & I12).
    destruct F as (F1 & F2 & F3 & F4 & F5 & F6 & F7 & F8 & F9 & F10 & F11
                   & F12).
    repeat split; congruence.
Qed.

(** Only a move can fail: the update of a resize calls no [formatDate]. *)
Lemma onMouseMove_resizing (target : option string) (s : State) :
  DragState.isDragging (dragState s) = false ->
  exists s', onMouseMove target s = Some s'.
Proof.
  intros Ed. unfold onMouseMove, handleTaskDrag. rewrite Ed.
  destruct (negb false && negb (DragState.isResizing (dragState s)));
    [eauto |].
  destruct target as [d |]; [| eauto].
  destruct (DragState.taskId (dragState s)) as [i |]; [| eauto].
  destruct (JS.truthy (Some d) && JS.truthy (Some i)); [| eauto].
  destruct (findTask i (tasks s)) as [task |]; [| eauto].
  destruct (DragState.isResizing (dragState s)); [| eauto].
  destruct (DragState.resizeType (dragState s)) as [[|] |];
    [destruct (JS.le d (Task.endDate task))
    | destruct (JS.ge d (Task.startDate task)) |]; eauto.
Qed.

Lemma dragMoves_resizing (targets : list (option string)) (s : State) :
  DragState.isDragging (dragState s) = false ->
  exists s', dragMoves targets s = Some s'.
Proof.
  revert s. induction targets as [| target targets IH]; intros s Ed.
  - now exists s.
  - cbn [dragMoves].
    destruct (onMouseMove_resizing target s Ed) as (s0 & M). rewrite M.
    apply IH.
    destruct (onMouseMove_frame target s s0 M)
      as (_ & _ & _ & _ & _ & _ & _ & _ & F & _).
    congruence.
Qed.

(** ** Resizing never crosses the opposite edge *)

Lemma drag_inv_press (clickX width : float) (task : Task.t) (s : State) :
  drag_inv (tasks s) task (pressed_edge clickX width)
           (onTaskMouseDown clickX width task s).
Proof.
  unfold drag_inv, pressed_edge, onTaskMouseDown, handleTaskMouseDown.
  destruct (PrimFloat.ltb clickX 10);
    [| destruct (PrimFloat.ltb (PrimFloat.sub width 10) clickX)];
    simpl; repeat split; eauto.
Qed.

Lemma drag_inv_move (l : list Task.t) (task : Task.t) (k : option ResizeType)
    (target : option string) (st st' : State) :
  findTask (Task.id task) l = Some task ->
  drag_inv l task k st ->
  onMouseMove target st = Some st' ->
  drag_inv l task k st'.
Proof.
  intros F (Ht & Hi & Hk & Hd & Hr & Hrange).
  unfold onMouseMove, handleTaskDrag. rewrite Hd, Hr, Hi, Hk, Ht.
  assert (I : drag_inv l task k st) by (unfold drag_inv; tauto).
  destruct k as [e |]; simpl.
  - destruct target as [d |]; [| now intros [= <-]].
    destruct (negb (String.eqb d "") && negb (String.eqb (Task.id task) ""));
      [| now intros [= <-]].
    rewrite F.
    destruct e.
    + destruct (JS.le d (Task.endDate task)) eqn:E; [| now intros [= <-]].
      intros [= <-].
      unfold drag_inv; simpl. rewrite Hr, Hi, Hk.
      destruct Hrange as [He _].
      repeat split; eauto.
    + destruct (JS.ge d (Task.startDate task)) eqn:E; [| now intros [= <-]].
      intros [= <-].
      unfold drag_inv; simpl. rewrite Hr, Hi, Hk.
      destruct Hrange as [Hs _].
      repeat split; eauto.
  - destruct target as [d |]; [| now intros [= <-]].
    destruct (negb (String.eqb d "") && negb (String.eqb (Task.id task) ""));
      [| now intros [= <-]].
    rewrite F.
    destruct (formatDate _); [| discriminate].
    intros [= <-].
    unfold drag_inv; simpl. rewrite Hi, Hk, Hr. repeat split; eauto.
Qed.

Lemma drag_inv_moves (l : list Task.t) (task : Task.t) (k : option ResizeType)
    (targets : list (option string)) (st st' : State) :
  findTask (Task.id task) l = Some task ->
  drag_inv l task k st ->
  dragMoves targets st = Some st' ->
  drag_inv l task k st'.
Proof.
  intros F. revert st.
  induction targets as [| target targets IH]; intros st I; cbn [dragMoves].
  - now intros [= <-].
  - destruct (onMouseMove target st) as [s0 |] eqn:M; [| discriminate].
    apply IH. now apply (drag_inv_move l task k target st s0).
Qed.

(** C4, as stated, fails: with two tasks created at the same clock reading,
    which share their id, in the store, the second, 2024-03-10..2024-03-12,
    pressed on its start edge, and the pointer moved to 2024-03-20, beyond
    the provisional end: [tasks.find] yields the first task, whose end is
    2024-03-25, the test passes and the provisional range becomes
    2024-03-20..2024-03-12. *)
Lemma resize_crossing_on_twin :
  tasks twin_state = [first_twin; second_twin]
  /\ dragGesture (dragState (onTaskMouseDown 2 100 second_twin twin_state))
     = Resizing "1710028800000" Start "2024-03-10" "2024-03-12"
  /\ JS.le "2024-03-20" "2024-03-12" = false
  /\ option_map (fun st => dragGesture (dragState st))
       (onMouseMove (Some "2024-03-20")
          (onTaskMouseDown 2 100 second_twin twin_state))
     = Some (Resizing "1710028800000" Start "2024-03-20" "2024-03-12").
Proof. repeat split. Qed.

(** C4, amended: throughout a Resizing gesture on a task of the store that
    is the one [tasks.find] yields for its id (every task, when no two tasks
    share an id), a pointer move to a date [d] beyond the opposite edge
    ([d > provisionalEnd] when resizing the start, [d < provisionalStart]
    when resizing the end) leaves the state as it is; and if the task had
    [startDate <= endDate], the provisional range has
    [provisionalStart <= provisionalEnd] after every move. *)
Theorem resize_crossing_is_noop (s : State) (clickX width : float)
    (task : Task.t) (targets : list (option string)) (d : string)
    (i : string) (e : ResizeType) (a b : string) (s1 : State) :
  findTask (Task.id task) (tasks s) = Some task ->
  dragMoves targets (onTaskMouseDown clickX width task s) = Some s1 ->
  dragGesture (dragState s1) = Resizing i e a b ->
  (e = Start -> JS.le d b = false ->
   onMouseMove (Some d) s1 = Some s1)
  /\ (e = End_ -> JS.ge d a = false ->
      onMouseMove (Some d) s1 = Some s1)
  /\ (JS.le (Task.startDate task) (Task.endDate task) = true ->
      JS.le a b = true).
Proof.
  intros F D G.
  assert (I : drag_inv (tasks s) task (pressed_edge clickX width) s1)
    by (apply (drag_inv_moves _ _ _ targets
                 (onTaskMouseDown clickX width task s));
        [exact F | apply drag_inv_press | exact D]).
  apply dragGesture_Resizing in G.
  destruct G as (Gi & Ga & Gb & Gd & Gr & Ge).
  destruct I as (Ht & Hi & Hk & _ & _ & Hrange).
  rewrite Ge in Hk. rewrite <- Hk in Hrange.
  assert (N : forall x, e = Start /\ JS.le d (Task.endDate task) = false
                        \/ e = End_ /\ JS.ge d (Task.startDate task) = false ->
                        x = s1 -> onMouseMove (Some d) s1 = Some x).
  { intros x C ->. unfold onMouseMove, handleTaskDrag.
    rewrite Gd, Gr, Hi, Ge, Ht. simpl.
    destruct (negb (String.eqb d "") && negb (String.eqb (Task.id task) ""));
      [| reflexivity].
    rewrite F.
    destruct C as [[-> C] | [-> C]]; now rewrite C. }
  destruct e.
  - destruct Hrange as [He (a' & Ha' & Hle)].
    rewrite Gb in He. injection He as ->. rewrite Ga in Ha'.
    injection Ha' as ->.
    repeat split; intros; try discriminate; auto.
  - destruct Hrange as [Hs (b' & Hb' & Hle)].
    rewrite Ga in Hs. injection Hs as ->. rewrite Gb in Hb'.
    injection Hb' as ->.
    repeat split; intros; try discriminate; auto.
Qed.

(** Resizing the start of 2024-03-10..2024-03-12 to 2024-03-11, then
    pointing at 2024-03-13, beyond the end. *)
Lemma resize_crossing_is_noop_witness :
  dragGesture (dragState resizing_state)
  = Resizing "1710028800000" Start "2024-03-11" "2024-03-12"
  /\ onMouseMove (Some "2024-03-13") resizing_state = Some resizing_state
  /\ JS.le "2024-03-11" "2024-03-12" = true.
Proof.
  split; [reflexivity |].
  destruct (resize_crossing_is_noop review_state 2 100 review_task
              [Some "2024-03-11"] "2024-03-13" "1710028800000" Start
              "2024-03-11" "2024-03-12" resizing_state
              eq_refl eq_refl eq_refl) as (H1 & _ & H3).
  split; [apply H1; reflexivity | apply H3; reflexivity].
Defined.

(** ** Calendar arithmetic

    The functions of [JSDate] meet the language specification's
    characterisations: [YearFromTime t] is the year whose span of days holds
    [Day t], the fields of a time value give back its day through
    [MakeDay], and [Date.parse] reads back what [toISOString] prints. *)

Module JSDateFacts.
Import JSDate.
Local Open Scope Z_scope.

(** A year has 365 days, and one more when it is a leap year. *)
Lemma DaysInYear_cases y :
  DaysInYear y = 365 + LeapOfYear y /\ (LeapOfYear y = 0 \/ LeapOfYear y = 1).
Proof.
  unfold LeapOfYear, DaysInYear.
  destruct (y mod 4 =? 0), (y mod 100 =? 0), (y mod 400 =? 0); cbn; lia.
Qed.

(** The first day of a year is the first day of the one before, moved by
    its length. *)
Lemma DayFromYear_succ y : DayFromYear (y + 1) = DayFromYear y + DaysInYear y.
Proof.
  unfold DayFromYear, DaysInYear.
  assert (E4 : (y + 1 - 1969) / 4
               = (y - 1969) / 4 + (if y mod 4 =? 0 then 1 else 0)).
  { destruct (Z.eqb_spec (y mod 4) 0); Z.div_mod_to_equations; lia. }
  assert (E100 : (y + 1 - 1901) / 100
                 = (y - 1901) / 100 + (if y mod 100 =? 0 then 1 else 0)).
  { destruct (Z.eqb_spec (y mod 100) 0); Z.div_mod_to_equations; lia. }
  assert (E400 : (y + 1 - 1601) / 400
                 = (y - 1601) / 400 + (if y mod 400 =? 0 then 1 else 0)).
  { destruct (Z.eqb_spec (y mod 400) 0); Z.div_mod_to_equations; lia. }
  rewrite E4, E100, E400.
  assert (M1 : (y mod 100) mod 4 = y mod 4)
    by (apply Z.mod_mod_divide; now exists 25).
  assert (M2 : (y mod 400) mod 100 = y mod 100)
    by (apply Z.mod_mod_divide; now exists 4).
  destruct (Z.eqb_spec (y mod 4) 0) as [A | A];
    destruct (Z.eqb_spec (y mod 100) 0) as [B | B];
    destruct (Z.eqb_spec (y mod 400) 0) as [C | C]; cbn [negb]; try lia.
  all: try (rewrite B in M1; cbn in M1; lia).
  all: try (rewrite C in M2; cbn in M2; lia).
Qed.

(** [YearFromDay d] is the year day [d] falls in: the characterisation of
    [YearFromTime] in the language specification. *)
Lemma YearFromDay_spec d :
  DayFromYear (YearFromDay d) <= d < DayFromYear (YearFromDay d + 1).
Proof.
  unfold YearFromDay.
  set (y := 1970 + 400 * d / 146097).
  assert (Hy : 146097 * (y - 1970) <= 400 * d < 146097 * (y - 1970) + 146097).
  { subst y. Z.div_mod_to_equations. lia. }
  clearbody y.
  destruct (Z.ltb_spec d (DayFromYear y)).
  - replace (y - 1 + 1) with y by lia. split; [| lia].
    revert H. unfold DayFromYear. Z.div_mod_to_equations. lia.
  - destruct (Z.leb_spec (DayFromYear (y + 1)) d).
    + split; [lia |].
      revert H0. unfold DayFromYear. Z.div_mod_to_equations. lia.
    + lia.
Qed.

Lemma DayFromYear_lt y1 y2 : y1 < y2 -> DayFromYear y1 < DayFromYear y2.
Proof. unfold DayFromYear. intros. Z.div_mod_to_equations. lia. Qed.

Lemma DayFromYear_le y1 y2 : y1 <= y2 -> DayFromYear y1 <= DayFromYear y2.
Proof.
  intros H. destruct (Z.eq_dec y1 y2) as [-> | N]; [lia |].
  apply Z.lt_le_incl, DayFromYear_lt. lia.
Qed.

(** It is the only such year. *)
Lemma YearFromDay_unique d y :
  DayFromYear y <= d < DayFromYear (y + 1) -> YearFromDay d = y.
Proof.
  intros H. pose proof (YearFromDay_spec d) as S.
  destruct (Z.lt_trichotomy (YearFromDay d) y) as [L | [E | L]]; [| exact E |].
  - pose proof (DayFromYear_le (YearFromDay d + 1) y). lia.
  - pose proof (DayFromYear_le (y + 1) (YearFromDay d)). lia.
Qed.

Lemma Day_of_days d : Day (d * msPerDay) = d.
Proof. unfold Day, msPerDay. now rewrite Z.div_mul. Qed.

Lemma InLeapYear_cases t : InLeapYear t = 0 \/ InLeapYear t = 1.
Proof. unfold InLeapYear. apply DaysInYear_cases. Qed.

(** The day within the year is a day of that year. *)
Lemma DayWithinYear_bounds t : 0 <= DayWithinYear t < 365 + InLeapYear t.
Proof.
  unfold DayWithinYear, InLeapYear, YearFromTime.
  pose proof (YearFromDay_spec (Day t)) as S.
  rewrite DayFromYear_succ in S.
  destruct (DaysInYear_cases (YearFromDay (Day t))) as [E _]. lia.
Qed.

Ltac split_ltb :=
  repeat match goal with
         | |- context [?a <? ?b] => destruct (Z.ltb_spec a b)
         end.

Lemma MonthFromTime_bounds t : 0 <= MonthFromTime t <= 11.
Proof. unfold MonthFromTime. split_ltb; lia. Qed.

Lemma MakeDay_small y m dt :
  0 <= m <= 11 ->
  MakeDay y m dt = DayFromYear y + DayWithinYearOfMonth y m + dt - 1.
Proof.
  intros H. unfold MakeDay.
  rewrite Z.div_small, Z.mod_small by lia. now rewrite Z.add_0_r.
Qed.

(** The fields of a time value give back its day number. *)
Lemma MakeDay_fields t n :
  MakeDay (YearFromTime t) (MonthFromTime t) (DateFromTime t + n) = Day t + n.
Proof.
  rewrite MakeDay_small by apply MonthFromTime_bounds.
  pose proof (DayWithinYear_bounds t) as B.
  pose proof (InLeapYear_cases t) as L.
  unfold DateFromTime, MonthFromTime, DayWithinYearOfMonth.
  fold (InLeapYear t).
  assert (E : Day t = DayFromYear (YearFromTime t) + DayWithinYear t)
    by (unfold DayWithinYear; lia).
  rewrite E. generalize (DayWithinYear t) (InLeapYear t) B L.
  intros d l Bd Ll. split_ltb; cbv beta iota; lia.
Qed.

Lemma DateFromTime_bounds t : 1 <= DateFromTime t <= 31.
Proof.
  pose proof (DayWithinYear_bounds t) as B.
  pose proof (InLeapYear_cases t) as L.
  unfold DateFromTime, MonthFromTime.
  generalize (DayWithinYear t) (InLeapYear t) B L.
  intros d l Bd Ll. split_ltb; cbv beta iota; lia.
Qed.

Ltac norm_succ :=
  repeat match goal with
         | |- context [Z.pos ?a + 1] =>
             let v := eval cbv in (Z.pos a + 1) in
             change (Z.pos a + 1) with v
         | |- context [0 + 1] => change (0 + 1) with 1
         end.

Lemma MakeDay_12 y dt : MakeDay y 12 dt = DayFromYear (y + 1) + dt - 1.
Proof.
  unfold MakeDay. change (12 / 12) with 1. change (12 mod 12) with 0.
  unfold DayWithinYearOfMonth. lia.
Qed.

(** The date is a day of the month: at most the distance from the first
    of the month to the first of the next. *)
Lemma DateFromTime_in_month t :
  DateFromTime t
  <= MakeDay (YearFromTime t) (MonthFromTime t + 1) 1
     - MakeDay (YearFromTime t) (MonthFromTime t) 1.
Proof.
  pose proof (DayWithinYear_bounds t) as B.
  pose proof (InLeapYear_cases t) as L.
  pose proof (DayFromYear_succ (YearFromTime t)) as S.
  destruct (DaysInYear_cases (YearFromTime t)) as [E _].
  unfold DateFromTime, MonthFromTime.
  generalize (DayWithinYear t) B. intros d Bd.
  split_ltb; cbv beta iota; norm_succ;
    rewrite ?MakeDay_12, ?MakeDay_small by lia;
    unfold DayWithinYearOfMonth, InLeapYear in *; cbv beta iota; lia.
Qed.

(** A month begins within the first 335 days of the year. *)
Lemma month_start_bounds y m :
  0 <= m <= 11 -> 0 <= DayWithinYearOfMonth y m <= 335.
Proof.
  intros Hm. destruct (DaysInYear_cases y) as [_ L].
  assert (M : m = 0 \/ m = 1 \/ m = 2 \/ m = 3 \/ m = 4 \/ m = 5 \/ m = 6
              \/ m = 7 \/ m = 8 \/ m = 9 \/ m = 10 \/ m = 11) by lia.
  repeat (destruct M as [-> | M]); try subst m;
    unfold DayWithinYearOfMonth; cbv beta iota; lia.
Qed.

(** A month has from 28 to 31 days. *)
Lemma month_length y m :
  0 <= m <= 11 -> 28 <= MakeDay y (m + 1) 1 - MakeDay y m 1 <= 31.
Proof.
  intros Hm.
  pose proof (DayFromYear_succ y) as S.
  destruct (DaysInYear_cases y) as [E L].
  assert (M : m = 0 \/ m = 1 \/ m = 2 \/ m = 3 \/ m = 4 \/ m = 5 \/ m = 6
              \/ m = 7 \/ m = 8 \/ m = 9 \/ m = 10 \/ m = 11) by lia.
  repeat (destruct M as [-> | M]); try subst m; norm_succ;
    rewrite ?MakeDay_12, ?MakeDay_small by lia;
    unfold DayWithinYearOfMonth; cbv beta iota; lia.
Qed.

(** The fields of the day that [MakeDay] builds from a year, a month and a
    day of that month. *)
Lemma fields_of_MakeDay y m dt :
  0 <= m <= 11 ->
  1 <= dt <= MakeDay y (m + 1) 1 - MakeDay y m 1 ->
  let t := MakeDay y m dt * msPerDay in
  YearFromTime t = y /\ MonthFromTime t = m /\ DateFromTime t = dt.
Proof.
  intros Hm Hd t.
  pose proof (DayFromYear_succ y) as S.
  destruct (DaysInYear_cases y) as [E L].
  assert (D : Day t = MakeDay y m dt) by apply Day_of_days.
  assert (M : m = 0 \/ m = 1 \/ m = 2 \/ m = 3 \/ m = 4 \/ m = 5 \/ m = 6
              \/ m = 7 \/ m = 8 \/ m = 9 \/ m = 10 \/ m = 11) by lia.
  assert (Y : YearFromTime t = y).
  { unfold YearFromTime. rewrite D. apply YearFromDay_unique.
    revert Hd.
    repeat (destruct M as [-> | M]); try subst m; norm_succ;
      rewrite ?MakeDay_12, ?MakeDay_small by lia;
      unfold DayWithinYearOfMonth; cbv beta iota; lia. }
  assert (W : DayWithinYear t = DayWithinYearOfMonth y m + dt - 1).
  { unfold DayWithinYear. rewrite Y, D, MakeDay_small by lia. lia. }
  split; [exact Y |].
  unfold DateFromTime, MonthFromTime, InLeapYear. rewrite Y, W.
  revert Hd.
  repeat (destruct M as [-> | M]); try subst m; norm_succ;
    rewrite ?MakeDay_12, ?MakeDay_small by lia;
    unfold DayWithinYearOfMonth; cbv beta iota; intros Hd;
    split_ltb; cbv beta iota; lia.
Qed.

Lemma digit_cases k :
  0 <= k <= 9 ->
  k = 0 \/ k = 1 \/ k = 2 \/ k = 3 \/ k = 4 \/ k = 5 \/ k = 6 \/ k = 7
  \/ k = 8 \/ k = 9.
Proof. lia. Qed.

Ltac each_digit H :=
  apply digit_cases in H;
  repeat (destruct H as [-> | H]); try subst; try reflexivity.

Lemma digitVal_digit k : 0 <= k <= 9 -> digitVal (digit k) = Some k.
Proof. intros H. each_digit H. Qed.

Lemma digit_not_T k : 0 <= k <= 9 -> Ascii.eqb (digit k) "T" = false.
Proof. intros H. each_digit H. Qed.

Lemma mod10_bounds n : 0 <= n mod 10 <= 9.
Proof. pose proof (Z.mod_pos_bound n 10). lia. Qed.

(** [split0] cuts at the first occurrence. *)
Lemma split0_app c a b :
  JS.occurs c a = false -> JS.split0 c (a ++ String c b) = a.
Proof.
  induction a as [| x a IH]; simpl.
  - now rewrite Ascii.eqb_refl.
  - intros H. apply orb_false_iff in H as [H1 H2].
    rewrite H1. f_equal. now apply IH.
Qed.

Lemma occurs_app c a b : JS.occurs c (a ++ b) = JS.occurs c a || JS.occurs c b.
Proof.
  induction a as [| x a IH]; simpl; [reflexivity |].
  now rewrite IH, orb_assoc.
Qed.

Lemma occurs_T_digits k n acc :
  JS.occurs "T" (digits k n acc) = JS.occurs "T" acc.
Proof.
  revert n acc. induction k as [| k IH]; intros n acc; simpl; [reflexivity |].
  rewrite IH. simpl. now rewrite digit_not_T by apply mod10_bounds.
Qed.

Lemma occurs_T_isoDateOfDay d : JS.occurs "T" (isoDateOfDay d) = false.
Proof.
  unfold isoDateOfDay, isoYear, pad2, pad4, pad6.
  destruct ((0 <=? YearFromTime (d * msPerDay))
            && (YearFromTime (d * msPerDay) <=? 9999));
    [| destruct (0 <=? YearFromTime (d * msPerDay))];
    rewrite ?occurs_app; simpl;
    rewrite !digit_not_T by apply mod10_bounds; reflexivity.
Qed.

(** [formatDate] of a valid Date is the date part of [toISOString]. *)
Lemma formatDate_valid t : formatDate (Some t) = Some (isoDate t).
Proof.
  unfold formatDate, toISOString, option_map. f_equal.
  apply (split0_app "T" (isoDate t) (isoTime t ++ "Z")).
  apply occurs_T_isoDateOfDay.
Qed.

Lemma TimeClip_valid t :
  - 8640000000000000 <= t <= 8640000000000000 -> TimeClip t = Some t.
Proof.
  intros H. unfold TimeClip.
  destruct (Z.ltb_spec 8640000000000000 (Z.abs t)); [lia | reflexivity].
Qed.

(** The years of the days a time value can hold. *)
Lemma YearFromDay_range d :
  - 100000000 <= d <= 100000000 -> - 271821 <= YearFromDay d <= 275760.
Proof.
  intros H. pose proof (YearFromDay_spec d) as S.
  split.
  - destruct (Z.le_gt_cases (- 271821) (YearFromDay d)) as [L | L]; [exact L |].
    pose proof (DayFromYear_le (YearFromDay d + 1) (- 271821)) as M.
    assert (DayFromYear (- 271821) = - 100000109) by reflexivity. lia.
  - destruct (Z.le_gt_cases (YearFromDay d) 275760) as [L | L]; [exact L |].
    pose proof (DayFromYear_le 275761 (YearFromDay d)) as M.
    assert (DayFromYear 275761 = 100000110) by reflexivity. lia.
Qed.

(** The fields [toISOString] prints are those of a day of the calendar,
    and [MakeDay] leads back from them to the day. *)
Lemma ofFields_fields d :
  - 100000000 <= d <= 100000000 ->
  let t := d * msPerDay in
  ofFields (YearFromTime t) (MonthFromTime t + 1) (DateFromTime t) = Some t.
Proof.
  intros H t. unfold ofFields.
  pose proof (MonthFromTime_bounds t) as Bm.
  pose proof (DateFromTime_bounds t) as Bd.
  pose proof (DateFromTime_in_month t) as Bl.
  replace (MonthFromTime t + 1 - 1) with (MonthFromTime t) by lia.
  destruct (Z.leb_spec 1 (MonthFromTime t + 1)); [| lia].
  destruct (Z.leb_spec (MonthFromTime t + 1) 12); [| lia].
  destruct (Z.leb_spec 1 (DateFromTime t)); [| lia].
  destruct (Z.leb_spec (DateFromTime t)
              (MakeDay (YearFromTime t) (MonthFromTime t + 1) 1
               - MakeDay (YearFromTime t) (MonthFromTime t) 1)); [| lia].
  cbn [andb].
  pose proof (MakeDay_fields t 0) as F. rewrite !Z.add_0_r in F. rewrite F.
  subst t. rewrite Day_of_days. unfold MakeDate.
  rewrite Z.add_0_r. apply TimeClip_valid. unfold msPerDay. lia.
Qed.

Lemma digits2_val n :
  0 <= n <= 99 -> 10 * (10 * 0 + (n / 10) mod 10) + n mod 10 = n.
Proof. intros. Z.div_mod_to_equations. lia. Qed.

Lemma digits4_val n :
  0 <= n <= 9999 ->
  10 * (10 * (10 * (10 * 0 + (n / 10 / 10 / 10) mod 10) + (n / 10 / 10) mod 10)
        + (n / 10) mod 10) + n mod 10 = n.
Proof. intros. Z.div_mod_to_equations. lia. Qed.

Lemma digits6_val n :
  0 <= n <= 999999 ->
  10 * (10 * (10 * (10 * (10 * (10 * 0 + (n / 10 / 10 / 10 / 10 / 10) mod 10)
                          + (n / 10 / 10 / 10 / 10) mod 10)
                    + (n / 10 / 10 / 10) mod 10) + (n / 10 / 10) mod 10)
        + (n / 10) mod 10) + n mod 10 = n.
Proof. intros. Z.div_mod_to_equations. lia. Qed.

(** [Date.parse] reads back the date [toISOString] prints. *)
Lemma parse_isoDateOfDay d :
  - 100000000 <= d <= 100000000 ->
  parse (isoDateOfDay d) = Some (d * msPerDay).
Proof.
  intros H. pose proof (ofFields_fields d H) as F. cbv zeta in F.
  pose proof (YearFromDay_range d H) as Ry.
  unfold isoDateOfDay, isoYear.
  pose proof (MonthFromTime_bounds (d * msPerDay)) as Bm.
  pose proof (DateFromTime_bounds (d * msPerDay)) as Bd.
  assert (Ey : YearFromTime (d * msPerDay) = YearFromDay d)
    by (unfold YearFromTime; now rewrite Day_of_days).
  revert F. rewrite Ey.
  generalize (YearFromDay d) (MonthFromTime (d * msPerDay))
    (DateFromTime (d * msPerDay)) Ry Bm Bd.
  intros y m dt Ry' Bm' Bd' F.
  destruct (Z.leb_spec 0 y) as [P | P];
    [destruct (Z.leb_spec y 9999) as [Q | Q] |]; cbn [andb];
    unfold parse, pad6, pad4, pad2;
    cbn [digits append list_ascii_of_string];
    change (isDash "-") with true; cbn [andb digitsVal];
    rewrite !digitVal_digit by apply mod10_bounds.
  - rewrite digits4_val, !digits2_val by lia. exact F.
  - change (Ascii.eqb "+" "+") with true. cbv iota.
    rewrite digits6_val, !digits2_val by lia. exact F.
  - change (Ascii.eqb "-" "+") with false.
    change (Ascii.eqb "-" "-") with true. cbv iota. cbn [andb].
    rewrite digits6_val, !digits2_val by lia.
    destruct (Z.eqb_spec (- y) 0); [lia |]. cbn [negb].
    now rewrite Z.opp_involutive.
Qed.

End JSDateFacts.

(** ** Moving a task *)

Section Move.
Import JSDate.
Local Open Scope Z_scope.

Lemma isoDateOfDay_nonempty (n : Z) : String.eqb (isoDateOfDay n) "" = false.
Proof.
  unfold isoDateOfDay, isoYear, pad4, pad6.
  destruct ((0 <=? YearFromTime (n * msPerDay))
            && (YearFromTime (n * msPerDay) <=? 9999));
    [| destruct (0 <=? YearFromTime (n * msPerDay))]; reflexivity.
Qed.

Lemma isDateKey_parse (s : string) (n : Z) :
  isDateKey s n -> parse s = Some (n * msPerDay).
Proof.
  intros [R ->]. apply JSDateFacts.parse_isoDateOfDay.
  unfold minKeyDay, maxKeyDay in R. lia.
Qed.

Lemma isDateKey_truthy (s : string) (n : Z) :
  isDateKey s n -> String.eqb s "" = false.
Proof. intros [_ ->]. apply isoDateOfDay_nonempty. Qed.

(** The [data-date] of a day tile of the years 0000 to 9999 is a date
    key. *)
Lemma formatDate_isDateKey (t : Z) :
  minKeyDay <= Day t <= maxKeyDay ->
  exists s, formatDate (Some t) = Some s /\ isDateKey s (Day t).
Proof.
  intros R. exists (isoDate t).
  split; [apply JSDateFacts.formatDate_valid | now split].
Qed.

Lemma isDateKey_isDayKey (s : string) (n : Z) : isDateKey s n -> isDayKey s n.
Proof.
  intros [R E]. split; [unfold minKeyDay, maxKeyDay in R; lia | exact E].
Qed.

Lemma isDayKey_parse (s : string) (n : Z) :
  isDayKey s n -> parse s = Some (n * msPerDay).
Proof. intros [R ->]. now apply JSDateFacts.parse_isoDateOfDay. Qed.

Lemma isDayKey_truthy (s : string) (n : Z) :
  isDayKey s n -> String.eqb s "" = false.
Proof. intros [_ ->]. apply isoDateOfDay_nonempty. Qed.

(** The date [handleTaskDrag] computes for the end of a moved task. *)
Lemma moved_end (ns ne nd : Z) :
  - 100000000 <= nd + (ne - ns) <= 100000000 ->
  formatDate
    (ofNumber
       (add (Some (nd * msPerDay))
            (sub (Some (ne * msPerDay)) (Some (ns * msPerDay)))))
  = Some (isoDateOfDay (nd + (ne - ns))).
Proof.
  intros R. unfold add, sub, ofNumber.
  replace (nd * msPerDay + (ne * msPerDay - ns * msPerDay))
    with ((nd + (ne - ns)) * msPerDay) by ring.
  rewrite JSDateFacts.TimeClip_valid by (unfold msPerDay; lia).
  rewrite JSDateFacts.formatDate_valid. unfold isoDate.
  now rewrite JSDateFacts.Day_of_days.
Qed.

(** What [handleTaskDrag] does in a move of the task [tasks.find] yields,
    between keys of days. *)
Lemma handleTaskDrag_moving (s : State) (task : Task.t) (d : string)
    (ns ne nd : Z) :
  DragState.isDragging (dragState s) = true ->
  DragState.taskId (dragState s) = Some (Task.id task) ->
  findTask (Task.id task) (tasks s) = Some task ->
  Task.id task <> ""%string ->
  isDayKey (Task.startDate task) ns ->
  isDayKey (Task.endDate task) ne ->
  isDayKey d nd ->
  - 100000000 <= nd + (ne - ns) <= 100000000 ->
  handleTaskDrag (Some d) s s
  = Some (setDragState
            (fun prev =>
               DragState.mk (DragState.isDragging prev)
                 (DragState.isResizing prev) (DragState.resizeType prev)
                 (DragState.taskId prev) (Some d)
                 (Some (isoDateOfDay (nd + (ne - ns))))) s).
Proof.
  intros Gd Gi F Hid Ks Ke Kd R.
  pose proof (isDayKey_parse _ _ Ks) as Ps.
  pose proof (isDayKey_parse _ _ Ke) as Pe.
  pose proof (isDayKey_parse _ _ Kd) as Pd.
  pose proof (isDayKey_truthy _ _ Kd) as Td.
  apply String.eqb_neq in Hid.
  unfold handleTaskDrag. rewrite Gd, Gi. cbn [negb andb JS.truthy].
  rewrite Td, Hid. cbn [negb andb]. rewrite F.
  unfold ofString, getTime. rewrite Ps, Pe, Pd.
  rewrite moved_end by exact R.
  reflexivity.
Qed.

(** C3, as stated, fails, in three ways.  With two tasks that share their
    id in the store, a move of the second, of two days, takes the duration
    of the first, which [tasks.find] yields: fifteen days.  A task created
    from the form with its start date cleared has [startDate <= endDate],
    and a move of it computes an Invalid Date: the update throws and the
    render fails.  And a move that would end after the last day of the
    range of Date, 275760-09-13, fails in the same way. *)
Lemma move_changes_duration :
  (tasks twin_state = [first_twin; second_twin]
   /\ JS.le (Task.startDate second_twin) (Task.endDate second_twin) = true
   /\ dragGesture (dragState (onTaskMouseDown 50 100 second_twin twin_state))
      = Moving "1710028800000" "2024-03-10" "2024-03-12"
   /\ option_map (fun st => dragGesture (dragState st))
        (onMouseMove (Some "2024-03-15")
           (onTaskMouseDown 50 100 second_twin twin_state))
      = Some (Moving "1710028800000" "2024-03-15" "2024-03-30"))
  /\ (tasks blank_state = [blank_task]
      /\ JS.le (Task.startDate blank_task) (Task.endDate blank_task) = true
      /\ dragGesture (dragState (onTaskMouseDown 50 100 blank_task blank_state))
         = Moving "1710028800000" "" "2024-03-12"
      /\ onMouseMove (Some "2024-03-15")
           (onTaskMouseDown 50 100 blank_task blank_state) = None)
  /\ (tasks far_state = [far_task]
      /\ JS.le (Task.startDate far_task) (Task.endDate far_task) = true
      /\ dragGesture (dragState (onTaskMouseDown 50 100 far_task far_state))
         = Moving "1710028800000" "+275760-08-01" "+275760-08-20"
      /\ onMouseMove (Some "+275760-09-01")
           (onTaskMouseDown 50 100 far_task far_state) = None).
Proof. repeat split; vm_compute; reflexivity. Qed.

(** C3, amended: for every task with [startDate <= endDate] that is the one
    [tasks.find] yields for its id (every task, when no two tasks share an
    id), whose id is not empty and whose dates are keys of days, as
    [formatDate] prints them, and for every pointer move target [d] that is
    such a key and early enough for the moved end to be a day of the range
    of Date: during a Moving gesture the move sets the provisional start to
    [d] and the provisional end to the key of the day as many days after [d]
    as the task's end is after its start. *)
Theorem move_preserves_duration (s : State) (task : Task.t)
    (a b d : string) (ns ne nd : Z) :
  dragGesture (dragState s) = Moving (Task.id task) a b ->
  findTask (Task.id task) (tasks s) = Some task ->
  Task.id task <> ""%string ->
  isDayKey (Task.startDate task) ns ->
  isDayKey (Task.endDate task) ne ->
  isDayKey d nd ->
  - 100000000 <= nd + (ne - ns) <= 100000000 ->
  JS.le (Task.startDate task) (Task.endDate task) = true ->
  exists s' pe,
    onMouseMove (Some d) s = Some s'
    /\ dragGesture (dragState s') = Moving (Task.id task) d pe
    /\ pe = isoDateOfDay (nd + (ne - ns))
    /\ parse pe = Some ((nd + (ne - ns)) * msPerDay)
    /\ sub (parse pe) (parse d)
       = sub (parse (Task.endDate task)) (parse (Task.startDate task))
    /\ sub (parse pe) (parse d) = Some ((ne - ns) * msPerDay)
    /\ tasks s' = tasks s.
Proof.
  intros G F Hid Ks Ke Kd R _.
  apply dragGesture_Moving in G. destruct G as (Gi & Ga & Gb & Gd).
  unfold onMouseMove.
  rewrite (handleTaskDrag_moving s task d ns ne nd) by assumption.
  assert (Pn : parse (isoDateOfDay (nd + (ne - ns)))
               = Some ((nd + (ne - ns)) * msPerDay))
    by now apply JSDateFacts.parse_isoDateOfDay.
  eexists. eexists. split; [reflexivity |].
  unfold dragGesture. cbn. rewrite Gi, Gd.
  rewrite Pn, (isDayKey_parse _ _ Ks), (isDayKey_parse _ _ Ke),
    (isDayKey_parse _ _ Kd).
  repeat split; unfold sub; f_equal; ring.
Qed.

End Move.

(** The task 2024-03-10..2024-03-12 dragged by its middle over
    2024-03-15: the provisional range is 2024-03-15..2024-03-17. *)
Lemma move_preserves_duration_witness :
  exists s' pe,
    onMouseMove (Some "2024-03-15")
      (onTaskMouseDown 50 100 review_task review_state) = Some s'
    /\ dragGesture (dragState s') = Moving "1710028800000" "2024-03-15" pe
    /\ pe = "2024-03-17".
Proof.
  destruct (move_preserves_duration
              (onTaskMouseDown 50 100 review_task review_state) review_task
              "2024-03-10" "2024-03-12" "2024-03-15" 19792 19794 19797)
    as (s' & pe & H1 & H2 & H3 & _).
  - reflexivity.
  - reflexivity.
  - discriminate.
  - split; [lia | reflexivity].
  - split; [lia | reflexivity].
  - split; [lia | reflexivity].
  - lia.
  - reflexivity.
  - exists s', pe. repeat split; [exact H1 | exact H2 |].
    rewrite H3. reflexivity.
Defined.

(** ** Days in local time *)

Section HostTime.
Import JSDate.
Local Open Scope Z_scope.
Variable LocalTZA : Z -> bool -> Z.

(** [d.setDate(d.getDate() + n)] is the instant the host gives the local
    time of [d] moved by [n] days. *)
Lemma setDate_local_shift (tv n : Z) :
  setDate LocalTZA (Some tv)
    (Some (DateFromTime (LocalTime LocalTZA tv) + n))
  = TimeClip (UTC LocalTZA (LocalTime LocalTZA tv + n * msPerDay)).
Proof.
  unfold setDate, MakeDate.
  rewrite JSDateFacts.MakeDay_fields. do 2 f_equal.
  unfold Day, TimeWithinDay.
  pose proof (Z.div_mod (LocalTime LocalTZA tv) msPerDay) as E.
  assert (msPerDay <> 0) by (unfold msPerDay; lia). lia.
Qed.

Lemma addDays_local_shift (tv n : Z) :
  addDays LocalTZA (Some tv) (Some n)
  = TimeClip (UTC LocalTZA (LocalTime LocalTZA tv + n * msPerDay)).
Proof.
  unfold addDays, copy, getDate, add. cbn [option_map].
  apply setDate_local_shift.
Qed.

End HostTime.

(** ** The month grid *)

Section Grid.
Import JSDate.
Local Open Scope Z_scope.
(** The offset of a host whose local time is UTC shifted by the same amount
    at every instant. *)
Variable LocalTZA : Z.

(** [d.setDate(d.getDate() + n)] moves [d] by [n] days. *)
Lemma setDate_shift (tv n : Z) :
  setDate (constantTZA LocalTZA) (Some tv)
    (Some (DateFromTime (LocalTime (constantTZA LocalTZA) tv) + n))
  = TimeClip (tv + n * msPerDay).
Proof.
  unfold setDate, constantTZA, LocalTime, UTC, MakeDate.
  rewrite JSDateFacts.MakeDay_fields. f_equal.
  unfold Day, TimeWithinDay.
  pose proof (Z.div_mod (tv + LocalTZA) msPerDay) as E.
  assert (msPerDay <> 0) by (unfold msPerDay; lia). lia.
Qed.

Lemma addDays_valid (tv n : Z) :
  addDays (constantTZA LocalTZA) (Some tv) (Some n)
  = TimeClip (tv + n * msPerDay).
Proof. unfold addDays, copy, getDate, add. simpl. apply setDate_shift. Qed.

Lemma seq_map_shift (f : nat -> Date) (n : nat) :
  map f (seq 1 n) = map (fun k => f (S k)) (seq 0 n).
Proof. now rewrite <- seq_shift, map_map. Qed.

(** The loop pushes the days from [current] on until there are 42. *)
Lemma getDaysInMonth_loop_spec (fuel : nat) (days : list Date) (c : Z) :
  (List.length days <= 42)%nat ->
  (42 - List.length days <= fuel)%nat ->
  - 8640000000000000 <= c ->
  c + Z.of_nat (42 - List.length days) * msPerDay <= 8640000000000000 ->
  getDaysInMonth_loop (constantTZA LocalTZA) fuel days (Some c)
  = Some (days ++ map (fun k => Some (c + Z.of_nat k * msPerDay))
                      (seq 0 (42 - List.length days)))%list.
Proof.
  revert days c.
  induction fuel as [| fuel IH]; intros days c Hl Hf Hlo Hhi;
    cbn [getDaysInMonth_loop].
  - destruct (Nat.ltb_spec (List.length days) 42); [lia |].
    replace (42 - List.length days)%nat with 0%nat by lia.
    cbn [seq map]. now rewrite app_nil_r.
  - destruct (Nat.ltb_spec (List.length days) 42) as [L | L].
    + unfold getDate, add, option_map, copy.
      rewrite setDate_shift.
      assert (P : 0 < msPerDay) by (unfold msPerDay; lia).
      rewrite JSDateFacts.TimeClip_valid by nia.
      assert (E : (42 - List.length days = S (41 - List.length days))%nat)
        by lia.
      rewrite IH; rewrite ?length_app; cbn [List.length]; try lia.
      rewrite E. cbn [seq map]. rewrite seq_map_shift.
      rewrite <- app_assoc. cbn [app]. do 3 f_equal.
      * f_equal. lia.
      * replace (42 - (List.length days + 1))%nat
          with (41 - List.length days)%nat by lia.
        apply map_ext. intros k. f_equal. lia.
    + replace (42 - List.length days)%nat with 0%nat by lia.
      cbn [seq map]. now rewrite app_nil_r.
Qed.

(** For an anchor date clear of the ends of the range of time values,
    [getDaysInMonth] returns 42 dates at local midnight, day after day,
    from the Sunday on or before the first of a month: the anchor's month
    [m], of the year [new Date(year, m, 1)] makes of the anchor's year, which
    is that year but for the years 0 to 99, read as 1900 to 1999. *)
Lemma getDaysInMonth_grid (fuel : nat) (tv : Z) :
  let lt := LocalTime (constantTZA LocalTZA) tv in
  let y := YearFromTime lt in
  let m := MonthFromTime lt in
  let yr := if (0 <=? y) && (y <=? 99) then 1900 + y else y in
  let F := MakeDay yr m 1 in
  let S0 := F - WeekDay (F * msPerDay) in
  (42 <= fuel)%nat ->
  - msPerDay <= LocalTZA <= msPerDay ->
  - 99999000 <= Day lt <= 99999000 ->
  getDaysInMonth (constantTZA LocalTZA) fuel (Some tv)
  = Some (map (fun k => Some ((S0 + Z.of_nat k) * msPerDay - LocalTZA))
              (seq 0 42))
  /\ WeekDay (S0 * msPerDay) = 0
  /\ S0 <= F < S0 + 7
  /\ YearFromTime (F * msPerDay) = yr
  /\ MonthFromTime (F * msPerDay) = m
  /\ DateFromTime (F * msPerDay) = 1.
Proof.
  intros lt y m yr F S0 Hfuel Htz Hr.
  assert (P : msPerDay = 86400000) by reflexivity.
  pose proof (JSDateFacts.MonthFromTime_bounds lt) as Bm. fold m in Bm.
  pose proof (JSDateFacts.month_length yr m Bm) as Ml.
  destruct (JSDateFacts.fields_of_MakeDay yr m 1 Bm ltac:(lia))
    as (Fy & Fm & Fd).
  fold F in Fy, Fm, Fd.
  assert (W : 0 <= WeekDay (F * msPerDay) < 7)
    by (unfold WeekDay; apply Z.mod_pos_bound; lia).
  assert (RF : - 99999100 <= F <= 99999100).
  { subst yr. destruct ((0 <=? y) && (y <=? 99)) eqn:Q.
    - apply andb_true_iff in Q as [Q1 Q2].
      apply Z.leb_le in Q1, Q2.
      unfold F. rewrite JSDateFacts.MakeDay_small by assumption.
      pose proof (JSDateFacts.DayFromYear_le 1900 (1900 + y) ltac:(lia)).
      pose proof (JSDateFacts.DayFromYear_le (1900 + y) 1999 ltac:(lia)).
      assert (DayFromYear 1900 = - 25567) by reflexivity.
      assert (DayFromYear 1999 = 10592) by reflexivity.
      pose proof (JSDateFacts.month_start_bounds (1900 + y) m Bm). lia.
    - pose proof (JSDateFacts.MakeDay_fields lt (1 - DateFromTime lt)) as EF.
      replace (DateFromTime lt + (1 - DateFromTime lt)) with 1 in EF by lia.
      fold y m F in EF.
      pose proof (JSDateFacts.DateFromTime_bounds lt). lia. }
  split; [| repeat split; try assumption; try lia].
  - unfold getDaysInMonth, getFullYear, getMonth, option_map, ofYMD.
    fold lt. fold y m yr F. unfold copy, MakeDate, constantTZA, UTC.
    rewrite JSDateFacts.TimeClip_valid by lia.
    unfold getDate, getDay, option_map, sub, constantTZA, LocalTime.
    replace (F * msPerDay + 0 - LocalTZA + LocalTZA)
      with (F * msPerDay) by lia.
    replace (DateFromTime (F * msPerDay) - WeekDay (F * msPerDay))
      with (DateFromTime
              (LocalTime (constantTZA LocalTZA) (F * msPerDay + 0 - LocalTZA))
            + - WeekDay (F * msPerDay))
      by (unfold constantTZA, LocalTime;
          replace (F * msPerDay + 0 - LocalTZA + LocalTZA)
            with (F * msPerDay) by lia; lia).
    rewrite setDate_shift.
    rewrite JSDateFacts.TimeClip_valid by lia.
    rewrite getDaysInMonth_loop_spec; cbn [List.length]; try lia.
    change (42 - 0)%nat with 42%nat; cbn [app]; f_equal.
    apply map_ext. intros k. f_equal. unfold S0. lia.
  - unfold WeekDay in *. rewrite JSDateFacts.Day_of_days in *.
    unfold S0. rewrite JSDateFacts.Day_of_days.
    Z.div_mod_to_equations. lia.
Qed.

(** For an anchor outside the years 0 to 99, that first of the month is the
    first of the anchor's own month. *)
Lemma getDaysInMonth_grid_own_month (tv : Z) :
  let lt := LocalTime (constantTZA LocalTZA) tv in
  let y := YearFromTime lt in
  let yr := if (0 <=? y) && (y <=? 99) then 1900 + y else y in
  (y < 0 \/ 99 < y) ->
  yr = y
  /\ MakeDay yr (MonthFromTime lt) 1 = Day lt - (DateFromTime lt - 1).
Proof.
  intros lt y yr Hy.
  assert (E : yr = y).
  { subst yr. destruct (Z.leb_spec 0 y); [| reflexivity].
    destruct (Z.leb_spec y 99); [lia | reflexivity]. }
  split; [exact E |]. rewrite E.
  pose proof (JSDateFacts.MakeDay_fields lt (1 - DateFromTime lt)) as EF.
  replace (DateFromTime lt + (1 - DateFromTime lt)) with 1 in EF by lia.
  fold y in EF. lia.
Qed.

End Grid.

(** C8 at the month of December 99, on a host in UTC.  The Previous button
    leads there from January 100.  Its first day, 0099-12-01, is a Tuesday,
    so the grid should begin on Sunday 0099-11-29, two days before;
    [getDaysInMonth] returns the 42 days from 1999-11-28 (day 10923 of the
    epoch) to 2000-01-08, because [new Date(99, 11, 1)] is 1999-12-01. *)
Theorem getDaysInMonth_december_99 :
  let jan100 : JSDate.Date := Some (-59010249600000)%Z in
  let dec99 : JSDate.Date := Some (-59014137600000)%Z in
  let s := setCurrentDate jan100 (initialState 0) in
  formatDate jan100 = Some "0100-01-15"
  /\ currentDate (previousMonth (JSDate.constantTZA 0) s s) = dec99
  /\ formatDate dec99 = Some "0099-12-01"
  /\ JSDate.getDay (JSDate.constantTZA 0) dec99 = Some 2%Z
  /\ formatDate (addDays (JSDate.constantTZA 0) dec99 (Some (-2)%Z))
     = Some "0099-11-29"
  /\ getDaysInMonth (JSDate.constantTZA 0) 42 dec99
     = Some (map (fun k => Some ((10923 + Z.of_nat k) * 86400000)%Z)
                 (seq 0 42))
  /\ option_map (fun l => map formatDate [hd None l; last l None])
       (getDaysInMonth (JSDate.constantTZA 0) 42 dec99)
     = Some [Some "1999-11-28"; Some "2000-01-08"]
  /\ option_map (hd None) (getDaysInMonth (JSDate.constantTZA 0) 42 dec99)
     <> Some (addDays (JSDate.constantTZA 0) dec99 (Some (-2)%Z)).
Proof. vm_compute. repeat split. discriminate. Qed.

(** ** Filtering *)

Lemma filter_filter {A : Type} (f g : A -> bool) (l : list A) :
  filter g (filter f l) = filter (fun x => f x && g x) l.
Proof.
  induction l as [| x l IH]; simpl; [reflexivity |].
  destruct (f x); simpl; [destruct (g x) |]; now rewrite IH.
Qed.

Lemma filter_Subsequence {A : Type} (f : A -> bool) (l : list A) :
  Subsequence (filter f l) l.
Proof.
  induction l as [| x l IH]; simpl; [constructor |].
  destruct (f x); now constructor.
Qed.

Section FilterHost.
Import JSDate.
Local Open Scope Z_scope.
Variable LocalTZA : Z -> bool -> Z.

(** The two keys [filteredTasks] compares with, under a window of [w]
    weeks, on a host whose offset for the local time [7 w] days after that
    of [now] is its offset at [now]. *)
Lemma window_keys_host (now w : Z) :
  - 8640000000000000 <= now ->
  0 <= w <= 3 ->
  now + 21 * msPerDay <= 8640000000000000 ->
  LocalTZA (LocalTime LocalTZA now + 7 * w * msPerDay) false
  = LocalTZA now true ->
  formatDate (Some now) = Some (isoDateOfDay (Day now))
  /\ formatDate (addDays LocalTZA (Some now) (JSDate.mul (Some w) (Some 7)))
     = Some (isoDateOfDay (Day now + 7 * w)).
Proof.
  intros Hlo Hw Hhi H. split; [apply JSDateFacts.formatDate_valid |].
  unfold JSDate.mul. rewrite addDays_local_shift.
  replace (w * 7 * msPerDay) with (7 * w * msPerDay) by ring.
  unfold UTC. rewrite H. unfold LocalTime.
  replace (now + LocalTZA now true + 7 * w * msPerDay - LocalTZA now true)
    with (now + 7 * w * msPerDay) by ring.
  assert (P : msPerDay = 86400000) by reflexivity.
  rewrite JSDateFacts.TimeClip_valid by lia.
  rewrite JSDateFacts.formatDate_valid. unfold isoDate, Day.
  replace (now + 7 * w * msPerDay) with (now + (7 * w) * msPerDay) by ring.
  rewrite Z.div_add by lia. reflexivity.
Qed.

(** Where the window is the specification's.  At a clock reading [now]
    from which three weeks on is still a time value, on a host whose offset for the local
    time at the end of the window is its offset at [now] (any host without
    a daylight-saving change within the window), [filteredTasks] is the
    specification's [visibleTasks] with today the UTC day of [now]: it
    holds exactly the tasks whose category is enabled, whose lower-cased
    name contains the lower-cased search text and, under a window of [w]
    weeks, whose range intersects the one from today to today + 7 w; it is
    a subsequence of the task list; and an empty category set makes it
    empty. *)
Lemma filteredTasks_visibleTasks (now : Z) (s : State) :
  - 8640000000000000 <= now ->
  now + 21 * msPerDay <= 8640000000000000 ->
  (forall w, timeWindow (timeFilter s) = Some w ->
             LocalTZA (LocalTime LocalTZA now + 7 * w * msPerDay) false
             = LocalTZA now true) ->
  let visible :=
    visibleTasks (tasks s) (searchTerm s) (categoryFilters s)
                 (timeWindow (timeFilter s)) (Day now) in
  filteredTasks LocalTZA now s = Some visible
  /\ (forall t,
        In t visible <->
        In t (tasks s)
        /\ In (Task.category t) (categoryFilters s)
        /\ JS.includes (JS.toLowerCase (Task.name t))
                       (JS.toLowerCase (searchTerm s)) = true
        /\ forall w, timeWindow (timeFilter s) = Some w ->
                     rangesIntersect (Task.startDate t) (Task.endDate t)
                       (isoDateOfDay (Day now))
                       (isoDateOfDay (Day now + 7 * w)) = true)
  /\ Subsequence visible (tasks s)
  /\ (categoryFilters s = [] -> visible = []).
Proof.
  intros Hlo Hhi Hz visible.
  split; [| split; [| split]].
  - unfold filteredTasks, visible, visibleTasks, includesCategory.
    destruct (timeFilter s) eqn:E; cbn [timeWindow parseInt].
    + f_equal. apply filter_ext. intros t. now rewrite andb_true_r.
    + destruct (window_keys_host now 1 Hlo ltac:(lia) Hhi
                  (Hz 1 eq_refl)) as [-> ->].
      now rewrite filter_filter.
    + destruct (window_keys_host now 2 Hlo ltac:(lia) Hhi
                  (Hz 2 eq_refl)) as [-> ->].
      now rewrite filter_filter.
    + destruct (window_keys_host now 3 Hlo ltac:(lia) Hhi
                  (Hz 3 eq_refl)) as [-> ->].
      now rewrite filter_filter.
  - intros t. unfold visible, visibleTasks. rewrite filter_In.
    rewrite !andb_true_iff, existsb_exists.
    assert (C : (exists x, In x (categoryFilters s)
                           /\ TaskCategory_eqb (Task.category t) x = true)
                <-> In (Task.category t) (categoryFilters s)).
    { split.
      - intros (x & Hx & Ex).
        destruct (Task.category t), x; try discriminate; exact Hx.
      - intros H. exists (Task.category t). split; [exact H |].
        now destruct (Task.category t). }
    rewrite C.
    destruct (timeWindow (timeFilter s)) as [w |].
    + split.
      * intros (H1 & (H2 & H3) & H4). repeat split; try assumption.
        now intros w' [= <-].
      * intros (H1 & H2 & H3 & H4). repeat split; try assumption.
        now apply H4.
    + split.
      * intros (H1 & (H2 & H3) & H4). repeat split; try assumption.
        discriminate.
      * intros (H1 & H2 & H3 & H4). repeat split; assumption.
  - apply filter_Subsequence.
  - intros E. unfold visible, visibleTasks. rewrite E. simpl.
    induction (tasks s) as [| x l IH]; simpl; [reflexivity | exact IH].
Qed.

End FilterHost.

Section Filter.
Import JSDate.
Local Open Scope Z_scope.
(** The offset of a host whose local time is UTC shifted by the same amount
    at every instant. *)
Variable LocalTZA : Z.

(** The two keys [filteredTasks] compares with, under a window of [w]
    weeks. *)
Lemma window_keys (now w : Z) :
  - 8640000000000000 <= now ->
  0 <= w <= 3 ->
  now + 21 * msPerDay <= 8640000000000000 ->
  formatDate (Some now) = Some (isoDateOfDay (Day now))
  /\ formatDate (addDays (constantTZA LocalTZA) (Some now) (JSDate.mul (Some w) (Some 7)))
     = Some (isoDateOfDay (Day now + 7 * w)).
Proof.
  intros Hlo Hw Hhi. split; [apply JSDateFacts.formatDate_valid |].
  unfold JSDate.mul. rewrite addDays_valid.
  assert (P : msPerDay = 86400000) by reflexivity.
  rewrite JSDateFacts.TimeClip_valid by lia.
  rewrite JSDateFacts.formatDate_valid. unfold isoDate, Day.
  rewrite Z.div_add by lia. do 2 f_equal. lia.
Qed.

End Filter.

(** "Design review" (To Do, 2024-03-10..2024-03-12) on 2024-03-10 with the
    search text REVIEW and a window of one week, on a host five and a half
    hours east of Greenwich at every instant. *)
Lemma filteredTasks_visibleTasks_witness :
  filteredTasks (JSDate.constantTZA 19800000) 1710028800000 sample_filter_state
  = Some [review_task]
  /\ visibleTasks (tasks sample_filter_state) "REVIEW"
       (categoryFilters sample_filter_state) (Some 1%Z) 19792
     = [review_task].
Proof.
  destruct (filteredTasks_visibleTasks (JSDate.constantTZA 19800000)
              1710028800000 sample_filter_state) as (H & _).
  - lia.
  - unfold JSDate.msPerDay. lia.
  - reflexivity.
  - split; [rewrite H |]; reflexivity.
Defined.

(** C7 on a host that changes to daylight-saving time within the window.
    At 2024-03-09T00:30Z it is 19:30 of 2024-03-08 there.  With today the
    UTC day, the window of one week is 2024-03-09..2024-03-16 and holds the
    task of 2024-03-16; with today the local day, it is
    2024-03-08..2024-03-15 and holds the task of 2024-03-08.
    [filteredTasks] shows neither: it takes the UTC day, 2024-03-09, for the
    start, and for the end the date [addDays] gives, the local time moved by
    seven days, 19:30 of the 15th there, which the change to daylight-saving
    time makes 2024-03-15T23:30Z, so its window is
    2024-03-09..2024-03-15. *)
Theorem filteredTasks_window_a_day_short :
  tasks later_state = [earlier_task; later_task]
  /\ timeFilter later_state = TF_1
  /\ formatDate (Some 1709944200000%Z) = Some "2024-03-09"
  /\ JSDate.isoDateOfDay (JSDate.Day 1709944200000 + 7 * 1) = "2024-03-16"
  /\ visibleTasks (tasks later_state) (searchTerm later_state)
       (categoryFilters later_state) (timeWindow (timeFilter later_state))
       (JSDate.Day 1709944200000)
     = [later_task]
  /\ JSDate.isoDateOfDay
       (JSDate.Day (JSDate.LocalTime easternTZA 1709944200000))
     = "2024-03-08"
  /\ visibleTasks (tasks later_state) (searchTerm later_state)
       (categoryFilters later_state) (timeWindow (timeFilter later_state))
       (JSDate.Day (JSDate.LocalTime easternTZA 1709944200000))
     = [earlier_task]
  /\ addDays easternTZA (Some 1709944200000%Z) (Some 7%Z)
     = Some 1710545400000%Z
  /\ formatDate (addDays easternTZA (Some 1709944200000%Z) (Some 7%Z))
     = Some "2024-03-15"
  /\ filteredTasks easternTZA 1709944200000 later_state = Some [].
Proof. vm_compute. repeat split. Qed.

(** ** Creating a task *)

Lemma trimStart_first (s : string) (c : ascii) :
  JS.firstUnit (JS.trimStart s) = Some c -> JS.isWhiteSpace c = false.
Proof.
  induction s as [| a s IH]; simpl; [discriminate |].
  destruct (JS.isWhiteSpace a) eqn:E; [exact IH |].
  simpl. now intros [= <-].
Qed.

Lemma trimEnd_first (s : string) (c : ascii) :
  JS.firstUnit (JS.trimEnd s) = Some c -> JS.firstUnit s = Some c.
Proof.
  destruct s as [| a s]; simpl; [discriminate |].
  destruct (JS.trimEnd s); [destruct (JS.isWhiteSpace a) |]; simpl;
    congruence.
Qed.

Lemma trimEnd_last (s : string) (c : ascii) :
  JS.lastUnit (JS.trimEnd s) = Some c -> JS.isWhiteSpace c = false.
Proof.
  induction s as [| a s IH]; simpl; [discriminate |].
  destruct (JS.trimEnd s) as [| b r] eqn:E.
  - destruct (JS.isWhiteSpace a) eqn:W; simpl; [discriminate |].
    now intros [= <-].
  - exact IH.
Qed.

Lemma trimEnd_idempotent (s : string) :
  JS.trimEnd (JS.trimEnd s) = JS.trimEnd s.
Proof.
  induction s as [| a s IH]; simpl; [reflexivity |].
  destruct (JS.trimEnd s) as [| b r] eqn:E.
  - destruct (JS.isWhiteSpace a) eqn:W; simpl; [reflexivity |].
    now rewrite W.
  - change (JS.trimEnd (String a (String b r)))
      with (match JS.trimEnd (String b r) with
            | EmptyString =>
                if JS.isWhiteSpace a then EmptyString
                else String a EmptyString
            | r' => String a r'
            end).
    now rewrite IH.
Qed.

Lemma trimStart_fixed (s : string) :
  (forall c, JS.firstUnit s = Some c -> JS.isWhiteSpace c = false) ->
  JS.trimStart s = s.
Proof.
  destruct s as [| a s]; simpl; [reflexivity |].
  intros H. now rewrite (H a eq_refl).
Qed.

Lemma trim_idempotent (s : string) : JS.trim (JS.trim s) = JS.trim s.
Proof.
  unfold JS.trim. rewrite trimStart_fixed.
  - apply trimEnd_idempotent.
  - intros c H. apply trimEnd_first in H. now apply trimStart_first in H.
Qed.

Lemma toString_injective (a b : Z) : JS.toString a = JS.toString b -> a = b.
Proof.
  unfold JS.toString. intros H.
  apply (f_equal NilZero.int_of_string) in H.
  assert (N : forall z, Z.to_int z <> Decimal.Pos Decimal.Nil
                        /\ Z.to_int z <> Decimal.Neg Decimal.Nil).
  { intros [| p | p]; simpl; split; try discriminate;
      intros [= E]; now apply (Unsigned.to_uint_nonnil p). }
  rewrite !NilZero.isi in H by apply N.
  injection H as H. now apply DecimalZ.to_int_inj.
Qed.

Lemma truthy_trim (x : string) :
  JS.truthy (Some x) = true <-> x <> "".
Proof.
  unfold JS.truthy. rewrite negb_true_iff. apply String.eqb_neq.
Qed.

(** What [createTask] does, by the trimmed name. *)
Lemma createTask_cases (now : Z) (s : State) :
  let m := modalTask s in
  (JS.trim (ModalTaskState.name m) = "" /\ onModalCreate now s = s)
  \/ (JS.trim (ModalTaskState.name m) <> ""
      /\ onModalCreate now s
         = setModalTask (fun _ => ModalTaskState.mk "" ToDo "" "")
             (setShowModal false
                (setTasks
                   (fun prev =>
                      prev ++ [Task.mk (JS.toString now)
                                 (JS.trim (ModalTaskState.name m))
                                 (ModalTaskState.startDate m)
                                 (ModalTaskState.endDate m)
                                 (ModalTaskState.category m)])%list s))).
Proof.
  intros m. unfold onModalCreate, createTask. fold m.
  destruct (JS.truthy (Some (JS.trim (ModalTaskState.name m)))) eqn:E.
  - right. split; [now apply truthy_trim | reflexivity].
  - left. split; [| reflexivity].
    unfold JS.truthy in E. apply negb_false_iff in E.
    now apply String.eqb_eq.
Qed.

(** C6, as stated, fails: with "Design review" stored under the id
    1710028800000, a creation at the clock reading 1710028800000 stores a
    second task under the same id. *)
Lemma createTask_same_reading_same_id :
  tasks second_form_state = [review_task]
  /\ tasks (onModalCreate 1710028800000 second_form_state)
     = [review_task;
        Task.mk "1710028800000" "Second" "2024-03-10" "2024-03-12" ToDo]
  /\ Task.id review_task = "1710028800000".
Proof. repeat split. Qed.

(** C6, amended: [createTask] leaves the whole state as it is (no task
    added, the form as it was) exactly when the form's name is empty after
    trimming; otherwise it appends one task after the existing ones, in
    their order, closes the form, and gives the task the decimal string of
    the clock reading as its id, which differs from the id of every
    existing task whose id came from another clock reading. *)
Theorem createTask_rejects_or_appends (now : Z) (s : State) :
  let m := modalTask s in
  let s' := onModalCreate now s in
  (JS.trim (ModalTaskState.name m) = "" <-> s' = s)
  /\ (JS.trim (ModalTaskState.name m) <> "" ->
      tasks s'
      = (tasks s ++ [Task.mk (JS.toString now)
                       (JS.trim (ModalTaskState.name m))
                       (ModalTaskState.startDate m)
                       (ModalTaskState.endDate m)
                       (ModalTaskState.category m)])%list
      /\ showModal s' = false
      /\ forall t n, In t (tasks s) -> Task.id t = JS.toString n ->
                     n <> now -> Task.id t <> JS.toString now).
Proof.
  intros m s'.
  destruct (createTask_cases now s) as [[E R] | [E R]]; fold m s' in E, R.
  - split; [tauto | intros N; now destruct N].
  - split.
    + split; [intros N; now destruct E |].
      intros Es. exfalso. rewrite R in Es.
      apply (f_equal (fun x => List.length (tasks x))) in Es.
      simpl in Es. rewrite length_app in Es. simpl in Es. lia.
    + intros _. rewrite R. repeat split.
      intros t n _ Ht Hn Eq. rewrite Ht in Eq.
      now apply toString_injective in Eq.
Qed.

Lemma createTask_rejects_or_appends_witness :
  tasks (onModalCreate 1710028800001 second_form_state)
  = [review_task;
     Task.mk "1710028800001" "Second" "2024-03-10" "2024-03-12" ToDo]
  /\ showModal (onModalCreate 1710028800001 second_form_state) = false
  /\ Task.id review_task <> JS.toString 1710028800001.
Proof.
  destruct (createTask_rejects_or_appends 1710028800001 second_form_state)
    as (_ & H).
  destruct H as (H1 & H2 & H3); [discriminate |].
  split; [exact H1 | split; [exact H2 |]].
  apply (H3 review_task 1710028800000%Z);
    [now left | reflexivity | discriminate].
Defined.

(** C10: the name [createTask] stores is trimmed: it is its own trim, it is
    not empty, and neither its first nor its last code unit is white
    space. *)
Theorem created_name_is_trimmed (now : Z) (s : State) :
  JS.trim (ModalTaskState.name (modalTask s)) <> "" ->
  exists t,
    tasks (onModalCreate now s) = (tasks s ++ [t])%list
    /\ Task.name t = JS.trim (ModalTaskState.name (modalTask s))
    /\ JS.trim (Task.name t) = Task.name t
    /\ Task.name t <> ""
    /\ (forall c, JS.firstUnit (Task.name t) = Some c ->
                  JS.isWhiteSpace c = false)
    /\ (forall c, JS.lastUnit (Task.name t) = Some c ->
                  JS.isWhiteSpace c = false).
Proof.
  intros N.
  destruct (createTask_cases now s) as [[E _] | [_ R]]; [now destruct N |].
  eexists. rewrite R. split; [reflexivity |]. cbn [Task.name].
  repeat split.
  - apply trim_idempotent.
  - exact N.
  - intros c H. unfold JS.trim in H. apply trimEnd_first in H.
    now apply trimStart_first in H.
  - intros c H. now apply trimEnd_last in H.
Qed.

Lemma created_name_is_trimmed_witness :
  exists t,
    tasks (onModalCreate 1710028800001
             (onModalName "  Second draft  " second_form_state))
    = [review_task; t]
    /\ Task.name t = "Second draft".
Proof.
  destruct (created_name_is_trimmed 1710028800001
              (onModalName "  Second draft  " second_form_state))
    as (t & H1 & H2 & _); [discriminate |].
  exists t. split; [exact H1 | exact H2].
Defined.

(** ** Keys compare as their days do *)

Module KeyOrder.
Import JSDate JSDateFacts.
Local Open Scope Z_scope.

Lemma digit_compare a b :
  0 <= a <= 9 -> 0 <= b <= 9 -> Ascii.compare (digit a) (digit b) = (a ?= b).
Proof. intros Ha Hb. each_digit Ha; each_digit Hb. Qed.

(** Two numbers of [k] digits compare as their digit strings do. *)
Lemma compare_digits (k : nat) :
  forall n1 n2 acc1 acc2,
    0 <= n1 < 10 ^ Z.of_nat k -> 0 <= n2 < 10 ^ Z.of_nat k ->
    String.compare (digits k n1 acc1) (digits k n2 acc2)
    = match n1 ?= n2 with
      | Eq => String.compare acc1 acc2
      | c => c
      end.
Proof.
  induction k as [| k IH]; intros n1 n2 acc1 acc2 H1 H2.
  - simpl in *. replace n1 with 0 by lia. replace n2 with 0 by lia.
    reflexivity.
  - rewrite Nat2Z.inj_succ, Z.pow_succ_r in H1, H2 by lia.
    cbn [digits].
    rewrite IH
      by (split; [apply Z.div_pos | apply Z.div_lt_upper_bound]; lia).
    cbn [String.compare].
    rewrite digit_compare by apply mod10_bounds.
    pose proof (Z.div_mod n1 10 ltac:(lia)) as E1.
    pose proof (Z.div_mod n2 10 ltac:(lia)) as E2.
    pose proof (mod10_bounds n1) as B1. pose proof (mod10_bounds n2) as B2.
    destruct (Z.compare_spec (n1 / 10) (n2 / 10));
      destruct (Z.compare_spec (n1 mod 10) (n2 mod 10));
      destruct (Z.compare_spec n1 n2); try reflexivity; lia.
Qed.

Lemma key_year_range n :
  minKeyDay <= n <= maxKeyDay -> 0 <= YearFromDay n <= 9999.
Proof.
  unfold minKeyDay, maxKeyDay. intros H.
  pose proof (YearFromDay_spec n) as S. split.
  - destruct (Z.le_gt_cases 0 (YearFromDay n)) as [L | L]; [exact L |].
    pose proof (DayFromYear_le (YearFromDay n + 1) 0) as M.
    assert (DayFromYear 0 = - 719528) by reflexivity. lia.
  - destruct (Z.le_gt_cases (YearFromDay n) 9999) as [L | L]; [exact L |].
    pose proof (DayFromYear_le 10000 (YearFromDay n)) as M.
    assert (DayFromYear 10000 = 2932897) by reflexivity. lia.
Qed.

(** The key of a day from 0000-01-01 to 9999-12-31 is ten code units. *)
Lemma key_shape n :
  minKeyDay <= n <= maxKeyDay ->
  let t := n * msPerDay in
  isoDateOfDay n
  = digits 4 (YearFromTime t)
      (String "-" (digits 2 (MonthFromTime t + 1)
                     (String "-" (digits 2 (DateFromTime t) "")))).
Proof.
  intros H t. pose proof (key_year_range n H) as R.
  unfold isoDateOfDay, isoYear. fold t.
  assert (E : YearFromTime t = YearFromDay n)
    by (unfold YearFromTime, t; now rewrite Day_of_days).
  rewrite E.
  destruct (Z.leb_spec 0 (YearFromDay n)); [| lia].
  destruct (Z.leb_spec (YearFromDay n) 9999); [| lia].
  reflexivity.
Qed.

Lemma key_compare n1 n2 :
  minKeyDay <= n1 <= maxKeyDay -> minKeyDay <= n2 <= maxKeyDay ->
  let t1 := n1 * msPerDay in
  let t2 := n2 * msPerDay in
  String.compare (isoDateOfDay n1) (isoDateOfDay n2)
  = match YearFromTime t1 ?= YearFromTime t2 with
    | Eq =>
        match MonthFromTime t1 + 1 ?= MonthFromTime t2 + 1 with
        | Eq => match DateFromTime t1 ?= DateFromTime t2 with
                | Eq => Eq
                | c => c
                end
        | c => c
        end
    | c => c
    end.
Proof.
  intros H1 H2 t1 t2.
  rewrite (key_shape n1 H1), (key_shape n2 H2). fold t1 t2.
  pose proof (key_year_range n1 H1) as R1.
  pose proof (key_year_range n2 H2) as R2.
  assert (E1 : YearFromTime t1 = YearFromDay n1)
    by (unfold YearFromTime, t1; now rewrite Day_of_days).
  assert (E2 : YearFromTime t2 = YearFromDay n2)
    by (unfold YearFromTime, t2; now rewrite Day_of_days).
  pose proof (MonthFromTime_bounds t1). pose proof (MonthFromTime_bounds t2).
  pose proof (DateFromTime_bounds t1). pose proof (DateFromTime_bounds t2).
  rewrite compare_digits by (change (10 ^ Z.of_nat 4) with 10000; lia).
  cbn [String.compare]. change (Ascii.compare "-" "-") with Eq. cbv iota.
  rewrite compare_digits by (change (10 ^ Z.of_nat 2) with 100; lia).
  cbn [String.compare]. change (Ascii.compare "-" "-") with Eq. cbv iota.
  rewrite compare_digits by (change (10 ^ Z.of_nat 2) with 100; lia).
  reflexivity.
Qed.

Lemma YearFromDay_monotone n1 n2 :
  n1 <= n2 -> YearFromDay n1 <= YearFromDay n2.
Proof.
  intros H. pose proof (YearFromDay_spec n1) as S1.
  pose proof (YearFromDay_spec n2) as S2.
  destruct (Z.le_gt_cases (YearFromDay n1) (YearFromDay n2)) as [L | L];
    [exact L |].
  pose proof (DayFromYear_le (YearFromDay n2 + 1) (YearFromDay n1)). lia.
Qed.

(** A later day has a later year, or the same year and a later month, or
    the same month and a later date. *)
Lemma fields_lt n1 n2 :
  n1 < n2 ->
  let t1 := n1 * msPerDay in
  let t2 := n2 * msPerDay in
  YearFromTime t1 < YearFromTime t2
  \/ YearFromTime t1 = YearFromTime t2
     /\ (MonthFromTime t1 < MonthFromTime t2
         \/ MonthFromTime t1 = MonthFromTime t2
            /\ DateFromTime t1 < DateFromTime t2).
Proof.
  intros H t1 t2.
  pose proof (YearFromDay_monotone n1 n2 ltac:(lia)) as M.
  assert (E1 : YearFromTime t1 = YearFromDay n1)
    by (unfold YearFromTime, t1; now rewrite Day_of_days).
  assert (E2 : YearFromTime t2 = YearFromDay n2)
    by (unfold YearFromTime, t2; now rewrite Day_of_days).
  destruct (Z.eq_dec (YearFromDay n1) (YearFromDay n2)) as [E | N];
    [right | left; lia].
  split; [lia |].
  assert (W : DayWithinYear t1 < DayWithinYear t2).
  { unfold DayWithinYear. rewrite E1, E2, E. unfold t1, t2.
    rewrite !Day_of_days. lia. }
  assert (L : InLeapYear t1 = InLeapYear t2)
    by (unfold InLeapYear; now rewrite E1, E2, E).
  pose proof (InLeapYear_cases t2) as C.
  unfold DateFromTime, MonthFromTime. rewrite L.
  revert W. generalize (DayWithinYear t1) (DayWithinYear t2) (InLeapYear t2) C.
  intros w1 w2 l Cl W.
  split_ltb; cbv beta iota; lia.
Qed.

Lemma key_lt n1 n2 :
  minKeyDay <= n1 -> n1 < n2 -> n2 <= maxKeyDay ->
  String.compare (isoDateOfDay n1) (isoDateOfDay n2) = Lt.
Proof.
  intros H1 H H2. rewrite key_compare by lia.
  destruct (fields_lt n1 n2 H) as [Y | [Y [M | [M D]]]].
  - apply Z.compare_lt_iff in Y. now rewrite Y.
  - rewrite Y, Z.compare_refl.
    assert (L : MonthFromTime (n1 * msPerDay) + 1
                < MonthFromTime (n2 * msPerDay) + 1) by lia.
    apply Z.compare_lt_iff in L. now rewrite L.
  - rewrite Y, M, !Z.compare_refl.
    apply Z.compare_lt_iff in D. now rewrite D.
Qed.

(** On keys, [<=] on strings is [<=] on days. *)
Lemma key_le n1 n2 :
  minKeyDay <= n1 <= maxKeyDay -> minKeyDay <= n2 <= maxKeyDay ->
  JS.le (isoDateOfDay n1) (isoDateOfDay n2) = true <-> n1 <= n2.
Proof.
  intros H1 H2. unfold JS.le, String.leb. split.
  - intros L. destruct (Z.le_gt_cases n1 n2) as [G | G]; [exact G |].
    rewrite String.compare_antisym, key_lt in L by lia. discriminate.
  - intros L. destruct (Z.eq_dec n1 n2) as [-> | N].
    + rewrite key_compare, !Z.compare_refl by lia. reflexivity.
    + now rewrite key_lt by lia.
Qed.

End KeyOrder.

(** ** The order of a range through creation and commits *)

Section Commit.
Import JSDate.
Local Open Scope Z_scope.

Variables (l : list Task.t) (task : Task.t) (ns ne : Z).
Hypothesis stored : findTask (Task.id task) l = Some task.
Hypothesis start_key : isDateKey (Task.startDate task) ns.
Hypothesis end_key : isDateKey (Task.endDate task) ne.
Hypothesis in_order : ordered task.

Lemma duration_nonneg : ns <= ne.
Proof.
  destruct start_key as [Rs Es], end_key as [Re Ee].
  unfold ordered in in_order. rewrite Es, Ee in in_order.
  now apply KeyOrder.key_le in in_order.
Qed.

Lemma commit_inv_press (clickX width : float) (s : State) :
  tasks s = l ->
  commit_inv l task (pressed_edge clickX width)
             (onTaskMouseDown clickX width task s).
Proof.
  intros <-.
  pose proof (isDateKey_truthy _ _ start_key) as Ts.
  pose proof (isDateKey_truthy _ _ end_key) as Te.
  apply String.eqb_neq in Ts, Te.
  unfold commit_inv, pressed_edge, onTaskMouseDown, handleTaskMouseDown.
  destruct (PrimFloat.ltb clickX 10);
    [| destruct (PrimFloat.ltb (PrimFloat.sub width 10) clickX)];
    cbn; repeat (split; [reflexivity |]);
    exists (Task.startDate task), (Task.endDate task);
    repeat split; auto.
Qed.

Lemma commit_inv_move (k : option ResizeType) (target : option string)
    (st : State) :
  (k = None -> move_target (ne - ns) target) ->
  commit_inv l task k st ->
  exists st', onMouseMove target st = Some st' /\ commit_inv l task k st'.
Proof.
  intros T I.
  pose proof I as (Ht & Hi & Hk & Hd & Hr & a & b & Ha & Hb & Na & Nb & O & E).
  unfold onMouseMove.
  destruct target as [d |];
    [| exists st; split; [| exact I];
       unfold handleTaskDrag; rewrite Hd, Hr; now destruct k].
  destruct (String.eqb_spec d "") as [-> | Nd].
  { exists st. split; [| exact I].
    unfold handleTaskDrag. rewrite Hd, Hr, Hi. now destruct k. }
  destruct (String.eqb_spec (Task.id task) "") as [Ei | Ni].
  { exists st. split; [| exact I].
    unfold handleTaskDrag. rewrite Hd, Hr, Hi. cbn [JS.truthy].
    rewrite Ei. cbn. rewrite andb_false_r. now destruct k. }
  destruct k as [e |].
  - unfold handleTaskDrag. rewrite Hd, Hr, Hi, Hk, Ht.
    cbn [negb andb JS.truthy].
    rewrite (proj2 (String.eqb_neq _ _) Nd), (proj2 (String.eqb_neq _ _) Ni).
    cbn [negb andb]. rewrite stored.
    destruct e.
    + destruct (JS.le d (Task.endDate task)) eqn:G; [| now exists st].
      eexists. split; [reflexivity |].
      unfold commit_inv. cbn. rewrite Hi, Hr, Hk.
      repeat (split; [solve [assumption | reflexivity] |]).
      exists d, b. rewrite Hb. subst b.
      repeat split; assumption.
    + destruct (JS.ge d (Task.startDate task)) eqn:G; [| now exists st].
      eexists. split; [reflexivity |].
      unfold commit_inv. cbn. rewrite Hi, Hr, Hk.
      repeat (split; [solve [assumption | reflexivity] |]).
      exists a, d. rewrite Ha. subst a.
      repeat split; assumption.
  - destruct (T eq_refl d eq_refl) as (nd & Kd & Bd).
    pose proof duration_nonneg as Dn.
    assert (R : minKeyDay <= nd + (ne - ns) <= maxKeyDay)
      by (destruct Kd as [Rd _]; lia).
    rewrite (handleTaskDrag_moving st task d ns ne nd); try assumption;
      [| now rewrite Ht | now apply isDateKey_isDayKey
       | now apply isDateKey_isDayKey | now apply isDateKey_isDayKey
       | unfold minKeyDay, maxKeyDay in R; lia].
    eexists. split; [reflexivity |].
    unfold commit_inv. cbn. rewrite Hi, Hr, Hk, Hd.
    repeat (split; [solve [assumption | reflexivity] |]).
    exists d, (isoDateOfDay (nd + (ne - ns))).
    repeat split; try assumption.
    + apply String.eqb_neq, isoDateOfDay_nonempty.
    + destruct Kd as [Rd ->]. apply KeyOrder.key_le; [assumption .. | lia].
Qed.

Lemma commit_inv_moves (k : option ResizeType)
    (targets : list (option string)) (st : State) :
  (k = None -> Forall (move_target (ne - ns)) targets) ->
  commit_inv l task k st ->
  exists st', dragMoves targets st = Some st' /\ commit_inv l task k st'.
Proof.
  revert st.
  induction targets as [| target targets IH]; intros st T I; cbn [dragMoves].
  - now exists st.
  - destruct (commit_inv_move k target st) as (s0 & M & I0); [| exact I |].
    + intros K. specialize (T K). now inversion T.
    + rewrite M. apply IH; [| exact I0].
      intros K. specialize (T K). now inversion T.
Qed.

Lemma commit_inv_release (k : option ResizeType) (st : State) :
  Forall ordered l ->
  commit_inv l task k st -> Forall ordered (tasks (onMouseUp st)).
Proof.
  intros Ol (Ht & Hi & _ & _ & _ & a & b & Ha & Hb & Na & Nb & O & _).
  rewrite tasks_onMouseUp, Hi, Ha, Hb, Ht.
  destruct (JS.truthy (Some (Task.id task))
            && (JS.truthy (Some a) || JS.truthy (Some b)));
    [| exact Ol].
  apply Forall_map. apply Forall_impl with (2 := Ol).
  intros t Ot.
  destruct (String.eqb (Task.id t) (Task.id task)); [| exact Ot].
  unfold ordered, JS.orElse. cbn.
  apply String.eqb_neq in Na, Nb. now rewrite Na, Nb.
Qed.

End Commit.

(** The order of the ranges after the release of a Resize gesture. *)
Lemma resize_release_ordered (l : list Task.t) (task : Task.t)
    (e : ResizeType) (st : State) :
  Forall ordered l -> In task l -> uniqueId task l ->
  drag_inv l task (Some e) st ->
  Forall ordered (tasks (onMouseUp st)).
Proof.
  intros Ol It U (Ht & Hi & _ & _ & _ & R).
  assert (O : ordered task) by now apply (proj1 (Forall_forall _ _) Ol).
  rewrite tasks_onMouseUp, Hi, Ht.
  destruct (JS.truthy (Some (Task.id task)) && _); [| exact Ol].
  apply Forall_forall. intros t' I'.
  apply in_map_iff in I' as (t & <- & I).
  destruct (String.eqb_spec (Task.id t) (Task.id task)) as [Q | Q];
    [| now apply (proj1 (Forall_forall _ _) Ol)].
  rewrite (U t I Q). unfold ordered in *. cbn.
  destruct e.
  - destruct R as (-> & a & -> & La). rewrite orElse_same.
    unfold JS.orElse. destruct (String.eqb a ""); [exact O | now apply La].
  - destruct R as (-> & b & -> & Lb). rewrite orElse_same.
    unfold JS.orElse. destruct (String.eqb b ""); [exact O | now apply Lb].
Qed.

(** C1, as stated, fails, in these ways.  The form opened by a Create
    gesture over 2024-03-10..2024-03-12, with its end date set to
    2024-03-01 and a name typed in, creates a task from 2024-03-10 to
    2024-03-01.  With two tasks that share their id in the store, both in
    order, the second, 2024-03-10..2024-03-12, resized by its start edge to
    2024-03-18, which is before the end of the first, commits
    2024-03-18..2024-03-12 to both.  A task of 9999-12-28..9999-12-30 moved
    onto 9999-12-31 is stored with the end +010000-01-02, which is before
    its start in the order of strings.  And a move of a task whose start
    date was cleared in the form commits nothing: the render fails. *)
Lemma createTask_stores_reversed_range :
  (modalTask reversed_form_state
   = ModalTaskState.mk "Second" ToDo "2024-03-10" "2024-03-01"
   /\ tasks (onModalCreate 1710028800001 reversed_form_state)
      = [review_task;
         Task.mk "1710028800001" "Second" "2024-03-10" "2024-03-01" ToDo]
   /\ JS.le "2024-03-10" "2024-03-01" = false)
  /\ (tasks twin_state = [first_twin; second_twin]
      /\ JS.le (Task.startDate first_twin) (Task.endDate first_twin) = true
      /\ JS.le (Task.startDate second_twin) (Task.endDate second_twin) = true
      /\ option_map (fun st => tasks (onMouseUp st))
           (dragMoves [Some "2024-03-18"]
              (onTaskMouseDown 2 100 second_twin twin_state))
         = Some [Task.mk "1710028800000" "First" "2024-03-18" "2024-03-12"
                   ToDo;
                 Task.mk "1710028800000" "Second" "2024-03-18" "2024-03-12"
                   ToDo]
      /\ JS.le "2024-03-18" "2024-03-12" = false)
  /\ (tasks last_state = [last_task]
      /\ JS.le (Task.startDate last_task) (Task.endDate last_task) = true
      /\ option_map (fun st => tasks (onMouseUp st))
           (dragMoves [Some "9999-12-31"]
              (onTaskMouseDown 50 100 last_task last_state))
         = Some [Task.mk "1710028800000" "Last" "9999-12-31" "+010000-01-02"
                   ToDo]
      /\ JS.le "9999-12-31" "+010000-01-02" = false)
  /\ (tasks blank_state = [blank_task]
      /\ JS.le (Task.startDate blank_task) (Task.endDate blank_task) = true
      /\ dragMoves [Some "2024-03-15"]
           (onTaskMouseDown 50 100 blank_task blank_state) = None).
Proof. repeat split; vm_compute; reflexivity. Qed.

(** C1, amended.  Creation stores the form's two dates as they are, so the
    created task has [startDate <= endDate] exactly when the form has; the
    range a Create gesture hands to the form is in order.  When every task
    of the store has [startDate <= endDate], so has every task after the
    release (or the pointer leaving the grid) that ends a gesture begun by a
    press on a task of the store whose id no other task of the store has:
    a Resize with any pointer moves; a Move of a task whose dates are date
    keys with pointer moves over date keys early enough for the moved end
    not to pass 9999-12-31.  No render fails on the way. *)
Theorem range_order_after_mutation :
  (forall now s,
      JS.trim (ModalTaskState.name (modalTask s)) <> "" ->
      exists t,
        tasks (onModalCreate now s) = (tasks s ++ [t])%list
        /\ Task.startDate t = ModalTaskState.startDate (modalTask s)
        /\ Task.endDate t = ModalTaskState.endDate (modalTask s)
        /\ (ordered t <->
            JS.le (ModalTaskState.startDate (modalTask s))
                  (ModalTaskState.endDate (modalTask s)) = true))
  /\ (forall s a b,
         gesture s = Creating a b -> a <> "" -> b <> "" ->
         showModal (onMouseUp s) = true
         /\ JS.le (ModalTaskState.startDate (modalTask (onMouseUp s)))
                  (ModalTaskState.endDate (modalTask (onMouseUp s))) = true)
  /\ (forall s clickX width task targets e,
         Forall ordered (tasks s) ->
         In task (tasks s) -> uniqueId task (tasks s) ->
         pressed_edge clickX width = Some e ->
         exists s1,
           dragMoves targets (onTaskMouseDown clickX width task s) = Some s1
           /\ Forall ordered (tasks (onMouseUp s1))
           /\ Forall ordered (tasks (onMouseLeave s1)))
  /\ (forall s clickX width task targets ns ne,
         Forall ordered (tasks s) ->
         In task (tasks s) -> uniqueId task (tasks s) ->
         isDateKey (Task.startDate task) ns ->
         isDateKey (Task.endDate task) ne ->
         pressed_edge clickX width = None ->
         Forall (move_target (ne - ns)) targets ->
         exists s1,
           dragMoves targets (onTaskMouseDown clickX width task s) = Some s1
           /\ Forall ordered (tasks (onMouseUp s1))
           /\ Forall ordered (tasks (onMouseLeave s1))).
Proof.
  split; [| split; [| split]].
  - intros now s N.
    destruct (createTask_cases now s) as [[E _] | [_ R]]; [now destruct N |].
    eexists. rewrite R. split; [reflexivity |]. cbn. repeat split; auto.
  - intros s a b G Na Nb. apply gesture_Creating in G.
    apply String.eqb_neq in Na, Nb.
    assert (H : showModal (handleMouseUp s s) = true
                /\ let m := modalTask (handleMouseUp s s) in
                   JS.le (ModalTaskState.startDate m)
                         (ModalTaskState.endDate m) = true).
    { unfold handleMouseUp. rewrite G. cbn. rewrite Na, Nb. cbn.
      split; [reflexivity |].
      destruct (JS.le a b) eqn:E; [exact E |].
      now apply le_false_ge. }
    unfold onMouseUp, handleTaskDragEnd.
    destruct (JS.truthy (DragState.taskId (dragState s))
              && (JS.truthy (DragState.startDate (dragState s))
                  || JS.truthy (DragState.endDate (dragState s))));
      exact H.
  - intros s clickX width task targets e Ol It U K.
    pose proof (unique_findTask task (tasks s) It U) as F.
    pose proof (drag_inv_press clickX width task s) as P.
    destruct (dragMoves_resizing targets
                (onTaskMouseDown clickX width task s)) as (s1 & D).
    { destruct P as (_ & _ & _ & Pd & _). rewrite K in Pd. exact Pd. }
    exists s1. split; [exact D |].
    pose proof (drag_inv_moves _ _ _ targets _ s1 F P D) as I.
    rewrite K in I.
    assert (R : Forall ordered (tasks (onMouseUp s1)))
      by exact (resize_release_ordered (tasks s) task e s1 Ol It U I).
    split; exact R.
  - intros s clickX width task targets ns ne Ol It U Ks Ke K T.
    pose proof (unique_findTask task (tasks s) It U) as F.
    assert (O : ordered task) by now apply (proj1 (Forall_forall _ _) Ol).
    destruct (commit_inv_moves (tasks s) task ns ne F Ks Ke O
                (pressed_edge clickX width) targets
                (onTaskMouseDown clickX width task s)) as (s1 & D & I).
    { intros _. exact T. }
    { now apply (commit_inv_press (tasks s) task ns ne). }
    exists s1. split; [exact D |].
    assert (R : Forall ordered (tasks (onMouseUp s1)))
      by exact (commit_inv_release (tasks s) task _ s1 Ol I).
    split; exact R.
Qed.

(** The task 2024-03-10..2024-03-12 moved onto 2024-03-15 and released. *)
Lemma range_order_after_mutation_witness :
  exists s1,
    dragMoves [Some "2024-03-15"]
      (onTaskMouseDown 50 100 review_task review_state) = Some s1
    /\ Forall ordered (tasks (onMouseUp s1))
    /\ Forall ordered (tasks (onMouseLeave s1)).
Proof.
  destruct range_order_after_mutation as (_ & _ & _ & H).
  apply (H review_state 50%float 100%float review_task [Some "2024-03-15"]
           19792%Z 19794%Z).
  - repeat constructor.
  - now left.
  - intros t [<- | []] _. reflexivity.
  - split; [unfold minKeyDay, maxKeyDay; lia | reflexivity].
  - split; [unfold minKeyDay, maxKeyDay; lia | reflexivity].
  - reflexivity.
  - repeat constructor. intros d [= <-]. exists 19797%Z.
    split; [split; [unfold minKeyDay, maxKeyDay; lia | reflexivity] |].
    unfold maxKeyDay. lia.
Defined.

(** ** The scenarios of the specification

    "Design review", To Do, 2024-03-10..2024-03-12, on a planner opened on
    2024-03-10. *)

Example scenario_per_day :
  getTasksForDate (JSDate.constantTZA 0) 1710028800000 review_state "2024-03-11"
  = Some [review_task]
  /\ getTasksForDate (JSDate.constantTZA 0) 1710028800000 review_state "2024-03-10"
     = Some [review_task]
  /\ getTasksForDate (JSDate.constantTZA 0) 1710028800000 review_state "2024-03-13" = Some [].
Proof. repeat split. Qed.

Example scenario_resize_start :
  gesture (onTaskMouseDown 2 100 review_task review_state)
  = Resizing "1710028800000" Start "2024-03-10" "2024-03-12"
  /\ option_map (fun st => tasks (onMouseUp st))
       (onMouseMove (Some "2024-03-09")
          (onTaskMouseDown 2 100 review_task review_state))
     = Some [Task.mk "1710028800000" "Design review" "2024-03-09"
               "2024-03-12" ToDo].
Proof. repeat split. Qed.

Example scenario_move :
  gesture (onTaskMouseDown 50 100 review_task review_state)
  = Moving "1710028800000" "2024-03-10" "2024-03-12"
  /\ option_map gesture
       (onMouseMove (Some "2024-03-15")
          (onTaskMouseDown 50 100 review_task review_state))
     = Some (Moving "1710028800000" "2024-03-15" "2024-03-17")
  /\ option_map (fun st => tasks (onMouseUp st))
       (onMouseMove (Some "2024-03-15")
          (onTaskMouseDown 50 100 review_task review_state))
     = Some [Task.mk "1710028800000" "Design review" "2024-03-15"
               "2024-03-17" ToDo].
Proof. repeat split. Qed.

Example scenario_search :
  filteredTasks (JSDate.constantTZA 0) 1710028800000
    (setCategoryFilters (fun _ => [ToDo]) (setSearchTerm "review" review_state))
  = Some [review_task]
  /\ filteredTasks (JSDate.constantTZA 0) 1710028800000
       (setCategoryFilters (fun _ => [Completed])
          (setSearchTerm "review" review_state))
     = Some [].
Proof. repeat split. Qed.

Example scenario_create :
  tasks (onModalCreate 1710028800000
           (onModalName "Design review"
              (onMouseUp
                 (handleMouseEnter "2024-03-12"
                    (handleMouseDown true "2024-03-10"
                       (initialState 1710028800000)
                       (initialState 1710028800000))
                    (handleMouseDown true "2024-03-10"
                       (initialState 1710028800000)
                       (initialState 1710028800000))))))
  = [review_task].
Proof. reflexivity. Qed.

(** On the host [easternTZA], across the change to daylight-saving time: a
    Create gesture from 2024-03-09 to 2024-03-12 highlights 2024-03-10
    twice and 2024-03-12 never, the loop of [getSelectionRange] stepping in
    local time and printing in UTC. *)
Example scenario_selection_across_change :
  getSelectionRange easternTZA 10
    (setCreateTaskState
       (fun _ => CreateTaskState.mk true (Some "2024-03-09")
                   (Some "2024-03-12"))
       review_state)
  = Done ["2024-03-09"; "2024-03-10"; "2024-03-10"; "2024-03-11"].
Proof. vm_compute. reflexivity. Qed.

(** * Further properties *)

(** ** Strings in order *)

Lemma string_compare_refl (s : string) : String.compare s s = Eq.
Proof.
  induction s as [| a s IH]; simpl; [reflexivity |].
  unfold Ascii.compare. now rewrite N.compare_refl.
Qed.

Lemma string_compare_lt_trans (a b c : string) :
  String.compare a b = Lt -> String.compare b c = Lt ->
  String.compare a c = Lt.
Proof.
  revert b c. induction a as [| x a IH]; intros [| y b] [| z c]; simpl;
    try discriminate; try reflexivity.
  unfold Ascii.compare.
  destruct (N.compare_spec (N_of_ascii x) (N_of_ascii y)) as [E1 | L1 | G1];
    try discriminate;
    destruct (N.compare_spec (N_of_ascii y) (N_of_ascii z)) as [E2 | L2 | G2];
    try discriminate; intros H1 H2.
  - rewrite E1, E2, N.compare_refl. now apply (IH b c).
  - rewrite E1. now apply N.compare_lt_iff in L2 as ->.
  - rewrite <- E2. now apply N.compare_lt_iff in L1 as ->.
  - assert (L : (N_of_ascii x < N_of_ascii z)%N) by lia.
    now apply N.compare_lt_iff in L as ->.
Qed.

(** [<=] on strings is transitive. *)
Lemma le_trans (a b c : string) :
  JS.le a b = true -> JS.le b c = true -> JS.le a c = true.
Proof.
  unfold JS.le, String.leb. intros H1 H2.
  destruct (String.compare a b) eqn:E1; try discriminate;
    destruct (String.compare b c) eqn:E2; try discriminate.
  - apply String.compare_eq_iff in E1, E2. subst.
    now rewrite string_compare_refl.
  - apply String.compare_eq_iff in E1. subst. now rewrite E2.
  - apply String.compare_eq_iff in E2. subst. now rewrite E1.
  - now rewrite (string_compare_lt_trans a b c).
Qed.

Lemma le_refl (a : string) : JS.le a a = true.
Proof. unfold JS.le, String.leb. now rewrite string_compare_refl. Qed.

(** ** Releases and pointer moves *)

Lemma setCreateTaskState_same (s : State) :
  setCreateTaskState (fun _ => createTaskState s) s = s.
Proof. now destruct s. Qed.

Lemma setDragState_same (s : State) :
  setDragState (fun _ => dragState s) s = s.
Proof. now destruct s. Qed.

(** What a release leaves in the two gesture records. *)
Lemma release_resets (s : State) :
  createTaskState (onMouseUp s) = initialCreateTaskState
  /\ dragState (onMouseUp s) = initialDragState.
Proof.
  split; [| reflexivity].
  unfold onMouseUp.
  now rewrite createTaskState_handleTaskDragEnd, createTaskState_handleMouseUp.
Qed.

(** A release on a state with no gesture changes nothing. *)
Lemma release_when_idle (s : State) :
  createTaskState s = initialCreateTaskState ->
  dragState s = initialDragState ->
  onMouseUp s = s.
Proof.
  intros C D. unfold onMouseUp, handleTaskDragEnd, handleMouseUp.
  rewrite C, D. cbn.
  destruct s as [cd ts st cf tf sm mt ds cs]. cbn in C, D. subst.
  reflexivity.
Qed.

(** X1: the release is idempotent: a pointer release followed by the
    pointer leaving the grid (or by another release) is one release; the
    form is not opened again and nothing is committed twice. *)
Theorem release_idempotent (s : State) :
  onMouseLeave (onMouseUp s) = onMouseUp s
  /\ onMouseUp (onMouseUp s) = onMouseUp s
  /\ onMouseUp (onMouseLeave s) = onMouseLeave s.
Proof.
  destruct (release_resets s) as [C D].
  assert (H : onMouseUp (onMouseUp s) = onMouseUp s)
    by (apply release_when_idle; assumption).
  repeat split; exact H.
Qed.

(** X2: pointer moves over the grid, whatever the tiles under the pointer
    and whatever the state, change nothing but the provisional range, as
    long as no render fails: the tasks, the form, the filters and the
    Create gesture stay as they are, and so do the dragged task and the
    kind of the gesture.  A render can fail in a Move only: outside one,
    the moves always leave a state. *)
Theorem pointer_moves_only_touch_provisional_range
    (targets : list (option string)) (s : State) :
  (forall s',
      dragMoves targets s = Some s' ->
      tasks s' = tasks s
      /\ showModal s' = showModal s
      /\ modalTask s' = modalTask s
      /\ createTaskState s' = createTaskState s
      /\ searchTerm s' = searchTerm s
      /\ categoryFilters s' = categoryFilters s
      /\ timeFilter s' = timeFilter s
      /\ currentDate s' = currentDate s
      /\ DragState.taskId (dragState s') = DragState.taskId (dragState s)
      /\ DragState.isDragging (dragState s')
         = DragState.isDragging (dragState s)
      /\ DragState.isResizing (dragState s')
         = DragState.isResizing (dragState s)
      /\ DragState.resizeType (dragState s')
         = DragState.resizeType (dragState s))
  /\ (DragState.isDragging (dragState s) = false ->
      exists s', dragMoves targets s = Some s').
Proof.
  split.
  - intros s'. apply dragMoves_frame.
  - apply dragMoves_resizing.
Qed.

Lemma pointer_moves_only_touch_provisional_range_witness :
  exists s',
    dragMoves [Some "2024-03-08"; None; Some "2024-03-20"]
      (onTaskMouseDown 2 100 review_task review_state) = Some s'
    /\ tasks s' = [review_task].
Proof.
  destruct (pointer_moves_only_touch_provisional_range
              [Some "2024-03-08"; None; Some "2024-03-20"]
              (onTaskMouseDown 2 100 review_task review_state)) as [F E].
  destruct (E eq_refl) as (s' & D).
  exists s'. split; [exact D |].
  destruct (F s' D) as (T & _). rewrite T. reflexivity.
Defined.

(** ** What a commit changes *)

Lemma findTask_none (i : string) (l : list Task.t) :
  findTask i l = None -> forall t, In t l -> Task.id t <> i.
Proof.
  unfold findTask. intros H t Ht E.
  apply (find_none _ _ H) in Ht. apply String.eqb_neq in Ht. contradiction.
Qed.

(** X3: a gesture on a task that is not in the store does nothing: pointer
    moves leave the whole state as it is, and the release leaves the task
    list as it is. *)
Theorem unknown_task_is_ignored (s : State) (i : string)
    (target : option string) :
  DragState.taskId (dragState s) = Some i ->
  findTask i (tasks s) = None ->
  onMouseMove target s = Some s
  /\ tasks (onMouseUp s) = tasks s
  /\ tasks (onMouseLeave s) = tasks s.
Proof.
  intros Hi F. split.
  - unfold onMouseMove, handleTaskDrag. rewrite Hi, F.
    destruct (negb (DragState.isDragging (dragState s))
              && negb (DragState.isResizing (dragState s)));
      [reflexivity |].
    destruct target as [d |]; [| reflexivity].
    now destruct (JS.truthy (Some d) && JS.truthy (Some i)).
  - assert (U : tasks (onMouseUp s) = tasks s).
    { rewrite tasks_onMouseUp, Hi.
      destruct (JS.truthy (Some i)
                && (JS.truthy (DragState.startDate (dragState s))
                    || JS.truthy (DragState.endDate (dragState s))));
        [| reflexivity].
      apply map_id_on. intros t Ht.
      pose proof (findTask_none i (tasks s) F t Ht) as N.
      apply String.eqb_neq in N. now rewrite N. }
    split; exact U.
Qed.

Lemma unknown_task_is_ignored_witness :
  onMouseMove (Some "2024-03-15")
    (setDragState
       (fun _ => DragState.mk true false None (Some "gone")
                   (Some "2024-03-10") (Some "2024-03-12")) review_state)
  = Some
      (setDragState
         (fun _ => DragState.mk true false None (Some "gone")
                     (Some "2024-03-10") (Some "2024-03-12")) review_state)
  /\ tasks (onMouseUp
             (setDragState
                (fun _ => DragState.mk true false None (Some "gone")
                            (Some "2024-03-10") (Some "2024-03-12"))
                review_state))
     = [review_task].
Proof.
  destruct (unknown_task_is_ignored
              (setDragState
                 (fun _ => DragState.mk true false None (Some "gone")
                             (Some "2024-03-10") (Some "2024-03-12"))
                 review_state)
              "gone" (Some "2024-03-15") eq_refl eq_refl) as (H1 & H2 & _).
  split; [exact H1 | exact H2].
Defined.

(** X4: a release never adds, removes, reorders or renames a task: the
    ids, the names and the categories of the task list are the same, in
    the same order, before and after, whatever the state. *)
Theorem release_keeps_tasks_identity (s : State) :
  map Task.id (tasks (onMouseUp s)) = map Task.id (tasks s)
  /\ map Task.name (tasks (onMouseUp s)) = map Task.name (tasks s)
  /\ map Task.category (tasks (onMouseUp s)) = map Task.category (tasks s)
  /\ List.length (tasks (onMouseUp s)) = List.length (tasks s).
Proof.
  rewrite tasks_onMouseUp.
  destruct (JS.truthy (DragState.taskId (dragState s))
            && (JS.truthy (DragState.startDate (dragState s))
                || JS.truthy (DragState.endDate (dragState s))));
    [| repeat split].
  rewrite !map_map, length_map.
  repeat split; apply map_ext; intros t;
    now destruct (match DragState.taskId (dragState s) with
                  | Some i => String.eqb (Task.id t) i
                  | None => false
                  end).
Qed.

(** The task list after a release, when the provisional range is [a], [b],
    both non-empty: the tasks with the gesture's id take the range. *)
Lemma tasks_after_commit (s : State) (i a b : string) :
  DragState.taskId (dragState s) = Some i ->
  DragState.startDate (dragState s) = Some a ->
  DragState.endDate (dragState s) = Some b ->
  i <> "" -> a <> "" -> b <> "" ->
  tasks (onMouseUp s)
  = map (fun t =>
           if String.eqb (Task.id t) i
           then Task.mk (Task.id t) (Task.name t) a b (Task.category t)
           else t) (tasks s).
Proof.
  intros Hi Ha Hb Ni Na Nb.
  rewrite tasks_onMouseUp, Hi, Ha, Hb. cbn [JS.truthy JS.orElse].
  apply String.eqb_neq in Ni, Na, Nb. rewrite Ni, Na, Nb. reflexivity.
Qed.

(** X5: a whole Resize gesture on a task of the store whose id no other
    task has: a press on an edge, any pointer moves, which never make a
    render fail, and the release.  Every other task is as it was; of the
    resized task only the date of the pressed edge can have changed: after
    a Resize by the start edge it has its id, name, category and end date
    and some start date [a], with [a <= endDate] if it had
    [startDate <= endDate]; symmetrically for the end edge. *)
Theorem resize_commit_keeps_opposite_dates (s : State) (task : Task.t)
    (clickX width : float) (targets : list (option string))
    (e : ResizeType) :
  In task (tasks s) ->
  uniqueId task (tasks s) ->
  pressed_edge clickX width = Some e ->
  exists s1 x,
    dragMoves targets (onTaskMouseDown clickX width task s) = Some s1
    /\ tasks (onMouseUp s1)
       = map (fun t =>
                if String.eqb (Task.id t) (Task.id task)
                then match e with
                     | Start =>
                         Task.mk (Task.id task) (Task.name task) x
                                 (Task.endDate task) (Task.category task)
                     | End_ =>
                         Task.mk (Task.id task) (Task.name task)
                                 (Task.startDate task) x (Task.category task)
                     end
                else t) (tasks s)
    /\ (JS.le (Task.startDate task) (Task.endDate task) = true ->
        match e with
        | Start => JS.le x (Task.endDate task) = true
        | End_ => JS.le (Task.startDate task) x = true
        end).
Proof.
  intros It U K.
  pose proof (unique_findTask task (tasks s) It U) as F.
  pose proof (drag_inv_press clickX width task s) as P.
  destruct (dragMoves_resizing targets
              (onTaskMouseDown clickX width task s)) as (s1 & D).
  { destruct P as (_ & _ & _ & Pd & _). rewrite K in Pd. exact Pd. }
  pose proof (drag_inv_moves _ _ _ targets _ s1 F P D) as I.
  rewrite K in I. destruct I as (Ht & Hi & _ & _ & _ & R).
  assert (G : forall a b : string,
            DragState.startDate (dragState s1) = Some a ->
            DragState.endDate (dragState s1) = Some b ->
            tasks (onMouseUp s1)
            = map (fun t =>
                     if String.eqb (Task.id t) (Task.id task)
                     then Task.mk (Task.id task) (Task.name task)
                            (JS.orElse (Some a) (Task.startDate task))
                            (JS.orElse (Some b) (Task.endDate task))
                            (Task.category task)
                     else t) (tasks s)).
  { intros a b Ha Hb. rewrite tasks_onMouseUp, Hi, Ha, Hb, Ht.
    destruct (JS.truthy (Some (Task.id task))
              && (JS.truthy (Some a) || JS.truthy (Some b))) eqn:C.
    - apply map_ext_in. intros t I.
      destruct (String.eqb_spec (Task.id t) (Task.id task)) as [Q | Q];
        [| reflexivity].
      now rewrite (U t I Q).
    - symmetry. apply map_id_on. intros t I.
      destruct (String.eqb_spec (Task.id t) (Task.id task)) as [Q | Q];
        [| reflexivity].
      rewrite (U t I Q).
      assert (E : JS.orElse (Some a) (Task.startDate task)
                  = Task.startDate task
                  /\ JS.orElse (Some b) (Task.endDate task)
                     = Task.endDate task).
      { unfold JS.truthy in C.
        destruct (String.eqb (Task.id task) "") eqn:Ei.
        - apply String.eqb_eq in Ei.
          assert (N : onTaskMouseDown clickX width task s = s1).
          { clear - D Ei.
            remember (onTaskMouseDown clickX width task s) as s0 eqn:E0.
            assert (Hi : DragState.taskId (dragState s0) = Some "")
              by (subst s0; cbn; now rewrite Ei).
            clear E0. revert s0 Hi D.
            induction targets as [| target targets IH]; intros s0 Hi;
              cbn [dragMoves]; [now intros [= ->] |].
            assert (M : onMouseMove target s0 = Some s0).
            { unfold onMouseMove, handleTaskDrag. rewrite Hi.
              destruct (negb (DragState.isDragging (dragState s0))
                        && negb (DragState.isResizing (dragState s0)));
                [reflexivity |].
              destruct target as [d |]; [| reflexivity].
              cbn. now rewrite andb_false_r. }
            rewrite M. now apply IH. }
          subst s1. cbn in Ha, Hb. injection Ha as <-. injection Hb as <-.
          split; apply orElse_same.
        - cbn in C. apply orb_false_iff in C as [Ca Cb].
          apply negb_false_iff in Ca, Cb. unfold JS.orElse.
          now rewrite Ca, Cb. }
      destruct E as [-> ->]. now destruct task. }
  destruct e.
  - destruct R as (Hb & a & Ha & La).
    exists s1, (JS.orElse (Some a) (Task.startDate task)).
    split; [exact D |]. split.
    + rewrite (G a (Task.endDate task) Ha Hb). now rewrite orElse_same.
    + intros O. unfold JS.orElse.
      destruct (String.eqb a ""); [exact O | now apply La].
  - destruct R as (Ha & b & Hb & Lb).
    exists s1, (JS.orElse (Some b) (Task.endDate task)).
    split; [exact D |]. split.
    + rewrite (G (Task.startDate task) b Ha Hb). now rewrite orElse_same.
    + intros O. unfold JS.orElse.
      destruct (String.eqb b ""); [exact O | now apply Lb].
Qed.

Lemma resize_commit_keeps_opposite_dates_witness :
  exists s1 x,
    dragMoves [Some "2024-03-08"; Some "2024-03-11"]
      (onTaskMouseDown 2 100 review_task review_state) = Some s1
    /\ tasks (onMouseUp s1)
       = [Task.mk "1710028800000" "Design review" x "2024-03-12" ToDo].
Proof.
  destruct (resize_commit_keeps_opposite_dates review_state review_task
              2%float 100%float [Some "2024-03-08"; Some "2024-03-11"] Start)
    as (s1 & x & D & T & _).
  - now left.
  - intros t [<- | []] _. reflexivity.
  - reflexivity.
  - exists s1, x. split; [exact D |]. rewrite T. reflexivity.
Defined.

(** ** A whole Move gesture *)

Section MoveGesture.
Import JSDate.
Local Open Scope Z_scope.

(** X6: a whole Move gesture on a task of the store that is the one
    [tasks.find] yields for its id, whose id is not empty and whose dates
    are keys of days: a press on the body, pointer moves on which no render
    fails, a last move onto the key [d] of a day early enough for the moved
    end to be a day of the range of Date, and the release.  Every task with
    the pressed id gets the range from [d] to the key of the day
    [d + (end - start)], the other tasks are as they were, and no gesture is
    left on; the stored range spans as many days as before. *)
Theorem move_gesture_commits_shifted_range (s : State)
    (clickX width : float) (task : Task.t)
    (targets : list (option string)) (d : string) (ns ne nd : Z)
    (s0 : State) :
  pressed_edge clickX width = None ->
  findTask (Task.id task) (tasks s) = Some task ->
  Task.id task <> ""%string ->
  isDayKey (Task.startDate task) ns ->
  isDayKey (Task.endDate task) ne ->
  isDayKey d nd ->
  - 100000000 <= nd + (ne - ns) <= 100000000 ->
  dragMoves targets (onTaskMouseDown clickX width task s) = Some s0 ->
  let e := isoDateOfDay (nd + (ne - ns)) in
  exists s1,
    onMouseMove (Some d) s0 = Some s1
    /\ tasks (onMouseUp s1)
       = map (fun t =>
                if String.eqb (Task.id t) (Task.id task)
                then Task.mk (Task.id t) (Task.name t) d e (Task.category t)
                else t) (tasks s)
    /\ sub (parse e) (parse d)
       = sub (parse (Task.endDate task)) (parse (Task.startDate task))
    /\ gesture (onMouseUp s1) = Idle.
Proof.
  intros Hk F Ni Ks Ke Kd R D e.
  assert (I : drag_inv (tasks s) task (pressed_edge clickX width) s0)
    by (apply (drag_inv_moves _ _ _ targets
                 (onTaskMouseDown clickX width task s));
        [exact F | apply drag_inv_press | exact D]).
  rewrite Hk in I. destruct I as (Ht & Hi & _ & Hd & _ & _).
  assert (M : handleTaskDrag (Some d) s0 s0
              = Some (setDragState
                        (fun prev =>
                           DragState.mk (DragState.isDragging prev)
                             (DragState.isResizing prev)
                             (DragState.resizeType prev)
                             (DragState.taskId prev) (Some d) (Some e)) s0)).
  { apply (handleTaskDrag_moving s0 task d ns ne nd); try assumption.
    now rewrite Ht. }
  eexists. split; [exact M |]. split; [| split].
  - rewrite (tasks_after_commit _ (Task.id task) d e).
    + cbn. now rewrite Ht.
    + cbn. exact Hi.
    + reflexivity.
    + reflexivity.
    + exact Ni.
    + apply String.eqb_neq. exact (isDayKey_truthy _ _ Kd).
    + apply String.eqb_neq, isoDateOfDay_nonempty.
  - unfold e. rewrite (isDayKey_parse _ _ Ks), (isDayKey_parse _ _ Ke),
      (isDayKey_parse _ _ Kd).
    rewrite JSDateFacts.parse_isoDateOfDay by exact R.
    unfold sub. f_equal. ring.
  - apply gesture_after_release.
Qed.

End MoveGesture.

Lemma move_gesture_commits_shifted_range_witness :
  exists s1,
    dragMoves [Some "2024-03-15"; None; Some "2024-02-27"]
      (onTaskMouseDown 50 100 review_task review_state) = Some s1
    /\ tasks (onMouseUp s1)
       = [Task.mk "1710028800000" "Design review" "2024-02-27" "2024-02-29"
            ToDo].
Proof.
  destruct (move_gesture_commits_shifted_range review_state 50 100
              review_task [Some "2024-03-15"; None] "2024-02-27"
              19792 19794 19780
              (setDragState
                 (fun _ => DragState.mk true false None
                             (Some "1710028800000") (Some "2024-03-15")
                             (Some "2024-03-17"))
                 review_state)) as (s1 & M & H & _).
  - reflexivity.
  - reflexivity.
  - discriminate.
  - split; [lia | reflexivity].
  - split; [lia | reflexivity].
  - split; [lia | reflexivity].
  - lia.
  - reflexivity.
  - exists s1. split; [exact M |]. rewrite H. reflexivity.
Defined.

(** ** A whole Create gesture *)

(** While a Create gesture is on, entering cells moves the current date and
    nothing else. *)
Lemma cellEnters_selecting (cells : list string) (s : State)
    (a c : string) :
  a <> "" ->
  createTaskState s = CreateTaskState.mk true (Some a) (Some c) ->
  cellEnters cells s
  = setCreateTaskState
      (fun _ => CreateTaskState.mk true (Some a) (Some (last cells c))) s.
Proof.
  intros Na. revert s c.
  induction cells as [| d cells IH]; intros s c C.
  - cbn. rewrite <- C. symmetry. apply setCreateTaskState_same.
  - cbn [cellEnters fold_left].
    assert (E : onCellMouseEnter d s
                = setCreateTaskState
                    (fun _ => CreateTaskState.mk true (Some a) (Some d)) s).
    { unfold onCellMouseEnter, handleMouseEnter. rewrite C. cbn.
      apply String.eqb_neq in Na. rewrite Na. cbn.
      destruct s. cbn in C. now rewrite C. }
    rewrite E. unfold cellEnters in IH. rewrite (IH _ d) by reflexivity.
    assert (L : last (d :: cells) c = last cells d).
    { clear. revert c d. induction cells as [| x cells IH]; intros c d;
        [reflexivity |].
      change (last (d :: x :: cells) c) with (last (x :: cells) c).
      rewrite (IH c x). symmetry. apply IH. }
    rewrite L. now destruct s.
Qed.

(** With no Create gesture on, entering cells does nothing. *)
Lemma cellEnters_idle (cells : list string) (s : State) :
  CreateTaskState.isSelecting (createTaskState s) = false ->
  cellEnters cells s = s.
Proof.
  intros C. induction cells as [| d cells IH]; [reflexivity |].
  cbn [cellEnters fold_left].
  assert (E : onCellMouseEnter d s = s)
    by (unfold onCellMouseEnter, handleMouseEnter; now rewrite C).
  rewrite E. exact IH.
Qed.

(** What the release finds after a press on the cell of [a] and the pointer
    entering [cells]. *)
Lemma create_gesture_result (s : State) (a : string) (cells : list string) :
  a <> "" -> last cells a <> "" ->
  DragState.taskId (dragState s) = None ->
  let z := last cells a in
  let s' := onMouseUp (cellEnters cells (onCellMouseDown true a s)) in
  showModal s' = true
  /\ modalTask s'
     = ModalTaskState.mk "" ToDo (if JS.le a z then a else z)
                         (if JS.le a z then z else a)
  /\ tasks s' = tasks s.
Proof.
  intros Na Nz Hd z s'.
  assert (E : cellEnters cells (onCellMouseDown true a s)
              = setCreateTaskState
                  (fun _ => CreateTaskState.mk true (Some a) (Some z)) s).
  { rewrite (cellEnters_selecting cells _ a a Na) by reflexivity.
    now destruct s. }
  unfold s'. rewrite E. unfold onMouseUp, handleTaskDragEnd, handleMouseUp.
  cbn. rewrite Hd. cbn.
  apply String.eqb_neq in Na, Nz. fold z in Nz. rewrite Na, Nz. cbn.
  repeat split.
Qed.

(** X7: a Create gesture: a press on the cell of [a], the pointer entering
    any cells, the last of them [z], and the release.  The form opens, empty
    of name, in category To Do, on the range from the smaller to the larger
    of [a] and [z], which is in order; the cells crossed on the way do not
    matter; no task is added and no gesture is left on.  A press that is not
    on the cell itself starts nothing. *)
Theorem create_gesture_opens_form (s : State) (a : string)
    (cells : list string) :
  a <> "" -> last cells a <> "" ->
  DragState.taskId (dragState s) = None ->
  let z := last cells a in
  let s' := onMouseUp (cellEnters cells (onCellMouseDown true a s)) in
  showModal s' = true
  /\ modalTask s'
     = ModalTaskState.mk "" ToDo (if JS.le a z then a else z)
                         (if JS.le a z then z else a)
  /\ JS.le (ModalTaskState.startDate (modalTask s'))
           (ModalTaskState.endDate (modalTask s')) = true
  /\ tasks s' = tasks s
  /\ gesture s' = Idle
  /\ (CreateTaskState.isSelecting (createTaskState s) = false ->
      cellEnters cells (onCellMouseDown false a s) = s).
Proof.
  intros Na Nz Hd z s'.
  pose proof (create_gesture_result s a cells Na Nz Hd) as M.
  cbv zeta in M. fold z in M. fold s' in M.
  destruct M as (M1 & M2 & M3).
  repeat split; try assumption.
  - rewrite M2. cbn.
    destruct (JS.le a z) eqn:L; [exact L | now apply le_false_ge].
  - apply gesture_after_release.
  - intros C. now apply cellEnters_idle.
Qed.

Lemma create_gesture_opens_form_witness :
  modalTask (onMouseUp
               (cellEnters ["2024-03-11"; "2024-03-14"; "2024-03-08"]
                  (onCellMouseDown true "2024-03-10" review_state)))
  = ModalTaskState.mk "" ToDo "2024-03-08" "2024-03-10".
Proof.
  destruct (create_gesture_opens_form review_state "2024-03-10"
              ["2024-03-11"; "2024-03-14"; "2024-03-08"])
    as (_ & H & _).
  - discriminate.
  - discriminate.
  - reflexivity.
  - rewrite H. reflexivity.
Defined.

(** ** The form *)

Lemma createTask_rejected (now : Z) (s : State) :
  JS.trim (ModalTaskState.name (modalTask s)) = "" ->
  onModalCreate now s = s.
Proof.
  intros E. destruct (createTask_cases now s) as [[_ R] | [N _]];
    [exact R | contradiction].
Qed.

(** X8: confirming the form twice creates one task: after a creation the
    form is reset, so a second confirmation, at any clock reading, is
    rejected; and a rejected confirmation stays rejected. *)
Theorem createTask_twice (n1 n2 : Z) (s : State) :
  onModalCreate n2 (onModalCreate n1 s) = onModalCreate n1 s.
Proof.
  destruct (createTask_cases n1 s) as [[E R] | [_ R]]; rewrite R.
  - now apply createTask_rejected.
  - now apply createTask_rejected.
Qed.

(** X9: from the gesture to the store.  A Create gesture from [a] to [z],
    a name typed into the form that is not blank, and the confirmation at
    clock reading [now] append one task: its range is from the smaller to
    the larger of [a] and [z], in order, its category is To Do, its name is
    the trimmed text; the form is closed and reset. *)
Theorem create_gesture_then_confirm (s : State) (a : string)
    (cells : list string) (x : string) (now : Z) :
  a <> "" -> last cells a <> "" ->
  DragState.taskId (dragState s) = None ->
  JS.trim x <> "" ->
  let z := last cells a in
  let s' :=
    onModalCreate now
      (onModalName x
         (onMouseUp (cellEnters cells (onCellMouseDown true a s)))) in
  let t :=
    Task.mk (JS.toString now) (JS.trim x) (if JS.le a z then a else z)
            (if JS.le a z then z else a) ToDo in
  tasks s' = (tasks s ++ [t])%list
  /\ ordered t
  /\ showModal s' = false
  /\ modalTask s' = initialModalTask.
Proof.
  intros Na Nz Hd Nx z s' t.
  pose proof (create_gesture_result s a cells Na Nz Hd) as M.
  cbv zeta in M. fold z in M.
  set (s1 := onMouseUp (cellEnters cells (onCellMouseDown true a s))) in *.
  destruct M as (_ & M2 & M3).
  assert (O : ordered t).
  { unfold ordered, t. cbv beta iota delta [Task.startDate Task.endDate].
    destruct (JS.le a z) eqn:L; [exact L | now apply le_false_ge]. }
  assert (F : modalTask (onModalName x s1)
              = ModalTaskState.mk x ToDo (if JS.le a z then a else z)
                  (if JS.le a z then z else a)).
  { unfold onModalName. destruct s1. cbn in M2 |- *. now rewrite M2. }
  assert (T : tasks (onModalName x s1) = tasks s).
  { rewrite <- M3. now destruct s1. }
  destruct (createTask_cases now (onModalName x s1)) as [[E _] | [_ R]].
  - rewrite F in E. contradiction.
  - unfold s'. rewrite R, F.
    cbv beta iota delta [ModalTaskState.name ModalTaskState.startDate
      ModalTaskState.endDate ModalTaskState.category].
    fold t. repeat split; try exact O.
    destruct (onModalName x s1). cbn in T |- *. now rewrite T.
Qed.

Lemma create_gesture_then_confirm_witness :
  tasks (onModalCreate 1710028800001
           (onModalName " Retro "
              (onMouseUp
                 (cellEnters ["2024-03-18"]
                    (onCellMouseDown true "2024-03-20" review_state)))))
  = [review_task;
     Task.mk "1710028800001" "Retro" "2024-03-18" "2024-03-20" ToDo].
Proof.
  destruct (create_gesture_then_confirm review_state "2024-03-20"
              ["2024-03-18"] " Retro " 1710028800001) as (H & _).
  - discriminate.
  - discriminate.
  - reflexivity.
  - discriminate.
  - rewrite H. reflexivity.
Defined.

(** X10: the Create Task button and [createTask] agree: the button is
    disabled exactly when a confirmation would be rejected and leave the
    state as it is; otherwise the confirmation stores one more task. *)
Theorem create_button_guard (now : Z) (s : State) :
  (createDisabled s = true <-> onModalCreate now s = s)
  /\ (createDisabled s = false
      <-> List.length (tasks (onModalCreate now s))
          = S (List.length (tasks s))).
Proof.
  unfold createDisabled, JS.truthy.
  destruct (createTask_cases now s) as [[E R] | [N R]]; rewrite R.
  - rewrite E. cbn. split; split; try reflexivity; try discriminate.
    intros Q. exfalso. apply (n_Sn _ Q).
  - apply String.eqb_neq in N. rewrite N. cbn [negb].
    assert (L : forall f x (p : State),
              tasks (setModalTask f (setShowModal x p)) = tasks p)
      by (intros f x p; now destruct p).
    split; split; try discriminate; try reflexivity.
    + intros Q. apply (f_equal (fun st => List.length (tasks st))) in Q.
      rewrite L in Q. destruct s. cbn in Q. rewrite length_app in Q.
      cbn in Q. lia.
    + intros _. rewrite L. destruct s. cbn. rewrite length_app. cbn. lia.
Qed.

(** ** Dates and their keys *)

Section Keys.
Import JSDate.
Local Open Scope Z_scope.

Lemma isDateKey_injective (k : string) (n1 n2 : Z) :
  isDateKey k n1 -> isDateKey k n2 -> n1 = n2.
Proof.
  intros H1 H2. apply isDateKey_parse in H1, H2. rewrite H1 in H2.
  injection H2. unfold msPerDay. lia.
Qed.

Lemma isoDateOfDay_injective (n1 n2 : Z) :
  minKeyDay <= n1 <= maxKeyDay -> minKeyDay <= n2 <= maxKeyDay ->
  isoDateOfDay n1 = isoDateOfDay n2 -> n1 = n2.
Proof.
  intros R1 R2 E. apply (isDateKey_injective (isoDateOfDay n1)).
  - now split.
  - split; [exact R2 | exact E].
Qed.

Lemma Day_shift (t n : Z) : Day (t + n * msPerDay) = Day t + n.
Proof. unfold Day. apply Z.div_add. discriminate. Qed.

Lemma key_day_time_range (t : Z) :
  minKeyDay <= Day t <= maxKeyDay ->
  - 8640000000000000 <= t <= 8640000000000000.
Proof.
  unfold minKeyDay, maxKeyDay, Day, msPerDay.
  intros R. Z.div_mod_to_equations. lia.
Qed.

(** X11: [formatDate] and [new Date(key)] are a round trip on the days of
    the years 0000 to 9999: the key of a date of such a day is not empty,
    [new Date(key)] is the midnight UTC of that day, and its key is the same
    key again. *)
Theorem formatDate_round_trip (t : Z) :
  minKeyDay <= Day t <= maxKeyDay ->
  exists k,
    formatDate (Some t) = Some k
    /\ k <> ""%string
    /\ ofString k = Some (Day t * msPerDay)
    /\ formatDate (ofString k) = Some k.
Proof.
  intros R. destruct (formatDate_isDateKey t R) as (k & F & K).
  exists k. split; [exact F |]. split; [| split].
  - apply String.eqb_neq. exact (isDateKey_truthy k _ K).
  - exact (isDateKey_parse k _ K).
  - unfold ofString. rewrite (isDateKey_parse k _ K).
    rewrite JSDateFacts.formatDate_valid. unfold isoDate.
    rewrite JSDateFacts.Day_of_days. destruct K as [_ ->]. reflexivity.
Qed.

Lemma formatDate_round_trip_witness :
  exists k,
    formatDate (Some 1710071234567) = Some k
    /\ k <> ""%string
    /\ ofString k = Some (Day 1710071234567 * msPerDay)
    /\ formatDate (ofString k) = Some k.
Proof. apply (formatDate_round_trip 1710071234567). vm_compute. intuition discriminate. Defined.

(** X12: the order of the keys is the order of the days: for two dates of
    the years 0000 to 9999, the key of one is [<=] the key of the other iff
    its day is not later, and the keys are equal iff the days are. *)
Theorem formatDate_order (t1 t2 : Z) (k1 k2 : string) :
  minKeyDay <= Day t1 <= maxKeyDay ->
  minKeyDay <= Day t2 <= maxKeyDay ->
  formatDate (Some t1) = Some k1 ->
  formatDate (Some t2) = Some k2 ->
  (JS.le k1 k2 = true <-> Day t1 <= Day t2)
  /\ (JS.ge k1 k2 = true <-> Day t2 <= Day t1)
  /\ (k1 = k2 <-> Day t1 = Day t2).
Proof.
  intros R1 R2 F1 F2.
  rewrite JSDateFacts.formatDate_valid in F1, F2.
  injection F1 as <-. injection F2 as <-. unfold isoDate, JS.ge.
  split; [| split].
  - now apply KeyOrder.key_le.
  - now apply KeyOrder.key_le.
  - split; [now apply isoDateOfDay_injective | now intros ->].
Qed.

Lemma formatDate_order_witness :
  JS.le "2024-03-10" "2024-11-02" = true
  <-> Day 1710071234567 <= Day 1730505600000.
Proof.
  refine (proj1 (formatDate_order 1710071234567 1730505600000
                   "2024-03-10" "2024-11-02" _ _ _ _)).
  - vm_compute. intuition discriminate.
  - vm_compute. intuition discriminate.
  - reflexivity.
  - reflexivity.
Defined.

End Keys.

Section DayShiftHost.
Import JSDate.
Local Open Scope Z_scope.
Variable LocalTZA : Z -> bool -> Z.

(** X13: on a host whose offset is the same at a date, for the local time
    of that date and at and for the date moved by [n] days (so between two
    dates with no daylight-saving change between them, and always on a host
    with a constant offset), [addDays] moves the date by [n] whole days and
    keeps its time of day; adding [n] and then [m] days is adding [n + m],
    adding [- n] undoes adding [n], and adding 0 days is a copy. *)
Theorem addDays_shifts_day (tv n m : Z) :
  - 8640000000000000 <= tv <= 8640000000000000 ->
  - 8640000000000000 <= tv + n * msPerDay <= 8640000000000000 ->
  LocalTZA (LocalTime LocalTZA tv) false = LocalTZA tv true ->
  LocalTZA (LocalTime LocalTZA tv + n * msPerDay) false = LocalTZA tv true ->
  LocalTZA (tv + n * msPerDay) true = LocalTZA tv true ->
  exists tv',
    addDays LocalTZA (Some tv) (Some n) = Some tv'
    /\ Day tv' = Day tv + n
    /\ TimeWithinDay tv' = TimeWithinDay tv
    /\ addDays LocalTZA (Some tv') (Some m)
       = addDays LocalTZA (Some tv) (Some (n + m))
    /\ addDays LocalTZA (Some tv') (Some (- n)) = Some tv
    /\ addDays LocalTZA (Some tv) (Some 0) = Some tv.
Proof.
  intros R R' H1 H2 H3. exists (tv + n * msPerDay).
  assert (L : LocalTime LocalTZA (tv + n * msPerDay)
              = LocalTime LocalTZA tv + n * msPerDay)
    by (unfold LocalTime; rewrite H3; ring).
  assert (U0 : UTC LocalTZA (LocalTime LocalTZA tv) = tv)
    by (unfold UTC; rewrite H1; unfold LocalTime; ring).
  assert (Un : UTC LocalTZA (LocalTime LocalTZA tv + n * msPerDay)
               = tv + n * msPerDay)
    by (unfold UTC; rewrite H2; unfold LocalTime; ring).
  rewrite !addDays_local_shift, L, Un.
  rewrite (JSDateFacts.TimeClip_valid _ R').
  split; [reflexivity |]. split; [apply Day_shift |].
  split; [unfold TimeWithinDay; apply Z.mod_add; discriminate |].
  split; [do 2 f_equal; ring |].
  replace (LocalTime LocalTZA tv + n * msPerDay + - n * msPerDay)
    with (LocalTime LocalTZA tv) by ring.
  replace (LocalTime LocalTZA tv + 0 * msPerDay)
    with (LocalTime LocalTZA tv) by ring.
  rewrite U0. split; apply (JSDateFacts.TimeClip_valid _ R).
Qed.

(** X14: on a host whose offset for the local time of a date moved by [n]
    days is its offset at the date (no daylight-saving change between the
    two), the key of [addDays(date, n)] is the key of the day [n] days after
    the UTC day of [date], within the years 0000 to 9999. *)
Theorem addDays_key (tv n : Z) :
  - 8640000000000000 <= tv <= 8640000000000000 ->
  minKeyDay <= Day tv + n <= maxKeyDay ->
  LocalTZA (LocalTime LocalTZA tv + n * msPerDay) false = LocalTZA tv true ->
  formatDate (addDays LocalTZA (Some tv) (Some n))
  = Some (isoDateOfDay (Day tv + n)).
Proof.
  intros R K H. rewrite addDays_local_shift.
  assert (Un : UTC LocalTZA (LocalTime LocalTZA tv + n * msPerDay)
               = tv + n * msPerDay)
    by (unfold UTC; rewrite H; unfold LocalTime; ring).
  rewrite Un.
  assert (R' : - 8640000000000000 <= tv + n * msPerDay <= 8640000000000000).
  { apply key_day_time_range. now rewrite Day_shift. }
  rewrite (JSDateFacts.TimeClip_valid _ R').
  rewrite JSDateFacts.formatDate_valid. unfold isoDate.
  now rewrite Day_shift.
Qed.

End DayShiftHost.

Section LocalMidnight.
Import JSDate.
Local Open Scope Z_scope.

(** A grid date: the local midnight of the day [D] of local time, on a
    host whose offset is [c] then. *)
Lemma Day_local_midnight (D c : Z) :
  - msPerDay < c < msPerDay ->
  Day (D * msPerDay - c) = if 0 <? c then D - 1 else D.
Proof.
  intros Z0. unfold Day, msPerDay in *.
  destruct (Z.ltb_spec 0 c); Z.div_mod_to_equations; lia.
Qed.

End LocalMidnight.

Section DayShift.
Import JSDate.
Local Open Scope Z_scope.
Variable LocalTZA : Z -> bool -> Z.

(** X15: a day tile's number and its key.  The tile of the local day [D],
    whose date is the local midnight of [D], the host's offset being [c]
    then, shows the day of the month of [D], since [getDate] reads local
    time; its key comes from [toISOString], which reads UTC: it is the key
    of [D] when the local zone is at or west of Greenwich, and the key of
    the day before [D] when the zone is east of it. *)
Theorem tile_key_and_label (D c : Z) :
  LocalTZA (D * msPerDay - c) true = c ->
  - msPerDay < c < msPerDay ->
  let day := Some (D * msPerDay - c) in
  tileLabel LocalTZA day = Some (DateFromTime (D * msPerDay))
  /\ tileKey day
     = Some (isoDateOfDay (if 0 <? c then D - 1 else D)).
Proof.
  intros Hc Z0 day. split.
  - unfold tileLabel, getDate, day, option_map, LocalTime. rewrite Hc.
    do 2 f_equal. lia.
  - unfold tileKey, day. rewrite JSDateFacts.formatDate_valid.
    unfold isoDate. now rewrite Day_local_midnight.
Qed.

End DayShift.

Section TodayTile.
Import JSDate.
Local Open Scope Z_scope.

(** X16: the tile marked as today, at clock reading [now], is the tile of the
    local day [D], whose date is the local midnight of [D] at the offset
    [c], iff [D] is the UTC day of [now] in a zone at or west of Greenwich,
    and the day after the UTC day of [now] in a zone east of it. *)
Theorem isToday_tile (now D c : Z) :
  - msPerDay < c < msPerDay ->
  minKeyDay < D <= maxKeyDay ->
  minKeyDay <= Day now <= maxKeyDay ->
  isToday now (Some (D * msPerDay - c))
  = Some (D =? Day now + (if 0 <? c then 1 else 0)).
Proof.
  intros Z0 RD Rn. unfold isToday.
  rewrite !JSDateFacts.formatDate_valid. unfold isoDate.
  rewrite Day_local_midnight by exact Z0. f_equal.
  destruct (Z.eqb_spec D (Day now + (if 0 <? c then 1 else 0)))
    as [E | N].
  - apply String.eqb_eq. f_equal.
    destruct (0 <? c); lia.
  - apply String.eqb_neq. intros E. apply N.
    apply isoDateOfDay_injective in E;
      [destruct (0 <? c); lia | destruct (0 <? c); lia
       | exact Rn].
Qed.

End TodayTile.

(** On the host [easternTZA], from 2024-03-10T11:47Z, after the change to
    daylight-saving time, to 25 days later, before the change back. *)
Lemma addDays_shifts_day_witness :
  exists tv',
    addDays easternTZA (Some 1710071234567%Z) (Some 25%Z) = Some tv'
    /\ JSDate.Day tv' = (JSDate.Day 1710071234567 + 25)%Z
    /\ JSDate.TimeWithinDay tv' = JSDate.TimeWithinDay 1710071234567%Z
    /\ addDays easternTZA (Some tv') (Some 7%Z)
       = addDays easternTZA (Some 1710071234567%Z) (Some (25 + 7)%Z)
    /\ addDays easternTZA (Some tv') (Some (- 25)%Z) = Some 1710071234567%Z
    /\ addDays easternTZA (Some 1710071234567%Z) (Some 0%Z)
       = Some 1710071234567%Z.
Proof.
  apply (addDays_shifts_day easternTZA 1710071234567%Z 25%Z 7%Z);
    vm_compute; intuition discriminate.
Defined.

Lemma addDays_key_witness :
  formatDate (addDays easternTZA (Some 1710071234567%Z) (Some 25%Z))
  = Some "2024-04-04".
Proof.
  apply (addDays_key easternTZA 1710071234567%Z 25%Z);
    vm_compute; intuition discriminate.
Defined.

Lemma tile_key_and_label_witness :
  tileLabel (JSDate.constantTZA 19800000)
    (Some (19792 * JSDate.msPerDay - 19800000)%Z)
  = Some 10%Z
  /\ tileKey (Some (19792 * JSDate.msPerDay - 19800000)%Z)
     = Some "2024-03-09".
Proof.
  apply (tile_key_and_label (JSDate.constantTZA 19800000) 19792%Z
           19800000%Z).
  - reflexivity.
  - vm_compute. intuition discriminate.
Defined.

Lemma isToday_tile_witness :
  isToday 1710071234567%Z (Some (19793 * JSDate.msPerDay - 19800000)%Z)
  = Some true.
Proof.
  apply (isToday_tile 1710071234567%Z 19793%Z 19800000%Z);
    vm_compute; intuition discriminate.
Defined.

(** ** The highlighted range of a Create gesture *)

Section SelectionRange.
Import JSDate.
Local Open Scope Z_scope.
Variable LocalTZA : Z -> bool -> Z.

Lemma keysFrom_empty (lo hi : Z) : hi < lo -> keysFrom lo hi = [].
Proof.
  intros H. unfold keysFrom.
  replace (Z.to_nat (hi - lo + 1)) with 0%nat by lia. reflexivity.
Qed.

Lemma keysFrom_cons (lo hi : Z) :
  lo <= hi -> keysFrom lo hi = isoDateOfDay lo :: keysFrom (lo + 1) hi.
Proof.
  intros H. unfold keysFrom.
  replace (Z.to_nat (hi - lo + 1)) with (S (Z.to_nat (hi - (lo + 1) + 1)))
    by lia.
  cbn [seq map]. f_equal; [f_equal; lia |].
  rewrite <- seq_shift, map_map. apply map_ext. intros i. f_equal. lia.
Qed.

Lemma keysFrom_length (lo hi : Z) :
  List.length (keysFrom lo hi) = Z.to_nat (hi - lo + 1).
Proof. unfold keysFrom. now rewrite length_map, length_seq. Qed.

Lemma keysFrom_includes (lo hi : Z) (d : string) (nd : Z) :
  minKeyDay <= lo -> hi <= maxKeyDay ->
  isDateKey d nd ->
  includesString (keysFrom lo hi) d = true <-> lo <= nd <= hi.
Proof.
  intros Rl Rh [Rd ->]. unfold includesString, keysFrom.
  rewrite existsb_exists. split.
  - intros (x & I & E). apply in_map_iff in I as (i & <- & I).
    apply in_seq in I. apply String.eqb_eq in E.
    apply isoDateOfDay_injective in E; lia.
  - intros R. exists (isoDateOfDay nd). split; [| apply String.eqb_refl].
    apply in_map_iff. exists (Z.to_nat (nd - lo)). split.
    + f_equal. lia.
    + apply in_seq. lia.
Qed.

(** The loop pushes the keys of the days from [current] to [endDate], on
    a host whose offset for the local time one day after each of these
    midnights UTC is its offset at that midnight. *)
Lemma getSelectionRange_loop_spec (k : nat) :
  forall (fuel : nat) (range : list string) (n ne : Z),
    k = Z.to_nat (ne - n + 1) ->
    (k <= fuel)%nat ->
    - 99999000 <= n -> ne <= 99999000 ->
    (forall i, n <= i <= ne ->
               LocalTZA (LocalTime LocalTZA (i * msPerDay) + msPerDay) false
               = LocalTZA (i * msPerDay) true) ->
    getSelectionRange_loop LocalTZA fuel range (Some (n * msPerDay))
      (Some (ne * msPerDay))
    = Done (range ++ keysFrom n ne)%list.
Proof.
  induction k as [| k IH]; intros fuel range n ne Hk Hf Rn Re Hz.
  - assert (L : ne < n) by lia.
    rewrite keysFrom_empty by exact L. rewrite app_nil_r.
    destruct fuel; cbn [getSelectionRange_loop Date_le];
      (replace (n * msPerDay <=? ne * msPerDay) with false
         by (symmetry; apply Z.leb_gt; unfold msPerDay; lia));
      reflexivity.
  - assert (L : n <= ne) by lia.
    destruct fuel as [| fuel]; [lia |].
    cbn [getSelectionRange_loop Date_le].
    replace (n * msPerDay <=? ne * msPerDay) with true
      by (symmetry; apply Z.leb_le; unfold msPerDay; lia).
    rewrite JSDateFacts.formatDate_valid. unfold isoDate.
    rewrite JSDateFacts.Day_of_days.
    assert (S1 : setDate LocalTZA (Some (n * msPerDay))
                   (add (getDate LocalTZA (Some (n * msPerDay))) (Some 1))
                 = Some ((n + 1) * msPerDay)).
    { unfold getDate, option_map, add.
      rewrite (setDate_local_shift LocalTZA (n * msPerDay) 1).
      replace (1 * msPerDay) with msPerDay by ring.
      unfold UTC. rewrite (Hz n) by lia. unfold LocalTime.
      replace (n * msPerDay + LocalTZA (n * msPerDay) true + msPerDay
               - LocalTZA (n * msPerDay) true)
        with ((n + 1) * msPerDay) by ring.
      apply JSDateFacts.TimeClip_valid. unfold msPerDay. lia. }
    rewrite S1. rewrite (IH fuel _ (n + 1) ne); try lia.
    + rewrite (keysFrom_cons n ne L). now rewrite <- app_assoc.
    + intros i Hi. apply Hz. lia.
Qed.

(** X17: the highlighted range.  During a Create gesture whose anchor and
    current date are the keys of the days [na] and [nb], in either order, on
    a host whose offset does not change over the days of the selection (for
    each of them, the offset for the local time one day after its midnight
    UTC is the offset at that midnight), [getSelectionRange] ends with the
    keys of the days from the earlier to the later of the two, each once, in
    order: [|nb - na| + 1] keys; a tile is highlighted iff its day lies
    between the two. *)
Theorem getSelectionRange_days (fuel : nat) (s : State) (a b : string)
    (na nb : Z) :
  createTaskState s = CreateTaskState.mk true (Some a) (Some b) ->
  isDateKey a na -> isDateKey b nb ->
  (Z.to_nat (Z.abs (nb - na) + 1) <= fuel)%nat ->
  (forall i, Z.min na nb <= i <= Z.max na nb ->
             LocalTZA (LocalTime LocalTZA (i * msPerDay) + msPerDay) false
             = LocalTZA (i * msPerDay) true) ->
  getSelectionRange LocalTZA fuel s
  = Done (keysFrom (Z.min na nb) (Z.max na nb))
  /\ List.length (keysFrom (Z.min na nb) (Z.max na nb))
     = Z.to_nat (Z.abs (nb - na) + 1)
  /\ forall d nd,
       isDateKey d nd ->
       (includesString (keysFrom (Z.min na nb) (Z.max na nb)) d = true
        <-> Z.min na nb <= nd <= Z.max na nb).
Proof.
  intros C Ka Kb Hf Hz.
  pose proof (isDateKey_truthy a na Ka) as Ta.
  pose proof (isDateKey_truthy b nb Kb) as Tb.
  pose proof (isDateKey_parse a na Ka) as Pa.
  pose proof (isDateKey_parse b nb Kb) as Pb.
  assert (Ra : minKeyDay <= na <= maxKeyDay) by apply Ka.
  assert (Rb : minKeyDay <= nb <= maxKeyDay) by apply Kb.
  assert (O : JS.le a b = true <-> na <= nb).
  { destruct Ka as [_ ->], Kb as [_ ->]. now apply KeyOrder.key_le. }
  unfold minKeyDay, maxKeyDay in Ra, Rb.
  split; [| split].
  - unfold getSelectionRange. rewrite C.
    cbn [CreateTaskState.startDate CreateTaskState.currentDate
         CreateTaskState.isSelecting negb orb].
    unfold JS.truthy. rewrite Ta, Tb. cbn [negb orb]. unfold ofString.
    destruct (JS.le a b) eqn:E.
    + assert (na <= nb) by now apply O.
      rewrite Pa, Pb, Z.min_l, Z.max_r by lia.
      rewrite Z.min_l, Z.max_r in Hz by lia.
      rewrite (getSelectionRange_loop_spec (Z.to_nat (nb - na + 1)));
        [reflexivity | lia | lia | lia | lia | exact Hz].
    + assert (~ na <= nb) by (intros Q; apply O in Q; congruence).
      rewrite Pa, Pb, Z.min_r, Z.max_l by lia.
      rewrite Z.min_r, Z.max_l in Hz by lia.
      rewrite (getSelectionRange_loop_spec (Z.to_nat (na - nb + 1)));
        [reflexivity | lia | lia | lia | lia | exact Hz].
  - rewrite keysFrom_length. f_equal. lia.
  - intros d nd Kd. apply keysFrom_includes; unfold minKeyDay, maxKeyDay;
      [lia | lia | exact Kd].
Qed.

End SelectionRange.

(** On the host [easternTZA], a week after the change to daylight-saving
    time. *)
Lemma getSelectionRange_days_witness :
  getSelectionRange easternTZA 3
    (setCreateTaskState
       (fun _ => CreateTaskState.mk true (Some "2024-03-19")
                   (Some "2024-03-17"))
       review_state)
  = Done ["2024-03-17"; "2024-03-18"; "2024-03-19"].
Proof.
  refine (proj1 (getSelectionRange_days easternTZA 3 _ "2024-03-19"
                   "2024-03-17" 19801%Z 19799%Z _ _ _ _ _)).
  - reflexivity.
  - split; [vm_compute; intuition discriminate | reflexivity].
  - split; [vm_compute; intuition discriminate | reflexivity].
  - vm_compute. lia.
  - intros i Hi.
    assert (E : i = 19799%Z \/ i = 19800%Z \/ i = 19801%Z) by lia.
    destruct E as [-> | [-> | ->]]; reflexivity.
Defined.

(** ** The month grid *)

Section MonthGrid.
Import JSDate.
Local Open Scope Z_scope.
(** The offset of a host whose local time is UTC shifted by the same amount
    at every instant. *)
Variable LocalTZA : Z.

(** The first of a month falls on the same day of the year, a leap day
    apart, in every year. *)
Lemma month_start_years (y1 y2 m : Z) :
  0 <= m <= 11 ->
  - 1 <= DayWithinYearOfMonth y1 m - DayWithinYearOfMonth y2 m <= 1.
Proof.
  intros Hm.
  destruct (JSDateFacts.DaysInYear_cases y1) as [_ L1].
  destruct (JSDateFacts.DaysInYear_cases y2) as [_ L2].
  assert (M : m = 0 \/ m = 1 \/ m = 2 \/ m = 3 \/ m = 4 \/ m = 5 \/ m = 6
              \/ m = 7 \/ m = 8 \/ m = 9 \/ m = 10 \/ m = 11) by lia.
  repeat (destruct M as [-> | M]); try subst m;
    unfold DayWithinYearOfMonth; cbv beta iota; lia.
Qed.

(** The first of the month of a time value. *)
Lemma first_of_month (t : Z) :
  MakeDay (YearFromTime t) (MonthFromTime t) 1 = Day t - (DateFromTime t - 1).
Proof.
  pose proof (JSDateFacts.MakeDay_fields t (1 - DateFromTime t)) as EF.
  replace (DateFromTime t + (1 - DateFromTime t)) with 1 in EF by lia.
  lia.
Qed.

(** The days of the month of [t] are those from its first to the day before
    the first of the next month. *)
Lemma month_days (t d : Z) :
  let y := YearFromTime t in
  let m := MonthFromTime t in
  let F := Day t - (DateFromTime t - 1) in
  let L := MakeDay y (m + 1) 1 in
  Day t - 300 <= d <= Day t + 300 ->
  (MonthFromTime (d * msPerDay) = m <-> F <= d < L)
  /\ F <= Day t < L
  /\ F + 28 <= L <= F + 31.
Proof.
  intros y m F L R.
  pose proof (JSDateFacts.MonthFromTime_bounds t) as Bm. fold m in Bm.
  pose proof (first_of_month t) as EF. fold y m F in EF.
  pose proof (JSDateFacts.month_length y m Bm) as Ml. fold L in Ml.
  pose proof (JSDateFacts.DateFromTime_in_month t) as Dm.
  fold y m L in Dm. rewrite EF in Dm, Ml.
  pose proof (JSDateFacts.DateFromTime_bounds t) as Bt.
  assert (FS : F = DayFromYear y + DayWithinYearOfMonth y m).
  { rewrite <- EF. rewrite JSDateFacts.MakeDay_small by exact Bm. lia. }
  split; [| split; lia].
  split.
  - intros Md.
    set (td := d * msPerDay) in *.
    pose proof (JSDateFacts.MakeDay_fields td 0) as Ed.
    unfold td in Ed at 4. rewrite JSDateFacts.Day_of_days in Ed.
    rewrite Md in Ed.
    rewrite JSDateFacts.MakeDay_small in Ed by exact Bm.
    pose proof (JSDateFacts.DateFromTime_bounds td) as Bd.
    pose proof (month_start_years (YearFromTime td) y m Bm) as Sy.
    destruct (Z.lt_trichotomy (YearFromTime td) y) as [Lt | [Eq | Gt]].
    + pose proof (JSDateFacts.DayFromYear_le (YearFromTime td) (y - 1)
                    ltac:(lia)) as Le.
      pose proof (JSDateFacts.DayFromYear_succ (y - 1)) as Su.
      replace (y - 1 + 1) with y in Su by lia.
      destruct (JSDateFacts.DaysInYear_cases (y - 1)) as [Dy Ly]. lia.
    + pose proof (JSDateFacts.DateFromTime_in_month td) as Dd.
      rewrite Md, Eq in Dd. fold L in Dd.
      rewrite JSDateFacts.MakeDay_small in Dd by exact Bm.
      rewrite Eq in Ed. lia.
    + pose proof (JSDateFacts.DayFromYear_le (y + 1) (YearFromTime td)
                    ltac:(lia)) as Le.
      pose proof (JSDateFacts.DayFromYear_succ y) as Su.
      destruct (JSDateFacts.DaysInYear_cases y) as [Dy Ly]. lia.
  - intros Rd.
    destruct (JSDateFacts.fields_of_MakeDay y m (d - F + 1) Bm)
      as (_ & Fm & _).
    + fold L. rewrite EF. lia.
    + rewrite JSDateFacts.MakeDay_small in Fm by exact Bm.
      replace (DayFromYear y + DayWithinYearOfMonth y m + (d - F + 1) - 1)
        with d in Fm by lia.
      exact Fm.
Qed.

(** X18: the month grid, on a host whose offset is constant.  For an anchor
    date outside the years 0 to 99, [getDaysInMonth] returns 42 dates, the
    local midnights of 42 days in a row from a Sunday; the first of the
    anchor's month is in the first week and the whole month, from its first
    day to its last, is in the grid. *)
Theorem getDaysInMonth_covers_month (fuel : nat) (tv : Z) :
  let lt := LocalTime (constantTZA LocalTZA) tv in
  let F := Day lt - (DateFromTime lt - 1) in
  let L := MakeDay (YearFromTime lt) (MonthFromTime lt + 1) 1 in
  (42 <= fuel)%nat ->
  - msPerDay <= LocalTZA <= msPerDay ->
  - 99999000 <= Day lt <= 99999000 ->
  (YearFromTime lt < 0 \/ 99 < YearFromTime lt) ->
  exists S0,
    getDaysInMonth (constantTZA LocalTZA) fuel (Some tv)
    = Some (map (fun k => Some ((S0 + Z.of_nat k) * msPerDay - LocalTZA))
                (seq 0 42))
    /\ WeekDay (S0 * msPerDay) = 0
    /\ S0 <= F < S0 + 7
    /\ F <= Day lt < L
    /\ L <= S0 + 38.
Proof.
  intros lt F L Hfuel Htz Hr Hy.
  pose proof (getDaysInMonth_grid LocalTZA fuel tv Hfuel Htz Hr) as G.
  destruct (getDaysInMonth_grid_own_month LocalTZA tv Hy) as [Ey EF].
  cbv zeta in G, Ey, EF. fold lt in G, Ey, EF.
  rewrite Ey in G, EF. rewrite EF in G. fold F in G.
  destruct G as (G1 & G2 & G3 & _).
  exists (F - WeekDay (F * msPerDay)).
  destruct (month_days lt (Day lt) ltac:(lia)) as (_ & M1 & M2).
  fold F L in M1, M2.
  repeat split; try assumption; lia.
Qed.

End MonthGrid.

Section MonthTiles.
Import JSDate.
Local Open Scope Z_scope.
Variable LocalTZA : Z -> bool -> Z.

(** X19: the tiles of the anchor's month.  Among the days within 300 days of
    the anchor, so among those of the grid, the tile of a day [d], whose
    date is the local midnight of [d], the host's offset being [c] then,
    counts as of the current month, and is not greyed, iff the day lies from
    the first to the last day of the anchor's month. *)
Theorem isCurrentMonth_tile (s : State) (tv d c : Z) :
  let lt := LocalTime LocalTZA tv in
  let F := Day lt - (DateFromTime lt - 1) in
  let L := MakeDay (YearFromTime lt) (MonthFromTime lt + 1) 1 in
  currentDate s = Some tv ->
  LocalTZA (d * msPerDay - c) true = c ->
  Day lt - 300 <= d <= Day lt + 300 ->
  isCurrentMonth LocalTZA (Some (d * msPerDay - c)) s
  = (F <=? d) && (d <? L).
Proof.
  intros lt F L C Hc R.
  destruct (month_days lt d R) as (M & _). fold F L in M.
  unfold isCurrentMonth, getMonth. rewrite C. cbn [option_map].
  replace (LocalTime LocalTZA (d * msPerDay - c)) with (d * msPerDay)
    by (unfold LocalTime; rewrite Hc; ring).
  fold lt.
  destruct (Z.eqb_spec (MonthFromTime (d * msPerDay)) (MonthFromTime lt))
    as [E | N].
  - apply M in E. symmetry. apply andb_true_iff.
    split; [apply Z.leb_le | apply Z.ltb_lt]; lia.
  - symmetry. apply not_true_is_false. intros Q.
    apply andb_true_iff in Q as [Q1 Q2].
    apply Z.leb_le in Q1. apply Z.ltb_lt in Q2. apply N, M. lia.
Qed.

End MonthTiles.


Lemma getDaysInMonth_covers_month_witness :
  exists S0,
    getDaysInMonth (JSDate.constantTZA 19800000) 42 (Some 1710071234567%Z)
    = Some (map (fun k => Some ((S0 + Z.of_nat k) * JSDate.msPerDay
                                - 19800000)%Z)
                (seq 0 42))
    /\ JSDate.WeekDay (S0 * JSDate.msPerDay) = 0%Z
    /\ (S0 <= 19783 < S0 + 7)%Z
    /\ (19783 <= 19792 < 19814)%Z
    /\ (19814 <= S0 + 38)%Z.
Proof.
  apply (getDaysInMonth_covers_month 19800000%Z 42 1710071234567%Z).
  - apply le_n.
  - vm_compute. intuition discriminate.
  - vm_compute. intuition discriminate.
  - right. vm_compute. reflexivity.
Defined.

Lemma isCurrentMonth_tile_witness :
  isCurrentMonth (JSDate.constantTZA 19800000)
    (Some (19813 * JSDate.msPerDay - 19800000)%Z)
    (initialState 1710071234567)
  = true.
Proof.
  apply (isCurrentMonth_tile (JSDate.constantTZA 19800000)
           (initialState 1710071234567) 1710071234567%Z 19813%Z
           19800000%Z).
  - reflexivity.
  - reflexivity.
  - vm_compute. intuition discriminate.
Defined.

(** ** Previous, Next *)

Section Navigation.
Import JSDate.
Local Open Scope Z_scope.
(** The offset of a host whose local time is UTC shifted by the same amount
    at every instant. *)
Variable LocalTZA : Z.

(** The month before and the month after the month [m] of the year [y]. *)
Lemma MakeDay_previous (y m : Z) :
  0 <= m <= 11 ->
  MakeDay y (m - 1) 1
  = MakeDay (if m =? 0 then y - 1 else y) (if m =? 0 then 11 else m - 1) 1.
Proof.
  intros Hm. destruct (Z.eqb_spec m 0) as [-> | N]; [| reflexivity].
  unfold MakeDay. change ((0 - 1) / 12) with (- 1).
  change ((0 - 1) mod 12) with 11. change (11 / 12) with 0.
  change (11 mod 12) with 11. cbv beta iota.
  replace (y + - 1) with (y - 1 + 0) by lia. reflexivity.
Qed.

Lemma MakeDay_next (y m : Z) :
  0 <= m <= 11 ->
  MakeDay y (m + 1) 1
  = MakeDay (if m =? 11 then y + 1 else y) (if m =? 11 then 0 else m + 1) 1.
Proof.
  intros Hm. destruct (Z.eqb_spec m 11) as [-> | N]; [| reflexivity].
  unfold MakeDay. change ((11 + 1) / 12) with 1.
  change ((11 + 1) mod 12) with 0. change (0 / 12) with 0.
  change (0 mod 12) with 0. cbv beta iota.
  replace (y + 1 + 0) with (y + 1) by lia. reflexivity.
Qed.

(** [new Date(y, m)] for a year outside 0 to 99. *)
Lemma ofYMD_first (y m : Z) :
  (y < 0 \/ 99 < y) ->
  - msPerDay <= LocalTZA <= msPerDay ->
  - 99999999 <= MakeDay y m 1 <= 99999999 ->
  ofYMD (constantTZA LocalTZA) (Some y) (Some m) (Some 1)
  = Some (MakeDay y m 1 * msPerDay - LocalTZA).
Proof.
  intros Hy Htz R. unfold ofYMD.
  replace ((0 <=? y) && (y <=? 99)) with false.
  - unfold constantTZA, UTC, MakeDate. rewrite Z.add_0_r.
    apply JSDateFacts.TimeClip_valid. unfold msPerDay in *. lia.
  - symmetry. apply andb_false_iff.
    destruct Hy; [left; apply Z.leb_gt | right; apply Z.leb_gt]; lia.
Qed.

Lemma setCurrentDate_twice (d d' : Date) (s : State) :
  setCurrentDate d (setCurrentDate d' s) = setCurrentDate d s.
Proof. now destruct s. Qed.

(** The dates Previous and Next show. *)
Lemma navigation_dates (s : State) (tv : Z) :
  let lt := LocalTime (constantTZA LocalTZA) tv in
  let y := YearFromTime lt in
  let m := MonthFromTime lt in
  currentDate s = Some tv ->
  - msPerDay <= LocalTZA <= msPerDay ->
  - 99999900 <= Day lt <= 99999900 ->
  (y < 0 \/ 99 < y) ->
  onPrevious (constantTZA LocalTZA) s
  = setCurrentDate (Some (MakeDay y (m - 1) 1 * msPerDay - LocalTZA)) s
  /\ onNext (constantTZA LocalTZA) s
     = setCurrentDate (Some (MakeDay y (m + 1) 1 * msPerDay - LocalTZA)) s
  /\ MakeDay y m 1 - 31 <= MakeDay y (m - 1) 1 <= MakeDay y m 1 - 28
  /\ MakeDay y m 1 + 28 <= MakeDay y (m + 1) 1 <= MakeDay y m 1 + 31
  /\ Day lt - 30 <= MakeDay y m 1 <= Day lt.
Proof.
  intros lt y m C Htz Hr Hy.
  pose proof (JSDateFacts.MonthFromTime_bounds lt) as Bm. fold m in Bm.
  pose proof (first_of_month lt) as EF. fold y m in EF.
  pose proof (JSDateFacts.DateFromTime_bounds lt) as Bt.
  pose proof (JSDateFacts.month_length y m Bm) as Mn.
  assert (Mp : 28 <= MakeDay y m 1 - MakeDay y (m - 1) 1 <= 31).
  { rewrite (MakeDay_previous y m Bm).
    destruct (Z.eqb_spec m 0) as [E | N].
    - pose proof (JSDateFacts.month_length (y - 1) 11 ltac:(lia)) as Q.
      change (11 + 1) with 12 in Q. rewrite JSDateFacts.MakeDay_12 in Q.
      replace (y - 1 + 1) with y in Q by lia.
      rewrite E. rewrite (JSDateFacts.MakeDay_small y 0) by lia.
      change (DayWithinYearOfMonth y 0) with 0. lia.
    - pose proof (JSDateFacts.month_length y (m - 1) ltac:(lia)) as Q.
      replace (m - 1 + 1) with m in Q by lia. exact Q. }
  split; [| split; [| lia]].
  - unfold onPrevious, previousMonth, getFullYear, getMonth. rewrite C.
    cbn [option_map sub]. fold lt. fold y m.
    rewrite ofYMD_first; [reflexivity | exact Hy | exact Htz | lia].
  - unfold onNext, nextMonth, getFullYear, getMonth. rewrite C.
    cbn [option_map add]. fold lt. fold y m.
    rewrite ofYMD_first; [reflexivity | exact Hy | exact Htz | lia].
Qed.

(** X20: Previous and Next, on a host whose offset is constant.  For an
    anchor outside the years 0 to 99, Previous shows the local midnight of
    the first of the month before,
    December of the year before when the anchor is in January, and Next that
    of the first of the month after, January of the year after when the
    anchor is in December; nothing else of the state changes. *)
Theorem navigation_months (s : State) (tv : Z) :
  let lt := LocalTime (constantTZA LocalTZA) tv in
  let y := YearFromTime lt in
  let m := MonthFromTime lt in
  currentDate s = Some tv ->
  - msPerDay <= LocalTZA <= msPerDay ->
  - 99999000 <= Day lt <= 99999000 ->
  (y < 0 \/ 99 < y) ->
  exists tp tn,
    onPrevious (constantTZA LocalTZA) s = setCurrentDate (Some tp) s
    /\ onNext (constantTZA LocalTZA) s = setCurrentDate (Some tn) s
    /\ YearFromTime (LocalTime (constantTZA LocalTZA) tp) = (if m =? 0 then y - 1 else y)
    /\ MonthFromTime (LocalTime (constantTZA LocalTZA) tp) = (if m =? 0 then 11 else m - 1)
    /\ DateFromTime (LocalTime (constantTZA LocalTZA) tp) = 1
    /\ TimeWithinDay (LocalTime (constantTZA LocalTZA) tp) = 0
    /\ YearFromTime (LocalTime (constantTZA LocalTZA) tn) = (if m =? 11 then y + 1 else y)
    /\ MonthFromTime (LocalTime (constantTZA LocalTZA) tn) = (if m =? 11 then 0 else m + 1)
    /\ DateFromTime (LocalTime (constantTZA LocalTZA) tn) = 1
    /\ TimeWithinDay (LocalTime (constantTZA LocalTZA) tn) = 0.
Proof.
  intros lt y m C Htz Hr Hy.
  assert (Hr' : - 99999900 <= Day lt <= 99999900) by lia.
  destruct (navigation_dates s tv C Htz Hr' Hy) as (P & N & _).
  fold lt in P, N. fold y m in P, N.
  pose proof (JSDateFacts.MonthFromTime_bounds lt) as Bm. fold m in Bm.
  exists (MakeDay y (m - 1) 1 * msPerDay - LocalTZA),
         (MakeDay y (m + 1) 1 * msPerDay - LocalTZA).
  split; [exact P |]. split; [exact N |].
  unfold constantTZA, LocalTime.
  replace (MakeDay y (m - 1) 1 * msPerDay - LocalTZA + LocalTZA)
    with (MakeDay y (m - 1) 1 * msPerDay) by lia.
  replace (MakeDay y (m + 1) 1 * msPerDay - LocalTZA + LocalTZA)
    with (MakeDay y (m + 1) 1 * msPerDay) by lia.
  rewrite (MakeDay_previous y m Bm), (MakeDay_next y m Bm).
  assert (T : forall d, TimeWithinDay (d * msPerDay) = 0)
    by (intros d; unfold TimeWithinDay; apply Z.mod_mul; discriminate).
  destruct (JSDateFacts.fields_of_MakeDay
              (if m =? 0 then y - 1 else y) (if m =? 0 then 11 else m - 1) 1)
    as (P1 & P2 & P3).
  { destruct (Z.eqb_spec m 0); lia. }
  { pose proof (JSDateFacts.month_length (if m =? 0 then y - 1 else y)
                  (if m =? 0 then 11 else m - 1)) as Q.
    destruct (Z.eqb_spec m 0); lia. }
  destruct (JSDateFacts.fields_of_MakeDay
              (if m =? 11 then y + 1 else y) (if m =? 11 then 0 else m + 1) 1)
    as (N1 & N2 & N3).
  { destruct (Z.eqb_spec m 11); lia. }
  { pose proof (JSDateFacts.month_length (if m =? 11 then y + 1 else y)
                  (if m =? 11 then 0 else m + 1)) as Q.
    destruct (Z.eqb_spec m 11); lia. }
  cbv zeta in P1, P2, P3, N1, N2, N3.
  repeat split; try assumption; apply T.
Qed.

(** The grid depends on the year and the month of the anchor only. *)
Lemma getDaysInMonth_month_only (fuel : nat) (t1 t2 : Z) :
  YearFromTime (LocalTime (constantTZA LocalTZA) t1) = YearFromTime (LocalTime (constantTZA LocalTZA) t2) ->
  MonthFromTime (LocalTime (constantTZA LocalTZA) t1)
  = MonthFromTime (LocalTime (constantTZA LocalTZA) t2) ->
  getDaysInMonth (constantTZA LocalTZA) fuel (Some t1)
  = getDaysInMonth (constantTZA LocalTZA) fuel (Some t2).
Proof.
  intros Y M. unfold getDaysInMonth, getFullYear, getMonth.
  cbn [option_map]. now rewrite Y, M.
Qed.

(** X21: on a host whose offset is constant, Next after Previous, and
    Previous after Next, come back to the anchor's month: to the local midnight of its first day, whose grid is
    the grid of the anchor.  This holds outside the years -1 to 100: within
    them one of the two steps passes through the years 0 to 99. *)
Theorem navigation_round_trip (s : State) (tv : Z) :
  let lt := LocalTime (constantTZA LocalTZA) tv in
  let y := YearFromTime lt in
  let first := Some ((Day lt - (DateFromTime lt - 1)) * msPerDay - LocalTZA) in
  currentDate s = Some tv ->
  - msPerDay <= LocalTZA <= msPerDay ->
  - 99999000 <= Day lt <= 99999000 ->
  (y < - 1 \/ 100 < y) ->
  onNext (constantTZA LocalTZA) (onPrevious (constantTZA LocalTZA) s) = setCurrentDate first s
  /\ onPrevious (constantTZA LocalTZA) (onNext (constantTZA LocalTZA) s) = setCurrentDate first s
  /\ forall fuel,
       getDaysInMonth (constantTZA LocalTZA) fuel first
       = getDaysInMonth (constantTZA LocalTZA) fuel (Some tv).
Proof.
  intros lt y first C Htz Hr Hy.
  set (m := MonthFromTime lt).
  pose proof (JSDateFacts.MonthFromTime_bounds lt) as Bm. fold m in Bm.
  pose proof (first_of_month lt) as EF. fold y m in EF.
  assert (Hr' : - 99999900 <= Day lt <= 99999900) by lia.
  assert (Hy' : y < 0 \/ 99 < y) by lia.
  destruct (navigation_dates s tv C Htz Hr' Hy')
    as (P & N & Rp & Rn & Rf).
  fold lt in P, N, Rp, Rn, Rf. fold y m in P, N, Rp, Rn, Rf.
  assert (T : forall d, LocalTime (constantTZA LocalTZA) (d * msPerDay - LocalTZA)
                        = d * msPerDay) by (intros d; unfold constantTZA, LocalTime; lia).
  destruct (JSDateFacts.fields_of_MakeDay
              (if m =? 0 then y - 1 else y) (if m =? 0 then 11 else m - 1) 1)
    as (P1 & P2 & _).
  { destruct (Z.eqb_spec m 0); lia. }
  { pose proof (JSDateFacts.month_length (if m =? 0 then y - 1 else y)
                  (if m =? 0 then 11 else m - 1)) as Q.
    destruct (Z.eqb_spec m 0); lia. }
  destruct (JSDateFacts.fields_of_MakeDay
              (if m =? 11 then y + 1 else y) (if m =? 11 then 0 else m + 1) 1)
    as (N1 & N2 & _).
  { destruct (Z.eqb_spec m 11); lia. }
  { pose proof (JSDateFacts.month_length (if m =? 11 then y + 1 else y)
                  (if m =? 11 then 0 else m + 1)) as Q.
    destruct (Z.eqb_spec m 11); lia. }
  cbv zeta in P1, P2, N1, N2.
  rewrite <- (MakeDay_previous y m Bm) in P1, P2.
  rewrite <- (MakeDay_next y m Bm) in N1, N2.
  assert (Bp : MakeDay (if m =? 0 then y - 1 else y)
                 ((if m =? 0 then 11 else m - 1) + 1) 1 = MakeDay y m 1).
  { destruct (Z.eqb_spec m 0) as [E | E].
    - change (11 + 1) with 12. rewrite JSDateFacts.MakeDay_12, E.
      rewrite (JSDateFacts.MakeDay_small y 0) by lia.
      unfold DayWithinYearOfMonth.
      replace (y - 1 + 1) with y by lia. lia.
    - f_equal. lia. }
  assert (Bn : MakeDay (if m =? 11 then y + 1 else y)
                 ((if m =? 11 then 0 else m + 1) - 1) 1 = MakeDay y m 1).
  { destruct (Z.eqb_spec m 11) as [E | E].
    - rewrite (MakeDay_previous (y + 1) 0) by lia.
      change (0 =? 0) with true. cbv beta iota. rewrite E.
      do 2 f_equal. lia.
    - f_equal. lia. }
  split; [| split].
  - rewrite P.
    destruct (navigation_dates
                (setCurrentDate
                   (Some (MakeDay y (m - 1) 1 * msPerDay - LocalTZA)) s)
                (MakeDay y (m - 1) 1 * msPerDay - LocalTZA))
      as (_ & N' & _).
    + now destruct s.
    + exact Htz.
    + rewrite T, JSDateFacts.Day_of_days. lia.
    + rewrite T, P1. destruct (m =? 0); lia.
    + rewrite N'. rewrite T, P1, P2, Bp, EF.
      apply setCurrentDate_twice.
  - rewrite N.
    destruct (navigation_dates
                (setCurrentDate
                   (Some (MakeDay y (m + 1) 1 * msPerDay - LocalTZA)) s)
                (MakeDay y (m + 1) 1 * msPerDay - LocalTZA))
      as (P' & _).
    + now destruct s.
    + exact Htz.
    + rewrite T, JSDateFacts.Day_of_days. lia.
    + rewrite T, N1. destruct (m =? 11); lia.
    + rewrite P'. rewrite T, N1, N2, Bn, EF.
      apply setCurrentDate_twice.
  - intros fuel. unfold first. rewrite <- EF.
    destruct (JSDateFacts.fields_of_MakeDay y m 1 Bm) as (F1 & F2 & _).
    { pose proof (JSDateFacts.month_length y m Bm). lia. }
    cbv zeta in F1, F2.
    apply getDaysInMonth_month_only; rewrite T; assumption.
Qed.

End Navigation.

Lemma navigation_months_witness :
  exists tp tn,
    onPrevious (JSDate.constantTZA 19800000) (initialState 1704100000000)
    = setCurrentDate (Some tp) (initialState 1704100000000)
    /\ onNext (JSDate.constantTZA 19800000) (initialState 1704100000000)
       = setCurrentDate (Some tn) (initialState 1704100000000)
    /\ JSDate.YearFromTime (JSDate.LocalTime (JSDate.constantTZA 19800000) tp) = 2023%Z
    /\ JSDate.MonthFromTime (JSDate.LocalTime (JSDate.constantTZA 19800000) tp) = 11%Z
    /\ JSDate.DateFromTime (JSDate.LocalTime (JSDate.constantTZA 19800000) tp) = 1%Z
    /\ JSDate.TimeWithinDay (JSDate.LocalTime (JSDate.constantTZA 19800000) tp) = 0%Z
    /\ JSDate.YearFromTime (JSDate.LocalTime (JSDate.constantTZA 19800000) tn) = 2024%Z
    /\ JSDate.MonthFromTime (JSDate.LocalTime (JSDate.constantTZA 19800000) tn) = 1%Z
    /\ JSDate.DateFromTime (JSDate.LocalTime (JSDate.constantTZA 19800000) tn) = 1%Z
    /\ JSDate.TimeWithinDay (JSDate.LocalTime (JSDate.constantTZA 19800000) tn) = 0%Z.
Proof.
  apply (navigation_months 19800000%Z (initialState 1704100000000)
           1704100000000%Z).
  - reflexivity.
  - vm_compute. intuition discriminate.
  - vm_compute. intuition discriminate.
  - right. vm_compute. reflexivity.
Defined.

Lemma navigation_round_trip_witness :
  onNext (JSDate.constantTZA 19800000) (onPrevious (JSDate.constantTZA 19800000) (initialState 1704100000000))
  = setCurrentDate (Some 1704047400000%Z) (initialState 1704100000000).
Proof.
  refine (proj1 (navigation_round_trip 19800000%Z
                   (initialState 1704100000000) 1704100000000%Z _ _ _ _)).
  - reflexivity.
  - vm_compute. intuition discriminate.
  - vm_compute. intuition discriminate.
  - right. vm_compute. reflexivity.
Defined.

(** ** The filters *)

Lemma filter_imp_Subsequence {A : Type} (f g : A -> bool) (l : list A) :
  (forall x, f x = true -> g x = true) ->
  Subsequence (filter f l) (filter g l).
Proof.
  intros H. induction l as [| x l IH]; cbn [filter]; [constructor |].
  destruct (f x) eqn:F.
  - rewrite (H x F). now constructor.
  - destruct (g x); [now constructor | exact IH].
Qed.

Lemma prefix_empty (s : string) : String.prefix "" s = true.
Proof. now destruct s. Qed.

Lemma includes_empty (s : string) : JS.includes s "" = true.
Proof. destruct s; cbn [JS.includes]; now rewrite prefix_empty. Qed.









Section FilterMore.
Import JSDate.
Local Open Scope Z_scope.
Variable LocalTZA : Z -> bool -> Z.



(** X23: with the filters of the first render, or any with every category
    enabled, an empty search text and the time filter on all, every task is
    visible, and a tile shows the tasks whose range holds its key. *)
Theorem default_filters_show_all (now : Z) (s : State) :
  (forall c, includesCategory (categoryFilters s) c = true) ->
  searchTerm s = ""%string ->
  timeFilter s = TF_all ->
  filteredTasks LocalTZA now s = Some (tasks s)
  /\ forall d,
       getTasksForDate LocalTZA now s d
       = Some (filter (fun t => isDateInRange d (Task.startDate t)
                                   (Task.endDate t)) (tasks s)).
Proof.
  intros Hc Hs Ht.
  assert (E : filteredTasks LocalTZA now s = Some (tasks s)).
  { unfold filteredTasks. rewrite Ht, Hs. f_equal.
    cbn [JS.toLowerCase].
    induction (tasks s) as [| t l IH]; [reflexivity |].
    cbn [filter]. rewrite Hc, includes_empty. cbn [andb].
    now rewrite IH. }
  split; [exact E |]. intros d. unfold getTasksForDate. now rewrite E.
Qed.


End FilterMore.

Section FilterWindow.
Import JSDate.
Local Open Scope Z_scope.
(** The offset of a host whose local time is UTC shifted by the same amount
    at every instant. *)
Variable LocalTZA : Z.

(** X25: the time filter, on a host whose offset is constant.  At a clock
    reading in the years 0000 to 9999,
    three weeks before their end, the tasks visible within one week are
    among those visible within two, these among those within three, and
    these among those under all, in their order. *)
Theorem window_widens (now : Z) (s : State) :
  minKeyDay <= Day now -> Day now + 21 <= maxKeyDay ->
  exists l1 l2 l3,
    filteredTasks (constantTZA LocalTZA) now (setTimeFilter TF_1 s) = Some l1
    /\ filteredTasks (constantTZA LocalTZA) now (setTimeFilter TF_2 s) = Some l2
    /\ filteredTasks (constantTZA LocalTZA) now (setTimeFilter TF_3 s) = Some l3
    /\ Subsequence l1 l2
    /\ Subsequence l2 l3
    /\ Subsequence l3 (tasks s)
    /\ exists l4,
         filteredTasks (constantTZA LocalTZA) now (setTimeFilter TF_all s) = Some l4
         /\ Subsequence l3 l4.
Proof.
  intros Rl Rh.
  assert (Hlo : - 8640000000000000 <= now
                /\ now + 21 * msPerDay <= 8640000000000000).
  { unfold minKeyDay, maxKeyDay, Day, msPerDay in *.
    Z.div_mod_to_equations. lia. }
  destruct Hlo as [Hlo Hhi].
  destruct (window_keys LocalTZA now 1 Hlo ltac:(lia) Hhi) as [A B1].
  destruct (window_keys LocalTZA now 2 Hlo ltac:(lia) Hhi) as [_ B2].
  destruct (window_keys LocalTZA now 3 Hlo ltac:(lia) Hhi) as [_ B3].
  assert (K : forall w1 w2, 0 <= w1 <= w2 -> w2 <= 3 ->
                forall x, JS.le x (isoDateOfDay (Day now + 7 * w1)) = true ->
                          JS.le x (isoDateOfDay (Day now + 7 * w2)) = true).
  { intros w1 w2 H1 H2 x Hx. apply (le_trans _ _ _ Hx).
    apply KeyOrder.key_le; lia. }
  assert (St : forall f, filteredTasks (constantTZA LocalTZA) now (setTimeFilter f s)
                         = filteredTasks (constantTZA LocalTZA) now
                             (mkState (currentDate s) (tasks s)
                                (searchTerm s) (categoryFilters s) f
                                (showModal s) (modalTask s) (dragState s)
                                (createTaskState s)))
    by reflexivity.
  unfold filteredTasks.
  cbn [timeFilter setTimeFilter tasks categoryFilters searchTerm parseInt].
  cbv beta iota zeta. rewrite A, B1, B2, B3.
  do 3 eexists. split; [reflexivity |]. split; [reflexivity |].
  split; [reflexivity |].
  split; [| split; [| split]].
  - apply filter_imp_Subsequence. intros t. rewrite !andb_true_iff.
    intros [H1 H2]. split; [| exact H2]. now apply (K 1 2).
  - apply filter_imp_Subsequence. intros t. rewrite !andb_true_iff.
    intros [H1 H2]. split; [| exact H2]. now apply (K 2 3).
  - rewrite filter_filter. apply filter_Subsequence.
  - eexists. split; [reflexivity |]. apply filter_Subsequence.
Qed.

End FilterWindow.


Lemma default_filters_show_all_witness :
  filteredTasks (JSDate.constantTZA 19800000) 1710028800000 review_state = Some [review_task].
Proof.
  apply (default_filters_show_all (JSDate.constantTZA 19800000) 1710028800000 review_state).
  - intros c. now destruct c.
  - reflexivity.
  - reflexivity.
Defined.


Lemma window_widens_witness :
  exists l1 l2 l3,
    filteredTasks (JSDate.constantTZA 19800000) 1710028800000
      (setTimeFilter TF_1 review_state) = Some l1
    /\ filteredTasks (JSDate.constantTZA 19800000) 1710028800000
         (setTimeFilter TF_2 review_state) = Some l2
    /\ filteredTasks (JSDate.constantTZA 19800000) 1710028800000
         (setTimeFilter TF_3 review_state) = Some l3
    /\ Subsequence l1 l2
    /\ Subsequence l2 l3
    /\ Subsequence l3 (tasks review_state)
    /\ exists l4,
         filteredTasks (JSDate.constantTZA 19800000) 1710028800000
           (setTimeFilter TF_all review_state) = Some l4
         /\ Subsequence l3 l4.
Proof.
  apply (window_widens 19800000%Z 1710028800000 review_state);
    vm_compute; discriminate.
Defined.

(** ** Tasks on the tiles *)

Section Display.
Import JSDate.
Local Open Scope Z_scope.
Variable LocalTZA : Z -> bool -> Z.

(** X26: a task stored with its end before its start is on no tile: no key
    is in its range, so [getTasksForDate] never returns it, whatever the
    filters. *)
Theorem reversed_task_is_on_no_tile (now : Z) (s : State) (t : Task.t)
    (d : string) (l : list Task.t) :
  JS.le (Task.startDate t) (Task.endDate t) = false ->
  isDateInRange d (Task.startDate t) (Task.endDate t) = false
  /\ (getTasksForDate LocalTZA now s d = Some l -> ~ In t l).
Proof.
  intros R.
  assert (N : isDateInRange d (Task.startDate t) (Task.endDate t) = false).
  { apply not_true_is_false. intros Q. unfold isDateInRange, JS.ge in Q.
    apply andb_true_iff in Q as [Q1 Q2].
    pose proof (le_trans _ _ _ Q1 Q2) as Q. fold (JS.le (Task.startDate t) d) in Q1.
    congruence. }
  split; [exact N |]. unfold getTasksForDate.
  destruct (filteredTasks LocalTZA now s) as [f |]; [| discriminate].
  cbn [option_map]. intros [= <-] I. apply filter_In in I as [_ I].
  congruence.
Qed.

(** X27: the chip of a task on a tile.  For a task whose dates are the keys
    of the days [ns] and [ne] and a tile whose key is that of the day [nd]:
    the tile is in the range of the task iff [ns <= nd <= ne]; the chip is
    that of the first day iff [nd = ns], of the last iff [nd = ne]; the name
    is written on the first day only; and the chip is rounded on both sides,
    on the left, on the right or not at all accordingly. *)
Theorem chip_on_tile (t : Task.t) (d : string) (ns ne nd : Z) :
  isDateKey (Task.startDate t) ns ->
  isDateKey (Task.endDate t) ne ->
  isDateKey d nd ->
  isDateInRange d (Task.startDate t) (Task.endDate t)
  = (ns <=? nd) && (nd <=? ne)
  /\ isFirstDay t d = (nd =? ns)
  /\ isLastDay t d = (nd =? ne)
  /\ isMiddleDay t d = negb (nd =? ns) && negb (nd =? ne)
  /\ chipLabel t d = (if nd =? ns then Some (Task.name t) else None)
  /\ roundedClass t d
     = if (nd =? ns) && (nd =? ne) then "rounded"%string
       else if nd =? ns then "rounded-l"%string
       else if nd =? ne then "rounded-r"%string else ""%string.
Proof.
  intros Ks Ke Kd.
  assert (B : forall a b na nb, isDateKey a na -> isDateKey b nb ->
                JS.le a b = (na <=? nb)).
  { intros a b na nb [Ra ->] [Rb ->].
    pose proof (KeyOrder.key_le na nb Ra Rb) as K.
    destruct (Z.leb_spec na nb) as [L | L].
    - now apply K.
    - apply not_true_is_false. intros Q. apply K in Q. lia. }
  assert (Q : forall a b na nb, isDateKey a na -> isDateKey b nb ->
                String.eqb a b = (nb =? na)).
  { intros a b na nb Ka Kb.
    destruct (Z.eqb_spec nb na) as [E | E].
    - destruct Ka as [_ ->], Kb as [_ ->]. rewrite E.
      apply String.eqb_refl.
    - apply String.eqb_neq. intros ->. apply E.
      exact (isDateKey_injective _ _ _ Kb Ka). }
  assert (F : isFirstDay t d = (nd =? ns))
    by (unfold isFirstDay; now apply Q).
  assert (L : isLastDay t d = (nd =? ne))
    by (unfold isLastDay; now apply Q).
  split; [| split; [exact F | split; [exact L |]]].
  - unfold isDateInRange, JS.ge.
    change (String.leb (Task.startDate t) d)
      with (JS.le (Task.startDate t) d).
    now rewrite (B _ _ _ _ Ks Kd), (B _ _ _ _ Kd Ke).
  - unfold isMiddleDay, chipLabel, roundedClass. rewrite F, L.
    repeat split.
Qed.

End Display.

Lemma reversed_task_is_on_no_tile_witness :
  isDateInRange "2024-03-05"
    (Task.startDate
       (Task.mk "1" "Second" "2024-03-10" "2024-03-01" ToDo))
    (Task.endDate
       (Task.mk "1" "Second" "2024-03-10" "2024-03-01" ToDo))
  = false.
Proof.
  refine (proj1 (reversed_task_is_on_no_tile (JSDate.constantTZA 0) 0%Z review_state
                   (Task.mk "1" "Second" "2024-03-10" "2024-03-01" ToDo)
                   "2024-03-05" [] _)).
  reflexivity.
Defined.

Lemma chip_on_tile_witness :
  chipLabel review_task "2024-03-11" = None
  /\ roundedClass review_task "2024-03-11" = "".
Proof.
  destruct (chip_on_tile review_task "2024-03-11" 19792%Z 19794%Z 19793%Z)
    as (_ & _ & _ & _ & A1 & A2).
  - split; [vm_compute; intuition discriminate | reflexivity].
  - split; [vm_compute; intuition discriminate | reflexivity].
  - split; [vm_compute; intuition discriminate | reflexivity].
  - split; [exact A1 | exact A2].
Defined.
